(** * EDI processing service: tokenizer, structural validator, extractor,
      business-rule validator and request pipeline.

    Shallow embedding of [src/edi_parser.py], [src/edi_validator.py] and
    [src/edi_service.py].  Python [str] values are modelled by [string];
    characters are the code points below 256, on which Python's notion of
    white space and of decimal digit is the one tabulated in [PyStr]. *)

From Stdlib Require Import String Ascii List Bool Arith Lia Sorted.
From Stdlib Require Import Numbers.DecimalString.
Import ListNotations.
Open Scope string_scope.
Open Scope list_scope.
Open Scope nat_scope.

Infix "^^" := String.append (at level 60, right associativity).

(** ** Python string primitives *)

Module PyStr.

Definition LF : ascii := "010"%char.
Definition star : ascii := "*"%char.

(** [str.isspace] on one character (code points below 256):
    TAB, LF, VT, FF, CR, FS, GS, RS, US, SPACE, NEL and NBSP. *)
Definition isspace (c : ascii) : bool :=
  let n := nat_of_ascii c in
  ((9 <=? n) && (n <=? 13)) || ((28 <=? n) && (n <=? 32))
  || (n =? 133) || (n =? 160).

(** [\d] of the [re] module on one character. *)
Definition isdigit (c : ascii) : bool :=
  let n := nat_of_ascii c in (48 <=? n) && (n <=? 57).

Fixpoint lstrip (s : string) : string :=
  match s with
  | String c s' => if isspace c then lstrip s' else s
  | EmptyString => EmptyString
  end.

Fixpoint rstrip (s : string) : string :=
  match s with
  | String c s' =>
      let r := rstrip s' in
      if isspace c && String.eqb r "" then EmptyString else String c r
  | EmptyString => EmptyString
  end.

(** [s.strip()] *)
Definition strip (s : string) : string := rstrip (lstrip s).

(** [s.split(sep)] for a one-character separator: never the empty list. *)
Fixpoint split (sep : ascii) (s : string) : list string :=
  match s with
  | EmptyString => [EmptyString]
  | String c s' =>
      if Ascii.eqb c sep then EmptyString :: split sep s'
      else match split sep s' with
           | h :: t => String c h :: t
           | [] => [String c EmptyString]
           end
  end.

(** [enumerate(l)] *)
Definition enumerate {A : Type} (l : list A) : list (nat * A) :=
  combine (seq 0 (length l)) l.

(** [l[-3:]] *)
Definition last3 {A : Type} (l : list A) : list A :=
  skipn (length l - 3) l.

(** [str(n)] for a non-negative integer. *)
Definition str_of_nat (n : nat) : string :=
  NilZero.string_of_uint (Nat.to_uint n).

(** [a in l] for strings. *)
Definition mem (a : string) (l : list string) : bool :=
  existsb (String.eqb a) l.

(** Lines of a literal text, joined with LF. *)
Fixpoint unlines (l : list string) : string :=
  match l with
  | [] => EmptyString
  | [x] => x
  | x :: rest => x ^^ String LF (unlines rest)
  end.

End PyStr.

(** ** Segments and the tokenizer ([_split_into_segments]) *)

Record Segment : Type := mkSegment {
  segment_id : string;
  elements : list string;
  line_number : nat;
  position : nat
}.

(** One iteration of the loop over [enumerate(lines)]; [segments] is the
    list built so far. *)
Definition split_step (segments : list Segment) (il : nat * string)
  : list Segment :=
  let '(i, line) := il in
  let line := PyStr.strip line in
  if String.eqb line "" then segments
  else
    let elems := PyStr.split PyStr.star line in
    if length elems <? 2 then segments
    else match elems with
         | sid :: rest =>
             segments ++ [ {| segment_id := sid;
                              elements := rest;
                              line_number := i + 1;
                              position := length segments + 1 |} ]
         | [] => segments
         end.

Definition _split_into_segments (edi_message : string) : list Segment :=
  let lines := PyStr.split PyStr.LF (PyStr.strip edi_message) in
  fold_left split_step (PyStr.enumerate lines) [].

(** ** Exceptions

    Operations of the source that can raise are modelled in [result]; a
    [try]/[except Exception] block is a [match] on it. *)

Inductive py_exn : Type :=
| IndexError
| KeyError (key : string)
| ValueError (msg : string)
| AttributeError (type_name attr : string)
| TypeError.

(** [str(e)] *)
Definition exn_str (e : py_exn) : string :=
  match e with
  | IndexError => "list index out of range"
  | KeyError k => "'" ^^ k ^^ "'"
  | ValueError m => m
  | AttributeError t a =>
      "'" ^^ t ^^ "' object has no attribute '" ^^ a ^^ "'"
  | TypeError => "Parameter to CopyFrom() must be instance of same class"
  end.

Inductive result (A : Type) : Type :=
| Ok (a : A)
| Raise (e : py_exn).
Arguments Ok {A} a.
Arguments Raise {A} e.

Definition rbind {A B : Type} (c : result A) (k : A -> result B) : result B :=
  match c with
  | Ok a => k a
  | Raise e => Raise e
  end.

Notation "x <- c ;; k" := (rbind c (fun x => k))
  (at level 61, c at next level, right associativity).

(** [l[i]] for a non-negative index. *)
Definition py_getitem {A : Type} (l : list A) (i : nat) : result A :=
  match nth_error l i with
  | Some a => Ok a
  | None => Raise IndexError
  end.

(** [d[k]] on a dict given as an association list. *)
Fixpoint py_dict_get {A : Type} (d : list (string * A)) (k : string)
  : result A :=
  match d with
  | [] => Raise (KeyError k)
  | (k', v) :: d' => if String.eqb k' k then Ok v else py_dict_get d' k
  end.

(** [k in d] *)
Definition py_dict_mem {A : Type} (d : list (string * A)) (k : string)
  : bool :=
  existsb (fun kv => String.eqb (fst kv) k) d.

(** A loop body that can raise, iterated over a list. *)
Fixpoint rfold {A B : Type} (f : A -> B -> result A) (l : list B) (a : A)
  : result A :=
  match l with
  | [] => Ok a
  | b :: l' => a' <- f a b ;; rfold f l' a'
  end.

(** ** Messages of [edi_service_pb2]

    The generated protobuf module is not part of the sources; the messages
    are the records below, with the fields the code reads and writes.  A field
    that was never set reads as its default (empty string, zero, empty
    repeated field, default sub-message).  [F] is the type of [float]. *)

Inductive MessageLevel : Type :=
| MESSAGE_LEVEL_ERROR
| MESSAGE_LEVEL_WARNING
| MESSAGE_LEVEL_INFO.

Definition MessageLevel_eqb (a b : MessageLevel) : bool :=
  match a, b with
  | MESSAGE_LEVEL_ERROR, MESSAGE_LEVEL_ERROR => true
  | MESSAGE_LEVEL_WARNING, MESSAGE_LEVEL_WARNING => true
  | MESSAGE_LEVEL_INFO, MESSAGE_LEVEL_INFO => true
  | _, _ => false
  end.

Inductive ProcessingStatus : Type :=
| PROCESSING_STATUS_SUCCESS
| PROCESSING_STATUS_VALIDATION_ERROR
| PROCESSING_STATUS_PARSING_ERROR
| PROCESSING_STATUS_BUSINESS_RULE_ERROR
| PROCESSING_STATUS_UNSUPPORTED_MESSAGE_TYPE
| PROCESSING_STATUS_INTERNAL_ERROR.

Module ProcessingMessage.
Record t : Type := mk {
  level : MessageLevel;
  code : string;
  message : string;
  field : string;
  line_number : nat
}.
End ProcessingMessage.

Module Party.
Record t : Type := mk {
  entity_identifier_code : string;
  name : string
}.
Definition default : t := mk "" "".
End Party.

Module Quantity.
Record t (F : Type) : Type := mk {
  value : F;
  unit_of_measure : string
}.
Arguments mk {F}.
Arguments value {F}.
Arguments unit_of_measure {F}.
End Quantity.

Module Money.
Record t (F : Type) : Type := mk {
  value : F
}.
Arguments mk {F}.
Arguments value {F}.
End Money.

Module Product.
Record t : Type := mk {
  description : string;
  product_id : string
}.
Definition default : t := mk "" "".
End Product.

Module PurchaseOrderLineItem.
Record t (F : Type) : Type := mk {
  line_number : string;
  quantity_ordered : Quantity.t F;
  unit_price : Money.t F;
  product : Product.t
}.
Arguments mk {F}.
Arguments line_number {F}.
Arguments quantity_ordered {F}.
Arguments unit_price {F}.
Arguments product {F}.
End PurchaseOrderLineItem.

Module InvoiceLineItem.
Record t (F : Type) : Type := mk {
  line_number : string;
  quantity_invoiced : Quantity.t F;
  unit_price : Money.t F;
  product : Product.t
}.
Arguments mk {F}.
Arguments line_number {F}.
Arguments quantity_invoiced {F}.
Arguments unit_price {F}.
Arguments product {F}.
End InvoiceLineItem.

Module PurchaseOrderData.
Record t (F : Type) : Type := mk {
  po_number : string;
  po_date : string;
  buyer : Party.t;
  seller : Party.t;
  ship_to : Party.t;
  bill_to : Party.t;
  line_items : list (PurchaseOrderLineItem.t F)
}.
Arguments mk {F}.
Arguments po_number {F}.
Arguments po_date {F}.
Arguments buyer {F}.
Arguments seller {F}.
Arguments ship_to {F}.
Arguments bill_to {F}.
Arguments line_items {F}.
Definition default {F : Type} : t F :=
  mk "" "" Party.default Party.default Party.default Party.default [].
End PurchaseOrderData.

Module InvoiceData.
Record t (F : Type) : Type := mk {
  invoice_number : string;
  invoice_date : string;
  due_date : string;
  bill_to : Party.t;
  remit_to : Party.t;
  ship_from : Party.t;
  ship_to : Party.t;
  line_items : list (InvoiceLineItem.t F)
}.
Arguments mk {F}.
Arguments invoice_number {F}.
Arguments invoice_date {F}.
Arguments due_date {F}.
Arguments bill_to {F}.
Arguments remit_to {F}.
Arguments ship_from {F}.
Arguments ship_to {F}.
Arguments line_items {F}.
Definition default {F : Type} : t F :=
  mk "" "" "" Party.default Party.default Party.default Party.default [].
End InvoiceData.

Module AdvanceShipNoticeData.
Record t : Type := mk {
  shipment_id : string;
  shipment_date : string;
  expected_delivery_date : string;
  ship_from : Party.t;
  ship_to : Party.t;
  bill_to : Party.t;
  carrier : Party.t
}.
Definition default : t :=
  mk "" "" "" Party.default Party.default Party.default Party.default.
End AdvanceShipNoticeData.

Module TransactionSetAcknowledgment.
Record t : Type := mk {
  transaction_set_id : string;
  control_number : string;
  acknowledgment_code : string
}.
Definition default : t := mk "" "" "".
End TransactionSetAcknowledgment.

Module FunctionalAcknowledgmentData.
Record t : Type := mk {
  original_transaction_set_id : string;
  original_control_number : string;
  acknowledgment_code : string;
  transaction_set_acks : list TransactionSetAcknowledgment.t
}.
Definition default : t := mk "" "" "" [].
End FunctionalAcknowledgmentData.

(** The value of [ParseResult.data]: one message class per document kind,
    or Python's [None]. *)
Inductive ParsedData (F : Type) : Type :=
| IsPurchaseOrder (po_data : PurchaseOrderData.t F)
| IsInvoice (invoice_data : InvoiceData.t F)
| IsAdvanceShipNotice (asn_data : AdvanceShipNoticeData.t)
| IsFunctionalAcknowledgment (fa_data : FunctionalAcknowledgmentData.t)
| IsNone.
Arguments IsPurchaseOrder {F}.
Arguments IsInvoice {F}.
Arguments IsAdvanceShipNotice {F}.
Arguments IsFunctionalAcknowledgment {F}.
Arguments IsNone {F}.

(** [type(d).__name__] *)
Definition class_name {F : Type} (d : ParsedData F) : string :=
  match d with
  | IsPurchaseOrder _ => "PurchaseOrderData"
  | IsInvoice _ => "InvoiceData"
  | IsAdvanceShipNotice _ => "AdvanceShipNoticeData"
  | IsFunctionalAcknowledgment _ => "FunctionalAcknowledgmentData"
  | IsNone => "NoneType"
  end.

(** ** Python [float]

    [float(s)], the constant [0.0] and the comparison [x <= 0] are the only
    float operations of the code; they are taken as an interface.
    [py_float s = None] is [float(s)] raising [ValueError], whose text is
    [py_float_error s]. *)

Class PyFloat : Type := {
  float : Type;
  float_zero : float;
  py_float : string -> option float;
  py_float_error : string -> string;
  float_le_zero : float -> bool
}.

Definition float_of_str `{PyFloat} (s : string) : result float :=
  match py_float s with
  | Some x => Ok x
  | None => Raise (ValueError (py_float_error s))
  end.

(** ** Validation results and the monad of a validator body

    A validator body appends to its local list [messages] and may raise; the
    [except] clause of the caller still sees the messages appended before the
    exception.  [M] threads that list. *)

Record ValidationResult : Type := mkValidationResult {
  is_valid : bool;
  messages : list ProcessingMessage.t;
  has_errors : bool
}.

Definition M (A : Type) : Type :=
  list ProcessingMessage.t -> list ProcessingMessage.t * result A.

Definition m_ret {A : Type} (a : A) : M A := fun ms => (ms, Ok a).

Definition m_bind {A B : Type} (c : M A) (k : A -> M B) : M B :=
  fun ms =>
    match c ms with
    | (ms', Ok a) => k a ms'
    | (ms', Raise e) => (ms', Raise e)
    end.

Notation "x <~ c ;; k" := (m_bind c (fun x => k))
  (at level 61, c at next level, right associativity).

Definition m_lift {A : Type} (r : result A) : M A := fun ms => (ms, r).

(** [messages.append(msg)] *)
Definition m_append (msg : ProcessingMessage.t) : M unit :=
  fun ms => (ms ++ [msg], Ok tt).

(** [messages.extend(l)] *)
Definition m_extend (l : list ProcessingMessage.t) : M unit :=
  fun ms => (ms ++ l, Ok tt).

(** The current value of [messages]. *)
Definition m_messages : M (list ProcessingMessage.t) :=
  fun ms => (ms, Ok ms).

(** A [for] loop whose body updates the local variable [a]. *)
Fixpoint m_fold {A B : Type} (f : A -> B -> M A) (l : list B) (a : A)
  : M A :=
  match l with
  | [] => m_ret a
  | b :: l' => a' <~ f a b ;; m_fold f l' a'
  end.

(** [return ValidationResult(is_valid=..., messages=messages, has_errors=...)] *)
Definition m_return (valid errors : bool) : M ValidationResult :=
  ms <~ m_messages ;; m_ret (mkValidationResult valid ms errors).

(** A helper validator starts from [messages = []]; its list is lost when
    it raises. *)
Definition run_local {A : Type} (c : M A) : result A := snd (c []).

Definition error_msg (code message field : string) (line : nat)
  : ProcessingMessage.t :=
  ProcessingMessage.mk MESSAGE_LEVEL_ERROR code message field line.

Definition warning_msg (code message field : string) (line : nat)
  : ProcessingMessage.t :=
  ProcessingMessage.mk MESSAGE_LEVEL_WARNING code message field line.

Fixpoint str_list_eqb (a b : list string) : bool :=
  match a, b with
  | [], [] => true
  | x :: a', y :: b' => String.eqb x y && str_list_eqb a' b'
  | _, _ => false
  end.

(** ** Structural validation ([EdiValidator]) *)

Definition segment_patterns : list (string * list (string * list string)) :=
  [ ("850", [ ("required", ["ISA"; "GS"; "ST"; "BEG"; "SE"; "GE"; "IEA"]);
              ("optional", ["REF"; "N1"; "N3"; "N4"; "PO1"; "CTT"]) ]);
    ("810", [ ("required", ["ISA"; "GS"; "ST"; "BIG"; "SE"; "GE"; "IEA"]);
              ("optional", ["REF"; "N1"; "N3"; "N4"; "IT1"; "TDS"; "CTT"]) ]);
    ("856", [ ("required", ["ISA"; "GS"; "ST"; "BSN"; "SE"; "GE"; "IEA"]);
              ("optional",
               ["REF"; "N1"; "N3"; "N4"; "HL"; "PRF"; "TD1"; "TD5"]) ]);
    ("997", [ ("required", ["ISA"; "GS"; "ST"; "AK1"; "SE"; "GE"; "IEA"]);
              ("optional", ["AK2"; "AK5"; "AK9"]) ]) ].

Definition isa_element_lengths : list nat :=
  [2; 10; 2; 10; 2; 15; 2; 15; 6; 4; 1; 5; 2; 1; 1; 1].

Definition _validate_isa_segment (isa_segment : Segment)
  : result ValidationResult :=
  run_local
    (if negb (String.eqb (segment_id isa_segment) "ISA") then
       _ <~ m_append (error_msg "INVALID_ISA_SEGMENT"
                        "First segment must be ISA" "ISA" 0) ;;
       m_return false true
     else
       let elems := elements isa_segment in
       has_errors <~
         (if length elems <? 16 then
            _ <~ m_append (error_msg "INSUFFICIENT_ISA_ELEMENTS"
                             "ISA segment must have at least 16 elements"
                             "ISA" 0) ;;
            m_ret true
          else m_ret false) ;;
       _ <~ m_fold
              (fun (_ : unit) (ie : nat * nat) =>
                 let '(i, expected_length) := ie in
                 if i <? length elems then
                   element <~ m_lift (py_getitem elems i) ;;
                   if expected_length <? String.length element then
                     m_append
                       (warning_msg "ISA_ELEMENT_TOO_LONG"
                          ("ISA element " ^^ PyStr.str_of_nat (i + 1)
                           ^^ " exceeds maximum length of "
                           ^^ PyStr.str_of_nat expected_length)
                          ("ISA." ^^ PyStr.str_of_nat (i + 1)) 0)
                   else m_ret tt
                 else m_ret tt)
              (PyStr.enumerate isa_element_lengths) tt ;;
       m_return (negb has_errors) has_errors).

Definition _validate_segment_structure (segments : list Segment)
  (message_type : string) : result ValidationResult :=
  run_local
    (let expected_sequence := ["ISA"; "GS"; "ST"] in
     let segment_ids := map segment_id segments in
     has_errors <~
       m_fold
         (fun (has_errors : bool) (ie : nat * string) =>
            let '(i, expected_segment) := ie in
            mismatch <~
              (if i <? length segment_ids then
                 found <~ m_lift (py_getitem segment_ids i) ;;
                 m_ret (negb (String.eqb found expected_segment))
               else m_ret false) ;;
            if (mismatch : bool) then
              found <~ m_lift (py_getitem segment_ids i) ;;
              _ <~ m_append
                     (error_msg "INVALID_SEGMENT_ORDER"
                        ("Expected " ^^ expected_segment ^^ " at position "
                         ^^ PyStr.str_of_nat (i + 1) ^^ ", found " ^^ found)
                        expected_segment 0) ;;
              m_ret true
            else m_ret has_errors)
         (PyStr.enumerate expected_sequence) false ;;
     has_errors <~
       (if negb (str_list_eqb (PyStr.last3 segment_ids) ["SE"; "GE"; "IEA"])
        then
          _ <~ m_append
                 (error_msg "INVALID_CLOSING_SEGMENTS"
                    "Message must end with SE, GE, IEA segments"
                    "closing_segments" 0) ;;
          m_ret true
        else m_ret has_errors) ;;
     m_return (negb has_errors) has_errors).

Definition _validate_segment_elements (segments : list Segment)
  (message_type : string) : result ValidationResult :=
  run_local
    (has_errors <~
       m_fold
         (fun (has_errors : bool) (segment : Segment) =>
            let sid := segment_id segment in
            let elems := elements segment in
            if String.eqb sid "ST" && (length elems <? 2) then
              _ <~ m_append
                     (error_msg "INSUFFICIENT_ST_ELEMENTS"
                        "ST segment must have at least 2 elements" "ST"
                        (line_number segment)) ;;
              m_ret true
            else if String.eqb sid "BEG" && (length elems <? 3) then
              _ <~ m_append
                     (error_msg "INSUFFICIENT_BEG_ELEMENTS"
                        "BEG segment must have at least 3 elements" "BEG"
                        (line_number segment)) ;;
              m_ret true
            else m_ret has_errors)
         segments false ;;
     m_return (negb has_errors) has_errors).

(** The body of the [try] block of [validate_format]; [errors] is its
    local variable [has_errors]. *)
Definition validate_format_try (edi_message message_type : string)
  : M ValidationResult :=
  if negb (py_dict_mem segment_patterns message_type) then
    _ <~ m_append (error_msg "UNSUPPORTED_MESSAGE_TYPE"
                     ("Message type " ^^ message_type ^^ " is not supported")
                     "" 0) ;;
    m_return false true
  else
    let segments := _split_into_segments edi_message in
    match segments with
    | [] =>
        _ <~ m_append (error_msg "EMPTY_MESSAGE"
                         "EDI message is empty or contains no valid segments"
                         "" 0) ;;
        m_return false true
    | _ :: _ =>
        first <~ m_lift (py_getitem segments 0) ;;
        isa_validation <~ m_lift (_validate_isa_segment first) ;;
        _ <~ m_extend (messages isa_validation) ;;
        let errors := if has_errors isa_validation then true else false in
        pattern <~ m_lift (py_dict_get segment_patterns message_type) ;;
        required_segments <~ m_lift (py_dict_get pattern "required") ;;
        let segment_ids := map segment_id segments in
        errors <~
          m_fold
            (fun (errors : bool) (required_segment : string) =>
               if negb (PyStr.mem required_segment segment_ids) then
                 _ <~ m_append
                        (error_msg "MISSING_REQUIRED_SEGMENT"
                           ("Required segment " ^^ required_segment
                            ^^ " is missing")
                           required_segment 0) ;;
                 m_ret true
               else m_ret errors)
            required_segments errors ;;
        structure_validation <~
          m_lift (_validate_segment_structure segments message_type) ;;
        _ <~ m_extend (messages structure_validation) ;;
        let errors :=
          if has_errors structure_validation then true else errors in
        element_validation <~
          m_lift (_validate_segment_elements segments message_type) ;;
        _ <~ m_extend (messages element_validation) ;;
        let errors :=
          if has_errors element_validation then true else errors in
        let is_valid := negb errors in
        m_return is_valid errors
    end.

(** [validate_format]: the [try] body, and the [except Exception] clause. *)
Definition validate_format (edi_message message_type : string)
  : ValidationResult :=
  match validate_format_try edi_message message_type [] with
  | (_, Ok r) => r
  | (ms, Raise e) =>
      mkValidationResult false
        (ms ++ [error_msg "VALIDATION_ERROR"
                  ("Validation error: " ^^ exn_str e) "" 0])
        true
  end.

(** ** Extraction ([EdiParser]) *)

Record ParseResult (F : Type) : Type := mkParseResult {
  success : bool;
  data : ParsedData F;
  segments : option (list Segment);
  error_message : option string
}.
Arguments mkParseResult {F}.
Arguments success {F}.
Arguments data {F}.
Arguments segments {F}.
Arguments error_message {F}.

(** [_convert_segments_to_pb]: an [EdiSegment] has the four fields of a
    segment. *)
Definition _convert_segments_to_pb (segs : list Segment) : list Segment :=
  map (fun segment =>
         {| segment_id := segment_id segment;
            elements := elements segment;
            line_number := line_number segment;
            position := position segment |}) segs.

(** The party built from an N1 segment with at least two elements. *)
Definition n1_party (elems : list string) : result Party.t :=
  entity_code <- py_getitem elems 0 ;;
  name <- py_getitem elems 1 ;;
  Ok (Party.mk entity_code name).

Section Extraction.
Context `{PyFloat}.

(** [float(e) if e else 0.0] *)
Definition float_or_zero (e : string) : result float :=
  if String.eqb e "" then Ok float_zero else float_of_str e.

(** The body of the [PO1] branch up to [line_items.append]. *)
Definition parse_po1 (elems : list string)
  : result (PurchaseOrderLineItem.t float) :=
  let n := length elems in
  line_number <-
    (if 1 <=? n then py_getitem elems 0 else Ok "") ;;
  quantity_value <-
    (if 2 <=? n then e <- py_getitem elems 1 ;; float_or_zero e
     else Ok float_zero) ;;
  unit_of_measure <-
    (if 3 <=? n then py_getitem elems 2 else Ok "") ;;
  price_value <-
    (if 4 <=? n then e <- py_getitem elems 3 ;; float_or_zero e
     else Ok float_zero) ;;
  description <-
    (if 5 <=? n then py_getitem elems 4 else Ok "") ;;
  product_id <-
    (if 6 <=? n then py_getitem elems 5 else Ok "") ;;
  Ok {| PurchaseOrderLineItem.line_number := line_number;
        PurchaseOrderLineItem.quantity_ordered :=
          Quantity.mk quantity_value unit_of_measure;
        PurchaseOrderLineItem.unit_price := Money.mk price_value;
        PurchaseOrderLineItem.product :=
          Product.mk description product_id |}.

(** One iteration of the loop of [_parse_purchase_order]. *)
Definition purchase_order_step (po_data : PurchaseOrderData.t float)
  (segment : Segment) : result (PurchaseOrderData.t float) :=
  let sid := segment_id segment in
  let elems := elements segment in
  let n := length elems in
  if String.eqb sid "BEG" then
    po_data <-
      (if 2 <=? n then
         v <- (if 1 <? n then py_getitem elems 1 else Ok "") ;;
         Ok {| PurchaseOrderData.po_number := v;
               PurchaseOrderData.po_date := PurchaseOrderData.po_date po_data;
               PurchaseOrderData.buyer := PurchaseOrderData.buyer po_data;
               PurchaseOrderData.seller := PurchaseOrderData.seller po_data;
               PurchaseOrderData.ship_to := PurchaseOrderData.ship_to po_data;
               PurchaseOrderData.bill_to := PurchaseOrderData.bill_to po_data;
               PurchaseOrderData.line_items :=
                 PurchaseOrderData.line_items po_data |}
       else Ok po_data) ;;
    (if 3 <=? n then
       v <- (if 2 <? n then py_getitem elems 2 else Ok "") ;;
       Ok {| PurchaseOrderData.po_number := PurchaseOrderData.po_number po_data;
             PurchaseOrderData.po_date := v;
             PurchaseOrderData.buyer := PurchaseOrderData.buyer po_data;
             PurchaseOrderData.seller := PurchaseOrderData.seller po_data;
             PurchaseOrderData.ship_to := PurchaseOrderData.ship_to po_data;
             PurchaseOrderData.bill_to := PurchaseOrderData.bill_to po_data;
             PurchaseOrderData.line_items :=
               PurchaseOrderData.line_items po_data |}
     else Ok po_data)
  else if String.eqb sid "PO1" then
    line_item <- parse_po1 elems ;;
    Ok {| PurchaseOrderData.po_number := PurchaseOrderData.po_number po_data;
          PurchaseOrderData.po_date := PurchaseOrderData.po_date po_data;
          PurchaseOrderData.buyer := PurchaseOrderData.buyer po_data;
          PurchaseOrderData.seller := PurchaseOrderData.seller po_data;
          PurchaseOrderData.ship_to := PurchaseOrderData.ship_to po_data;
          PurchaseOrderData.bill_to := PurchaseOrderData.bill_to po_data;
          PurchaseOrderData.line_items :=
            PurchaseOrderData.line_items po_data ++ [line_item] |}
  else if String.eqb sid "N1" then
    if 2 <=? n then
      party <- n1_party elems ;;
      let entity_code := Party.entity_identifier_code party in
      let '(PurchaseOrderData.mk num date buyer seller ship_to bill_to items) :=
        po_data in
      if String.eqb entity_code "BY" then
        Ok (PurchaseOrderData.mk num date party seller ship_to bill_to items)
      else if String.eqb entity_code "SE" then
        Ok (PurchaseOrderData.mk num date buyer party ship_to bill_to items)
      else if String.eqb entity_code "ST" then
        Ok (PurchaseOrderData.mk num date buyer seller party bill_to items)
      else if String.eqb entity_code "BT" then
        Ok (PurchaseOrderData.mk num date buyer seller ship_to party items)
      else Ok po_data
    else Ok po_data
  else Ok po_data.

Definition _parse_purchase_order (segs : list Segment)
  : result (PurchaseOrderData.t float) :=
  rfold purchase_order_step segs PurchaseOrderData.default.

(** The body of the [IT1] branch up to [line_items.append]. *)
Definition parse_it1 (elems : list string)
  : result (InvoiceLineItem.t float) :=
  let n := length elems in
  line_number <-
    (if 1 <=? n then py_getitem elems 0 else Ok "") ;;
  quantity_value <-
    (if 2 <=? n then e <- py_getitem elems 1 ;; float_or_zero e
     else Ok float_zero) ;;
  unit_of_measure <-
    (if 3 <=? n then py_getitem elems 2 else Ok "") ;;
  price_value <-
    (if 4 <=? n then e <- py_getitem elems 3 ;; float_or_zero e
     else Ok float_zero) ;;
  description <-
    (if 5 <=? n then py_getitem elems 4 else Ok "") ;;
  product_id <-
    (if 6 <=? n then py_getitem elems 5 else Ok "") ;;
  Ok {| InvoiceLineItem.line_number := line_number;
        InvoiceLineItem.quantity_invoiced :=
          Quantity.mk quantity_value unit_of_measure;
        InvoiceLineItem.unit_price := Money.mk price_value;
        InvoiceLineItem.product := Product.mk description product_id |}.

(** One iteration of the loop of [_parse_invoice]. *)
Definition invoice_step (invoice_data : InvoiceData.t float)
  (segment : Segment) : result (InvoiceData.t float) :=
  let sid := segment_id segment in
  let elems := elements segment in
  let n := length elems in
  let '(InvoiceData.mk num date due bill_to remit_to ship_from ship_to items) :=
    invoice_data in
  if String.eqb sid "BIG" then
    date <- (if 1 <=? n then py_getitem elems 0 else Ok date) ;;
    num <- (if 2 <=? n then py_getitem elems 1 else Ok num) ;;
    due <- (if 3 <=? n then py_getitem elems 2 else Ok due) ;;
    Ok (InvoiceData.mk num date due bill_to remit_to ship_from ship_to items)
  else if String.eqb sid "IT1" then
    line_item <- parse_it1 elems ;;
    Ok (InvoiceData.mk num date due bill_to remit_to ship_from ship_to
          (items ++ [line_item]))
  else if String.eqb sid "N1" then
    if 2 <=? n then
      party <- n1_party elems ;;
      let entity_code := Party.entity_identifier_code party in
      if String.eqb entity_code "BT" then
        Ok (InvoiceData.mk num date due party remit_to ship_from ship_to items)
      else if String.eqb entity_code "RE" then
        Ok (InvoiceData.mk num date due bill_to party ship_from ship_to items)
      else if String.eqb entity_code "SF" then
        Ok (InvoiceData.mk num date due bill_to remit_to party ship_to items)
      else if String.eqb entity_code "ST" then
        Ok (InvoiceData.mk num date due bill_to remit_to ship_from party items)
      else Ok invoice_data
    else Ok invoice_data
  else Ok invoice_data.

Definition _parse_invoice (segs : list Segment)
  : result (InvoiceData.t float) :=
  rfold invoice_step segs InvoiceData.default.

End Extraction.

(** One iteration of the loop of [_parse_advance_ship_notice]. *)
Definition advance_ship_notice_step (asn_data : AdvanceShipNoticeData.t)
  (segment : Segment) : result AdvanceShipNoticeData.t :=
  let sid := segment_id segment in
  let elems := elements segment in
  let n := length elems in
  let '(AdvanceShipNoticeData.mk id date expected ship_from ship_to bill_to
          carrier) := asn_data in
  if String.eqb sid "BSN" then
    id <- (if 1 <=? n then py_getitem elems 0 else Ok id) ;;
    date <- (if 2 <=? n then py_getitem elems 1 else Ok date) ;;
    expected <- (if 3 <=? n then py_getitem elems 2 else Ok expected) ;;
    Ok (AdvanceShipNoticeData.mk id date expected ship_from ship_to bill_to
          carrier)
  else if String.eqb sid "HL" then Ok asn_data
  else if String.eqb sid "N1" then
    if 2 <=? n then
      party <- n1_party elems ;;
      let entity_code := Party.entity_identifier_code party in
      if String.eqb entity_code "SF" then
        Ok (AdvanceShipNoticeData.mk id date expected party ship_to bill_to
              carrier)
      else if String.eqb entity_code "ST" then
        Ok (AdvanceShipNoticeData.mk id date expected ship_from party bill_to
              carrier)
      else if String.eqb entity_code "BT" then
        Ok (AdvanceShipNoticeData.mk id date expected ship_from ship_to party
              carrier)
      else if String.eqb entity_code "CA" then
        Ok (AdvanceShipNoticeData.mk id date expected ship_from ship_to bill_to
              party)
      else Ok asn_data
    else Ok asn_data
  else Ok asn_data.

Definition _parse_advance_ship_notice (segs : list Segment)
  : result AdvanceShipNoticeData.t :=
  rfold advance_ship_notice_step segs AdvanceShipNoticeData.default.

(** One iteration of the loop of [_parse_functional_acknowledgment]. *)
Definition functional_acknowledgment_step
  (fa_data : FunctionalAcknowledgmentData.t) (segment : Segment)
  : result FunctionalAcknowledgmentData.t :=
  let sid := segment_id segment in
  let elems := elements segment in
  let n := length elems in
  let '(FunctionalAcknowledgmentData.mk set_id control ack_code acks) :=
    fa_data in
  if String.eqb sid "AK1" then
    set_id <- (if 1 <=? n then py_getitem elems 0 else Ok set_id) ;;
    control <- (if 2 <=? n then py_getitem elems 1 else Ok control) ;;
    ack_code <- (if 3 <=? n then py_getitem elems 2 else Ok ack_code) ;;
    Ok (FunctionalAcknowledgmentData.mk set_id control ack_code acks)
  else if String.eqb sid "AK2" then
    transaction_set_id <- (if 1 <=? n then py_getitem elems 0 else Ok "") ;;
    control_number <- (if 2 <=? n then py_getitem elems 1 else Ok "") ;;
    acknowledgment_code <-
      (if 3 <=? n then py_getitem elems 2 else Ok "") ;;
    Ok (FunctionalAcknowledgmentData.mk set_id control ack_code
          (acks ++ [TransactionSetAcknowledgment.mk transaction_set_id
                      control_number acknowledgment_code]))
  else if String.eqb sid "AK5" then
    ack_code <- (if 1 <=? n then py_getitem elems 0 else Ok ack_code) ;;
    Ok (FunctionalAcknowledgmentData.mk set_id control ack_code acks)
  else Ok fa_data.

Definition _parse_functional_acknowledgment (segs : list Segment)
  : result FunctionalAcknowledgmentData.t :=
  rfold functional_acknowledgment_step segs FunctionalAcknowledgmentData.default.

Section Parser.
Context `{PyFloat}.

(** The body of the [try] block of [parse_message]. *)
Definition parse_message_try (edi_message message_type : string)
  : result (ParseResult float) :=
  let segs := _split_into_segments edi_message in
  parsed <-
    (if String.eqb message_type "850" then
       d <- _parse_purchase_order segs ;; Ok (IsPurchaseOrder d)
     else if String.eqb message_type "810" then
       d <- _parse_invoice segs ;; Ok (IsInvoice d)
     else if String.eqb message_type "856" then
       d <- _parse_advance_ship_notice segs ;;
       Ok (IsAdvanceShipNotice d)
     else if String.eqb message_type "997" then
       d <- _parse_functional_acknowledgment segs ;;
       Ok (IsFunctionalAcknowledgment d)
     else Ok IsNone) ;;
  match parsed with
  | IsNone =>
      Ok (mkParseResult false IsNone None
            (Some ("Unsupported message type: " ^^ message_type)))
  | d =>
      let pb_segments := _convert_segments_to_pb segs in
      Ok (mkParseResult true d (Some pb_segments) None)
  end.

Definition parse_message (edi_message message_type : string)
  : ParseResult float :=
  match parse_message_try edi_message message_type with
  | Ok r => r
  | Raise e =>
      mkParseResult false IsNone None (Some ("Parsing error: " ^^ exn_str e))
  end.

End Parser.

(** ** Business rules ([EdiValidator]) *)

Section BusinessRules.
Context `{PyFloat}.

(** A rule set reads the fields of its own message class; on a value of
    another class the first attribute access raises. *)
Definition _validate_purchase_order_rules (parsed_data : ParsedData float)
  : result ValidationResult :=
  run_local
    (match parsed_data with
     | IsPurchaseOrder po_data =>
         has_errors <~
           (if String.eqb (PurchaseOrderData.po_number po_data) "" then
              _ <~ m_append (error_msg "MISSING_PO_NUMBER"
                               "Purchase Order number is required"
                               "po_number" 0) ;;
              m_ret true
            else m_ret false) ;;
         has_errors <~
           (match PurchaseOrderData.line_items po_data with
            | [] =>
                _ <~ m_append
                       (error_msg "NO_LINE_ITEMS"
                          "Purchase Order must have at least one line item"
                          "line_items" 0) ;;
                m_ret true
            | _ :: _ => m_ret has_errors
            end) ;;
         has_errors <~
           m_fold
             (fun (has_errors : bool)
                  (il : nat * PurchaseOrderLineItem.t float) =>
                let '(i, line_item) := il in
                has_errors <~
                  (if String.eqb (PurchaseOrderLineItem.line_number line_item)
                        ""
                   then
                     _ <~ m_append
                            (error_msg "MISSING_LINE_NUMBER"
                               ("Line item " ^^ PyStr.str_of_nat (i + 1)
                                ^^ " must have a line number")
                               ("line_items[" ^^ PyStr.str_of_nat i
                                ^^ "].line_number") 0) ;;
                     m_ret true
                   else m_ret has_errors) ;;
                if float_le_zero
                     (Quantity.value
                        (PurchaseOrderLineItem.quantity_ordered line_item))
                then
                  _ <~ m_append
                         (error_msg "INVALID_QUANTITY"
                            ("Line item " ^^ PyStr.str_of_nat (i + 1)
                             ^^ " quantity must be greater than 0")
                            ("line_items[" ^^ PyStr.str_of_nat i
                             ^^ "].quantity_ordered") 0) ;;
                  m_ret true
                else m_ret has_errors)
             (PyStr.enumerate (PurchaseOrderData.line_items po_data))
             has_errors ;;
         m_return (negb has_errors) has_errors
     | other =>
         m_lift (Raise (AttributeError (class_name other) "po_number"))
     end).

Definition _validate_invoice_rules (parsed_data : ParsedData float)
  : result ValidationResult :=
  run_local
    (match parsed_data with
     | IsInvoice invoice_data =>
         has_errors <~
           (if String.eqb (InvoiceData.invoice_number invoice_data) "" then
              _ <~ m_append (error_msg "MISSING_INVOICE_NUMBER"
                               "Invoice number is required"
                               "invoice_number" 0) ;;
              m_ret true
            else m_ret false) ;;
         has_errors <~
           (match InvoiceData.line_items invoice_data with
            | [] =>
                _ <~ m_append
                       (error_msg "NO_LINE_ITEMS"
                          "Invoice must have at least one line item"
                          "line_items" 0) ;;
                m_ret true
            | _ :: _ => m_ret has_errors
            end) ;;
         m_return (negb has_errors) has_errors
     | other =>
         m_lift (Raise (AttributeError (class_name other) "invoice_number"))
     end).

Definition _validate_asn_rules (parsed_data : ParsedData float)
  : result ValidationResult :=
  run_local
    (match parsed_data with
     | IsAdvanceShipNotice asn_data =>
         has_errors <~
           (if String.eqb (AdvanceShipNoticeData.shipment_id asn_data) ""
            then
              _ <~ m_append (error_msg "MISSING_SHIPMENT_ID"
                               "Shipment ID is required" "shipment_id" 0) ;;
              m_ret true
            else m_ret false) ;;
         m_return (negb has_errors) has_errors
     | other =>
         m_lift (Raise (AttributeError (class_name other) "shipment_id"))
     end).

Definition _validate_functional_ack_rules (parsed_data : ParsedData float)
  : result ValidationResult :=
  run_local
    (match parsed_data with
     | IsFunctionalAcknowledgment fa_data =>
         has_errors <~
           (if String.eqb
                 (FunctionalAcknowledgmentData.original_transaction_set_id
                    fa_data) ""
            then
              _ <~ m_append
                     (error_msg "MISSING_ORIGINAL_TRANSACTION_SET_ID"
                        "Original transaction set ID is required"
                        "original_transaction_set_id" 0) ;;
              m_ret true
            else m_ret false) ;;
         m_return (negb has_errors) has_errors
     | other =>
         m_lift
           (Raise
              (AttributeError (class_name other)
                 "original_transaction_set_id"))
     end).

(** The body of the [try] block of [validate_business_rules]. *)
Definition validate_business_rules_try (parsed_data : ParsedData float)
  (message_type : string) : M ValidationResult :=
  errors <~
    (if String.eqb message_type "850" then
       po_validation <~ m_lift (_validate_purchase_order_rules parsed_data) ;;
       _ <~ m_extend (messages po_validation) ;;
       m_ret (has_errors po_validation)
     else if String.eqb message_type "810" then
       invoice_validation <~ m_lift (_validate_invoice_rules parsed_data) ;;
       _ <~ m_extend (messages invoice_validation) ;;
       m_ret (has_errors invoice_validation)
     else if String.eqb message_type "856" then
       asn_validation <~ m_lift (_validate_asn_rules parsed_data) ;;
       _ <~ m_extend (messages asn_validation) ;;
       m_ret (has_errors asn_validation)
     else if String.eqb message_type "997" then
       fa_validation <~ m_lift (_validate_functional_ack_rules parsed_data) ;;
       _ <~ m_extend (messages fa_validation) ;;
       m_ret (has_errors fa_validation)
     else m_ret false) ;;
  let is_valid := negb errors in
  m_return is_valid errors.

Definition validate_business_rules (parsed_data : ParsedData float)
  (message_type : string) : ValidationResult :=
  match validate_business_rules_try parsed_data message_type [] with
  | (_, Ok r) => r
  | (ms, Raise e) =>
      mkValidationResult false
        (ms ++ [error_msg "BUSINESS_RULE_ERROR"
                  ("Business rule validation error: " ^^ exn_str e) "" 0])
        true
  end.

End BusinessRules.

(** ** The service ([EdiServiceServicer]) *)

Module EdiMessageType.
Record t : Type := mk {
  code : string;
  name : string;
  description : string;
  supported : bool;
  required_segments : list string;
  optional_segments : list string
}.
End EdiMessageType.

Module ProcessingOptions.
Record t : Type := mk {
  validate_format : bool;
  validate_business_rules : bool;
  include_parsing_details : bool;
  include_raw_segments : bool
}.
End ProcessingOptions.

Module ProcessEdiMessageRequest.
Record t : Type := mk {
  edi_message : string;
  message_type : string;
  customer_id : string;
  options : ProcessingOptions.t
}.
End ProcessEdiMessageRequest.

(** The response without its [processed_at] time stamp. *)
Module ProcessEdiMessageResponse.
Record t (F : Type) : Type := mk {
  status : ProcessingStatus;
  message_type : string;
  messages : list ProcessingMessage.t;
  purchase_order : option (PurchaseOrderData.t F);
  invoice : option (InvoiceData.t F);
  advance_ship_notice : option AdvanceShipNoticeData.t;
  functional_acknowledgment : option FunctionalAcknowledgmentData.t;
  parsed_segments : list Segment
}.
Arguments mk {F}.
Arguments status {F}.
Arguments message_type {F}.
Arguments messages {F}.
Arguments purchase_order {F}.
Arguments invoice {F}.
Arguments advance_ship_notice {F}.
Arguments functional_acknowledgment {F}.
Arguments parsed_segments {F}.
(** A response built from status, type and messages only. *)
Definition plain {F : Type} (st : ProcessingStatus) (ty : string)
  (ms : list ProcessingMessage.t) : t F :=
  mk st ty ms None None None None [].
End ProcessEdiMessageResponse.

Definition supported_types : list EdiMessageType.t :=
  [ EdiMessageType.mk "850" "Purchase Order"
      "EDI 850 Purchase Order transaction set" true
      ["ISA"; "GS"; "ST"; "BEG"; "SE"; "GE"; "IEA"]
      ["REF"; "N1"; "N3"; "N4"; "PO1"; "CTT"];
    EdiMessageType.mk "810" "Invoice"
      "EDI 810 Invoice transaction set" true
      ["ISA"; "GS"; "ST"; "BIG"; "SE"; "GE"; "IEA"]
      ["REF"; "N1"; "N3"; "N4"; "IT1"; "TDS"; "CTT"];
    EdiMessageType.mk "856" "Advance Ship Notice"
      "EDI 856 Advance Ship Notice transaction set" true
      ["ISA"; "GS"; "ST"; "BSN"; "SE"; "GE"; "IEA"]
      ["REF"; "N1"; "N3"; "N4"; "HL"; "PRF"; "TD1"; "TD5"];
    EdiMessageType.mk "997" "Functional Acknowledgment"
      "EDI 997 Functional Acknowledgment transaction set" true
      ["ISA"; "GS"; "ST"; "AK1"; "SE"; "GE"; "IEA"]
      ["AK2"; "AK5"; "AK9"] ].

Definition _is_message_type_supported (message_type : string) : bool :=
  existsb (fun msg_type => String.eqb (EdiMessageType.code msg_type) message_type)
    supported_types.

Section Service.
Context `{PyFloat}.

(** One validation stage of [ProcessEdiMessage]: the messages of an invalid
    result are added to the request's list [messages] (here [msgs]); with
    errors the request ends there. *)
Definition stage (st : ProcessingStatus) (message_type : string)
  (msgs : list ProcessingMessage.t) (validation : ValidationResult)
  : ProcessEdiMessageResponse.t float + list ProcessingMessage.t :=
  if negb (is_valid validation) then
    let msgs := msgs ++ messages validation in
    if has_errors validation then
      inl (ProcessEdiMessageResponse.plain st message_type msgs)
    else inr msgs
  else inr msgs.

(** The body of the [try] block of [ProcessEdiMessage]. *)
Definition ProcessEdiMessage_try (request : ProcessEdiMessageRequest.t)
  : result (ProcessEdiMessageResponse.t float) :=
  let edi_message := ProcessEdiMessageRequest.edi_message request in
  let message_type := ProcessEdiMessageRequest.message_type request in
  let options := ProcessEdiMessageRequest.options request in
  if negb (_is_message_type_supported message_type) then
    Ok (ProcessEdiMessageResponse.plain
          PROCESSING_STATUS_UNSUPPORTED_MESSAGE_TYPE message_type
          [error_msg "UNSUPPORTED_MESSAGE_TYPE"
             ("Message type " ^^ message_type ^^ " is not supported") "" 0])
  else
    let messages := [] in
    match
      (if ProcessingOptions.validate_format options then
         stage PROCESSING_STATUS_VALIDATION_ERROR message_type messages
           (validate_format edi_message message_type)
       else inr messages)
    with
    | inl response => Ok response
    | inr messages =>
        let parse_result := parse_message edi_message message_type in
        if negb (success parse_result) then
          Ok (ProcessEdiMessageResponse.plain
                PROCESSING_STATUS_PARSING_ERROR message_type
                [error_msg "PARSING_ERROR"
                   (match error_message parse_result with
                    | Some m => m
                    | None => ""
                    end) "" 0])
        else
          match
            (if ProcessingOptions.validate_business_rules options then
               stage PROCESSING_STATUS_BUSINESS_RULE_ERROR message_type
                 messages
                 (validate_business_rules (data parse_result) message_type)
             else inr messages)
          with
          | inl response => Ok response
          | inr messages =>
              let response :=
                ProcessEdiMessageResponse.plain PROCESSING_STATUS_SUCCESS
                  message_type messages in
              let '(ProcessEdiMessageResponse.mk st ty ms po inv asn fa segs) :=
                response in
              response <-
                (if String.eqb message_type "850" then
                   match data parse_result with
                   | IsPurchaseOrder d =>
                       Ok (ProcessEdiMessageResponse.mk st ty ms (Some d) inv
                             asn fa segs)
                   | _ => Raise TypeError
                   end
                 else if String.eqb message_type "810" then
                   match data parse_result with
                   | IsInvoice d =>
                       Ok (ProcessEdiMessageResponse.mk st ty ms po (Some d)
                             asn fa segs)
                   | _ => Raise TypeError
                   end
                 else if String.eqb message_type "856" then
                   match data parse_result with
                   | IsAdvanceShipNotice d =>
                       Ok (ProcessEdiMessageResponse.mk st ty ms po inv
                             (Some d) fa segs)
                   | _ => Raise TypeError
                   end
                 else if String.eqb message_type "997" then
                   match data parse_result with
                   | IsFunctionalAcknowledgment d =>
                       Ok (ProcessEdiMessageResponse.mk st ty ms po inv asn
                             (Some d) segs)
                   | _ => Raise TypeError
                   end
                 else Ok response) ;;
              if ProcessingOptions.include_raw_segments options then
                match segments parse_result with
                | Some l =>
                    let '(ProcessEdiMessageResponse.mk st ty ms po inv asn fa
                            segs) := response in
                    Ok (ProcessEdiMessageResponse.mk st ty ms po inv asn fa
                          (segs ++ l))
                | None => Raise TypeError
                end
              else Ok response
          end
    end.

Definition ProcessEdiMessage (request : ProcessEdiMessageRequest.t)
  : ProcessEdiMessageResponse.t float :=
  match ProcessEdiMessage_try request with
  | Ok response => response
  | Raise e =>
      ProcessEdiMessageResponse.plain PROCESSING_STATUS_INTERNAL_ERROR
        (ProcessEdiMessageRequest.message_type request)
        [error_msg "INTERNAL_ERROR"
           ("Internal server error: " ^^ exn_str e) "" 0]
  end.

End Service.

(** ** Version and type detection ([re.search])

    The two detectors search the raw text with regular expressions built
    from literals, [\d] and [[^c]*].  [match_here p s] holds when [p]
    matches a prefix of [s]; [search] finds the leftmost position where it
    does and returns the text from there on. *)

Module Re.

Inductive atom : Type :=
| Lit (c : ascii)
| Digit
| StarNot (c : ascii).

Definition pattern : Type := list atom.

Fixpoint match_here (p : pattern) : string -> bool :=
  match p with
  | [] => fun _ => true
  | Lit c :: p' =>
      fun s =>
        match s with
        | String a s' => if Ascii.eqb a c then match_here p' s' else false
        | EmptyString => false
        end
  | Digit :: p' =>
      fun s =>
        match s with
        | String a s' => if PyStr.isdigit a then match_here p' s' else false
        | EmptyString => false
        end
  | StarNot c :: p' =>
      fix star (s : string) : bool :=
        if match_here p' s then true
        else match s with
             | String a s' => if Ascii.eqb a c then false else star s'
             | EmptyString => false
             end
  end.

Fixpoint search (p : pattern) (s : string) : option string :=
  if match_here p s then Some s
  else match s with
       | String _ s' => search p s'
       | EmptyString => None
       end.

Definition lits (s : string) : pattern := map Lit (list_ascii_of_string s).

(** [[^*]*\*] *)
Definition field : pattern := [StarNot PyStr.star; Lit PyStr.star].

End Re.

(** [ISA\*] followed by [n] times [[^*]*\*] and the marker. *)
Definition version_pattern (n : nat) (marker : string) : Re.pattern :=
  Re.lits "ISA*" ++ concat (repeat Re.field n) ++ Re.lits marker.

(** The dict [edi_version_patterns], in insertion order: the pattern of
    004010 has 16 fields before the marker, that of 005010 has 17. *)
Definition edi_version_patterns : list (string * Re.pattern) :=
  [ ("004010", version_pattern 16 "004010");
    ("005010", version_pattern 17 "005010") ].

Fixpoint first_version (patterns : list (string * Re.pattern))
  (edi_message : string) : string :=
  match patterns with
  | [] => "Unknown"
  | (version, pattern) :: rest =>
      match Re.search pattern edi_message with
      | Some _ => version
      | None => first_version rest edi_message
      end
  end.

Definition detect_edi_version (edi_message : string) : string :=
  first_version edi_version_patterns edi_message.

(** [ST\*(\d{3})] *)
Definition st_pattern : Re.pattern :=
  Re.lits "ST*" ++ [Re.Digit; Re.Digit; Re.Digit].

(** [group(1)] of a match of [st_pattern]: the three characters after
    [ST*]. *)
Definition st_group1 (matched : string) : string := substring 3 3 matched.

Definition detect_message_type (edi_message : string) : string :=
  match Re.search st_pattern edi_message with
  | Some matched => st_group1 matched
  | None => "Unknown"
  end.

(** ** Auxiliary definitions for the tokenizer *)

(** What one line contributes: id, elements and line number, if anything. *)
Definition keep (il : nat * string) : option (string * list string * nat) :=
  let line := PyStr.strip (snd il) in
  if String.eqb line "" then None
  else
    match PyStr.split PyStr.star line with
    | sid :: e :: rest => Some (sid, e :: rest, fst il + 1)
    | _ => None
    end.

(** The segments contributed by numbered lines when [n] segments exist. *)
Fixpoint collect (ils : list (nat * string)) (n : nat) : list Segment :=
  match ils with
  | [] => []
  | il :: rest =>
      match keep il with
      | Some (sid, es, ln) =>
          {| segment_id := sid; elements := es; line_number := ln;
             position := n + 1 |} :: collect rest (S n)
      | None => collect rest n
      end
  end.

(** ** Auxiliary definitions for the validators

    The messages of each check as a function of its input, and the test
    behind [has_errors]. *)

Definition is_error (m : ProcessingMessage.t) : bool :=
  MessageLevel_eqb (ProcessingMessage.level m) MESSAGE_LEVEL_ERROR.

Definition any_error (ms : list ProcessingMessage.t) : bool :=
  existsb is_error ms.

Definition codes (ms : list ProcessingMessage.t) : list string :=
  map ProcessingMessage.code ms.

Definition count_code (c : string) (ms : list ProcessingMessage.t) : nat :=
  length (filter (fun m => String.eqb (ProcessingMessage.code m) c) ms).

Definition invalid_isa_segment : ProcessingMessage.t :=
  error_msg "INVALID_ISA_SEGMENT" "First segment must be ISA" "ISA" 0.

Definition isa_length_message (elems : list string) (ie : nat * nat)
  : list ProcessingMessage.t :=
  match nth_error elems (fst ie) with
  | Some element =>
      if snd ie <? String.length element then
        [warning_msg "ISA_ELEMENT_TOO_LONG"
           ("ISA element " ^^ PyStr.str_of_nat (fst ie + 1)
            ^^ " exceeds maximum length of " ^^ PyStr.str_of_nat (snd ie))
           ("ISA." ^^ PyStr.str_of_nat (fst ie + 1)) 0]
      else []
  | None => []
  end.

Definition isa_messages (isa_segment : Segment) : list ProcessingMessage.t :=
  if negb (String.eqb (segment_id isa_segment) "ISA") then
    [invalid_isa_segment]
  else
    (if length (elements isa_segment) <? 16 then
       [error_msg "INSUFFICIENT_ISA_ELEMENTS"
          "ISA segment must have at least 16 elements" "ISA" 0]
     else [])
    ++ flat_map (isa_length_message (elements isa_segment))
         (PyStr.enumerate isa_element_lengths).

Definition invalid_segment_order (i : nat) (expected found : string)
  : ProcessingMessage.t :=
  error_msg "INVALID_SEGMENT_ORDER"
    ("Expected " ^^ expected ^^ " at position " ^^ PyStr.str_of_nat (i + 1)
     ^^ ", found " ^^ found)
    expected 0.

Definition order_message (segment_ids : list string) (ie : nat * string)
  : list ProcessingMessage.t :=
  match nth_error segment_ids (fst ie) with
  | Some found =>
      if negb (String.eqb found (snd ie)) then
        [invalid_segment_order (fst ie) (snd ie) found]
      else []
  | None => []
  end.

Definition invalid_closing_segments : ProcessingMessage.t :=
  error_msg "INVALID_CLOSING_SEGMENTS"
    "Message must end with SE, GE, IEA segments" "closing_segments" 0.

Definition closing_messages (segment_ids : list string)
  : list ProcessingMessage.t :=
  if negb (str_list_eqb (PyStr.last3 segment_ids) ["SE"; "GE"; "IEA"]) then
    [invalid_closing_segments]
  else [].

Definition structure_messages (segs : list Segment)
  : list ProcessingMessage.t :=
  flat_map (order_message (map segment_id segs))
    (PyStr.enumerate ["ISA"; "GS"; "ST"])
  ++ closing_messages (map segment_id segs).

Definition element_message (segment : Segment) : list ProcessingMessage.t :=
  if String.eqb (segment_id segment) "ST"
     && (length (elements segment) <? 2) then
    [error_msg "INSUFFICIENT_ST_ELEMENTS"
       "ST segment must have at least 2 elements" "ST"
       (line_number segment)]
  else if String.eqb (segment_id segment) "BEG"
          && (length (elements segment) <? 3) then
    [error_msg "INSUFFICIENT_BEG_ELEMENTS"
       "BEG segment must have at least 3 elements" "BEG"
       (line_number segment)]
  else [].

Definition missing_message (segment_ids : list string)
  (required_segment : string) : list ProcessingMessage.t :=
  if negb (PyStr.mem required_segment segment_ids) then
    [error_msg "MISSING_REQUIRED_SEGMENT"
       ("Required segment " ^^ required_segment ^^ " is missing")
       required_segment 0]
  else [].

(** [segment_patterns[message_type]["required"]], empty for an unknown type. *)
Definition required_of (message_type : string) : list string :=
  match (pattern <- py_dict_get segment_patterns message_type ;;
         py_dict_get pattern "required") with
  | Ok l => l
  | Raise _ => []
  end.

(** The messages of the checks that follow the envelope-header check. *)
Definition later_messages (segs : list Segment) (message_type : string)
  : list ProcessingMessage.t :=
  flat_map (missing_message (map segment_id segs)) (required_of message_type)
  ++ structure_messages segs
  ++ flat_map element_message segs.

(** The invariant of a validation result. *)
Definition coherent (r : ValidationResult) : Prop :=
  has_errors r = any_error (messages r) /\ is_valid r = negb (has_errors r).

(** The messages of [validate_format] on a supported type and a non-empty
    segment list. *)
Definition format_messages (segs : list Segment) (ty : string)
  : list ProcessingMessage.t :=
  match segs with
  | [] => []
  | first :: _ => isa_messages first ++ later_messages segs ty
  end.

Definition unsupported_message_type (ty : string) : ProcessingMessage.t :=
  error_msg "UNSUPPORTED_MESSAGE_TYPE"
    ("Message type " ^^ ty ^^ " is not supported") "" 0.

Definition empty_message : ProcessingMessage.t :=
  error_msg "EMPTY_MESSAGE"
    "EDI message is empty or contains no valid segments" "" 0.

(** [validate_format] as a function of the type and the segments. *)
Definition format_result (segs : list Segment) (ty : string)
  : ValidationResult :=
  if negb (py_dict_mem segment_patterns ty) then
    mkValidationResult false [unsupported_message_type ty] true
  else
    match segs with
    | [] => mkValidationResult false [empty_message] true
    | _ :: _ =>
        let msgs := format_messages segs ty in
        mkValidationResult (negb (any_error msgs)) msgs (any_error msgs)
    end.

(** ** Auxiliary definitions for the extractors *)

(** A segment that assigns [acknowledgment_code] in a 997: an AK1 with a
    third element or an AK5 with a first element. *)
Definition writes_acknowledgment_code (segment : Segment) : bool :=
  (String.eqb (segment_id segment) "AK1" && (3 <=? length (elements segment)))
  || (String.eqb (segment_id segment) "AK5"
      && (1 <=? length (elements segment))).

(** The code such a segment assigns: element 3 of an AK1, element 1 of an
    AK5. *)
Definition written_code (segment : Segment) : string :=
  if String.eqb (segment_id segment) "AK1" then nth 2 (elements segment) ""
  else nth 0 (elements segment) "".

(** The last segment of a list that assigns [acknowledgment_code]. *)
Definition last_writer (segs : list Segment) : option Segment :=
  find writes_acknowledgment_code (rev segs).

(** An N1 segment with role code and name whose role code is [role]. *)
Definition party_segment_for (role : string) (segment : Segment) : bool :=
  String.eqb (segment_id segment) "N1"
  && match elements segment with
     | entity_code :: _ :: _ => String.eqb entity_code role
     | _ => false
     end.

(** The slot of a role code in each record, if the code is recognised. *)
Definition purchase_order_slot {F : Type} (role : string)
  (po_data : PurchaseOrderData.t F) : option Party.t :=
  if String.eqb role "BY" then Some (PurchaseOrderData.buyer po_data)
  else if String.eqb role "SE" then Some (PurchaseOrderData.seller po_data)
  else if String.eqb role "ST" then Some (PurchaseOrderData.ship_to po_data)
  else if String.eqb role "BT" then Some (PurchaseOrderData.bill_to po_data)
  else None.

Definition invoice_slot {F : Type} (role : string)
  (invoice_data : InvoiceData.t F) : option Party.t :=
  if String.eqb role "BT" then Some (InvoiceData.bill_to invoice_data)
  else if String.eqb role "RE" then Some (InvoiceData.remit_to invoice_data)
  else if String.eqb role "SF" then Some (InvoiceData.ship_from invoice_data)
  else if String.eqb role "ST" then Some (InvoiceData.ship_to invoice_data)
  else None.

Definition advance_ship_notice_slot (role : string)
  (asn_data : AdvanceShipNoticeData.t) : option Party.t :=
  if String.eqb role "SF" then Some (AdvanceShipNoticeData.ship_from asn_data)
  else if String.eqb role "ST" then
    Some (AdvanceShipNoticeData.ship_to asn_data)
  else if String.eqb role "BT" then
    Some (AdvanceShipNoticeData.bill_to asn_data)
  else if String.eqb role "CA" then
    Some (AdvanceShipNoticeData.carrier asn_data)
  else None.

Section NumericElements.
Context `{PyFloat}.

(** The element at index [i] is absent, empty, or accepted by [float]. *)
Definition numeric_ok (elems : list string) (i : nat) : bool :=
  match nth_error elems i with
  | Some e =>
      if String.eqb e "" then true
      else match py_float e with Some _ => true | None => false end
  | None => true
  end.

(** A line-item segment (id [sid]) whose quantity and unit price can be
    converted; any other segment. *)
Definition line_item_ok (sid : string) (segment : Segment) : bool :=
  if String.eqb (segment_id segment) sid then
    numeric_ok (elements segment) 1 && numeric_ok (elements segment) 3
  else true.

(** The line items of a document of type [ty] can all be converted. *)
Definition line_items_ok (ty : string) (segs : list Segment) : bool :=
  if String.eqb ty "850" then forallb (line_item_ok "PO1") segs
  else if String.eqb ty "810" then forallb (line_item_ok "IT1") segs
  else true.


End NumericElements.

(** The role codes that have a slot in the record of a document type. *)
Definition role_recognised (ty role : string) : bool :=
  if String.eqb ty "850" then PyStr.mem role ["BY"; "SE"; "ST"; "BT"]
  else if String.eqb ty "810" then PyStr.mem role ["BT"; "RE"; "SF"; "ST"]
  else if String.eqb ty "856" then PyStr.mem role ["SF"; "ST"; "BT"; "CA"]
  else false.

Definition parsed_slot {F : Type} (role : string) (d : ParsedData F)
  : option Party.t :=
  match d with
  | IsPurchaseOrder po_data => purchase_order_slot role po_data
  | IsInvoice invoice_data => invoice_slot role invoice_data
  | IsAdvanceShipNotice asn_data => advance_ship_notice_slot role asn_data
  | _ => None
  end.

(** A model of the float interface on unsigned decimal integers, for
    closed examples: [float] is [nat], a string converts when it is a
    non-empty run of decimal digits. *)
Definition digits_value (s : string) : nat :=
  fold_left (fun acc c => 10 * acc + (nat_of_ascii c - 48))
    (list_ascii_of_string s) 0.

Definition DecimalFloat : PyFloat :=
  {| float := nat;
     float_zero := 0;
     py_float := fun s =>
       if negb (String.eqb s "")
          && forallb PyStr.isdigit (list_ascii_of_string s)
       then Some (digits_value s) else None;
     py_float_error := fun s =>
       "could not convert string to float: '" ^^ s ^^ "'";
     float_le_zero := fun x => x =? 0 |}.

(** ** Example documents *)

Definition example_two_segments : string :=
  PyStr.unlines ["ISA*a"; "GS*b"].

Definition example_no_header : string :=
  PyStr.unlines ["GS*a"; "ST*850"].

Definition example_leading_blank_line : string :=
  PyStr.unlines [""; "ISA*a"].

Definition example_two_buyers : string :=
  PyStr.unlines
    ["BEG*00*NE*4500012345"; "N1*BY*Acme"; "N1*BY*Globex";
     "PO1*1*5*EA*9*Widget*W1"].


Definition example_ak1_ak5_ak1 : string :=
  PyStr.unlines ["AK1*850*0001*A"; "AK5*R"; "AK1*810*0002*E"].

Definition example_long_isa_element : string :=
  PyStr.unlines
    ["ISA*000*a*00*b*ZZ*S*ZZ*R*210101*1200*U*00401*1*0*P*>";
     "GS*FA*S*R*20210101*1200*1*X*004010";
     "ST*997*0001";
     "AK1*850*0001*A";
     "SE*4*0001";
     "GE*1*1";
     "IEA*1*000000001"].

Definition all_options : ProcessingOptions.t :=
  ProcessingOptions.mk true true false false.

Definition no_options : ProcessingOptions.t :=
  ProcessingOptions.mk false false false false.

Definition example_gs : Segment := mkSegment "GS" ["a"] 1 1.

Definition example_st : Segment := mkSegment "ST" ["850"] 2 2.

Definition example_ak1 : Segment :=
  mkSegment "AK1" ["850"; "0001"; "A"] 4 4.

Definition example_ak2 : Segment := mkSegment "AK2" ["850"; "0001"] 5 5.

Definition example_ak5 : Segment := mkSegment "AK5" ["R"] 6 6.

Definition example_se : Segment := mkSegment "SE" ["4"; "0001"] 7 7.



Definition example_role_code_alone : string :=
  PyStr.unlines ["N1*BY*Acme"; "N1*BY"].

Definition example_acknowledgment : list Segment :=
  [example_ak1; example_ak2; example_ak5; example_se].

(** ** Detection, stated on the text

    What the two searches find, without the regular expressions: a
    three-digit code right after [ST*] anywhere in the text, and the
    version marker after [ISA*] and a fixed number of fields, each closed
    by a star. *)

Definition three_digits (code : string) : bool :=
  (String.length code =? 3)
  && forallb PyStr.isdigit (list_ascii_of_string code).

Definition st_code_at (raw pre code : string) : Prop :=
  three_digits code = true /\ exists post, raw = pre ^^ "ST*" ^^ code ^^ post.

Definition star_free (f : string) : bool :=
  forallb (fun a => negb (Ascii.eqb a PyStr.star)) (list_ascii_of_string f).

Fixpoint fields_text (fields : list string) : string :=
  match fields with
  | [] => ""
  | f :: rest => f ^^ "*" ^^ fields_text rest
  end.

Definition version_occurs (n : nat) (marker raw : string) : Prop :=
  exists pre fields post,
    length fields = n
    /\ forallb star_free fields = true
    /\ raw = pre ^^ "ISA*" ^^ fields_text fields ^^ marker ^^ post.

(** ** The detectors read line by line

    A second reading of the two detectors, on the tokenized lines: the
    type is the first element of the first line whose id is [ST], when it
    is a three-digit code; the version is the marker found in the last
    element of the first line whose id is [ISA]. *)

Fixpoint contains (marker s : string) : bool :=
  if String.prefix marker s then true
  else match s with
       | String _ s' => contains marker s'
       | EmptyString => false
       end.

Definition line_with_id (id : string) (raw : string) : option Segment :=
  find (fun s => String.eqb (segment_id s) id) (_split_into_segments raw).

Definition detect_message_type_by_line (raw : string) : string :=
  match line_with_id "ST" raw with
  | Some s =>
      match elements s with
      | code :: _ => if three_digits code then code else "Unknown"
      | [] => "Unknown"
      end
  | None => "Unknown"
  end.

Definition detect_edi_version_by_line (raw : string) : string :=
  match line_with_id "ISA" raw with
  | Some s =>
      let trailing := last (elements s) "" in
      if contains "004010" trailing then "004010"
      else if contains "005010" trailing then "005010"
      else "Unknown"
  | None => "Unknown"
  end.

Definition example_long_type_code : string := "ST*8501*0001".

Definition example_other_segment_id : string := "BST*850*0001".

Definition example_header_ends_005010 : string :=
  "ISA*00*a*00*b*ZZ*S*ZZ*R*210101*1200*U*00501*000000001*0*P*005010".

Definition example_header_ends_other : string :=
  "ISA*00*a*00*b*ZZ*S*ZZ*R*210101*1200*U*00401*000000001*0*P*>*004010*X".

(** The purchase order of [examples/client_example.py]. *)
Definition example_repository_850 : string :=
  PyStr.unlines
    ["ISA*00*          *00*          *ZZ*SENDER         *ZZ*RECEIVER       *210101*1200*^*00501*000000001*0*P*>~";
     "GS*PO*SENDER*RECEIVER*20210101*1200*1*X*005010~";
     "ST*850*0001~";
     "BEG*00*SA*PO123456**20210101~";
     "REF*DP*DEPARTMENT123~";
     "N1*BY*ACME CORP*92*12345~";
     "N3*123 MAIN ST~";
     "N4*NEW YORK*NY*10001~";
     "N1*ST*ACME CORP*92*12345~";
     "N3*123 MAIN ST~";
     "N4*NEW YORK*NY*10001~";
     "PO1*1*10*EA*25.50**VP*SKU123*PD*WIDGET~";
     "PO1*2*5*EA*15.75**VP*SKU456*PD*GADGET~";
     "CTT*2~";
     "SE*15*0001~";
     "GE*1*1~";
     "IEA*1*000000001~"].

(** The elements of the segments with id [sid]. *)
Definition elements_of (sid : string) (segs : list Segment)
  : list (list string) :=
  map elements (filter (fun s => String.eqb (segment_id s) sid) segs).

(** ** The other requests of the service *)

Module ValidateEdiMessageRequest.
Record t : Type := mk {
  edi_message : string;
  message_type : string;
  customer_id : string
}.
End ValidateEdiMessageRequest.

Module ValidateEdiMessageResponse.
Record t : Type := mk {
  status : ProcessingStatus;
  messages : list ProcessingMessage.t;
  edi_version : string;
  detected_message_type : string
}.
End ValidateEdiMessageResponse.

(** The body of the [try] block of [ValidateEdiMessage]. *)
Definition ValidateEdiMessage_try (request : ValidateEdiMessageRequest.t)
  : result ValidateEdiMessageResponse.t :=
  let edi_message := ValidateEdiMessageRequest.edi_message request in
  let message_type := ValidateEdiMessageRequest.message_type request in
  if negb (_is_message_type_supported message_type) then
    Ok (ValidateEdiMessageResponse.mk
          PROCESSING_STATUS_UNSUPPORTED_MESSAGE_TYPE
          [error_msg "UNSUPPORTED_MESSAGE_TYPE"
             ("Message type " ^^ message_type ^^ " is not supported") "" 0]
          "" "")
  else
    let validation_result := validate_format edi_message message_type in
    let detected_version := detect_edi_version edi_message in
    let detected_message_type := detect_message_type edi_message in
    Ok (ValidateEdiMessageResponse.mk
          (if is_valid validation_result then PROCESSING_STATUS_SUCCESS
           else PROCESSING_STATUS_VALIDATION_ERROR)
          (messages validation_result)
          detected_version detected_message_type).

Definition ValidateEdiMessage (request : ValidateEdiMessageRequest.t)
  : ValidateEdiMessageResponse.t :=
  match ValidateEdiMessage_try request with
  | Ok response => response
  | Raise e =>
      ValidateEdiMessageResponse.mk PROCESSING_STATUS_INTERNAL_ERROR
        [error_msg "INTERNAL_ERROR"
           ("Internal server error: " ^^ exn_str e) "" 0]
        "" ""
  end.

(** The body of the [try] block of [GetSupportedMessageTypes]: a customer
    id that is not empty is logged and changes nothing.  The response is
    its field [supported_types]. *)
Definition GetSupportedMessageTypes_try (customer_id : string)
  : result (list EdiMessageType.t) :=
  let supported_types := supported_types in
  if negb (String.eqb customer_id "") then Ok supported_types
  else Ok supported_types.

Definition GetSupportedMessageTypes (customer_id : string)
  : list EdiMessageType.t :=
  match GetSupportedMessageTypes_try customer_id with
  | Ok supported_types => supported_types
  | Raise _ => []
  end.

(** ** Auxiliary definitions for the further properties *)

(** [c in s] for a character. *)
Fixpoint has_char (c : ascii) (s : string) : bool :=
  match s with
  | EmptyString => false
  | String a s' => Ascii.eqb a c || has_char c s'
  end.

(** [sep.join(l)] for a one-character separator. *)
Fixpoint py_join (sep : ascii) (l : list string) : string :=
  match l with
  | [] => EmptyString
  | [x] => x
  | x :: rest => x ^^ String sep (py_join sep rest)
  end.

(** A segment written back as a line. *)
Definition segment_text (seg : Segment) : string :=
  py_join PyStr.star (segment_id seg :: elements seg).

(** The lines of a text after both trimmings. *)
Definition trimmed_lines (edi_message : string) : list string :=
  map PyStr.strip (PyStr.split PyStr.LF (PyStr.strip edi_message)).

(** The messages of a list that carry the code [c]. *)
Definition with_code (c : string) (ms : list ProcessingMessage.t)
  : list ProcessingMessage.t :=
  filter (fun m => String.eqb (ProcessingMessage.code m) c) ms.

(** The Error codes of [validate_format]. *)
Definition format_error_codes : list string :=
  [ "UNSUPPORTED_MESSAGE_TYPE"; "EMPTY_MESSAGE"; "INVALID_ISA_SEGMENT";
    "INSUFFICIENT_ISA_ELEMENTS"; "MISSING_REQUIRED_SEGMENT";
    "INVALID_SEGMENT_ORDER"; "INVALID_CLOSING_SEGMENTS";
    "INSUFFICIENT_ST_ELEMENTS"; "INSUFFICIENT_BEG_ELEMENTS" ].

(** A message as [validate_format] writes them: an Error with one of its
    codes, or the Warning of an over-long ISA element. *)
Definition format_message_kind (m : ProcessingMessage.t) : bool :=
  match ProcessingMessage.level m with
  | MESSAGE_LEVEL_ERROR => PyStr.mem (ProcessingMessage.code m) format_error_codes
  | MESSAGE_LEVEL_WARNING =>
      String.eqb (ProcessingMessage.code m) "ISA_ELEMENT_TOO_LONG"
  | MESSAGE_LEVEL_INFO => false
  end.

(** The tests of the structural checks, as tests on the segments. *)
Definition opening_ok (segment_ids : list string) : bool :=
  forallb
    (fun ie =>
       match nth_error segment_ids (fst ie) with
       | Some found => String.eqb found (snd ie)
       | None => true
       end)
    (PyStr.enumerate ["ISA"; "GS"; "ST"]).

Definition closing_ok (segment_ids : list string) : bool :=
  str_list_eqb (PyStr.last3 segment_ids) ["SE"; "GE"; "IEA"].

Definition short_st (segment : Segment) : bool :=
  String.eqb (segment_id segment) "ST" && (length (elements segment) <? 2).

Definition short_beg (segment : Segment) : bool :=
  String.eqb (segment_id segment) "BEG" && (length (elements segment) <? 3).

Definition absent (segment_ids : list string) (required_segment : string)
  : bool :=
  negb (PyStr.mem required_segment segment_ids).

(** The condition under which [validate_format] finds no Error. *)
Definition well_formed (message_type : string) (segs : list Segment) : bool :=
  py_dict_mem segment_patterns message_type
  && match segs with
     | [] => false
     | first :: _ =>
         String.eqb (segment_id first) "ISA"
         && negb (length (elements first) <? 16)
         && forallb (fun r => negb (absent (map segment_id segs) r))
              (required_of message_type)
         && opening_ok (map segment_id segs)
         && closing_ok (map segment_id segs)
         && forallb (fun s => negb (short_st s) && negb (short_beg s)) segs
     end.

(** The messages and the acceptance test of the purchase-order rules. *)
Section RuleConditions.
Context `{PyFloat}.

Definition po_number_messages (po_data : PurchaseOrderData.t float)
  : list ProcessingMessage.t :=
  if String.eqb (PurchaseOrderData.po_number po_data) "" then
    [error_msg "MISSING_PO_NUMBER" "Purchase Order number is required"
       "po_number" 0]
  else [].

Definition po_line_items_messages (po_data : PurchaseOrderData.t float)
  : list ProcessingMessage.t :=
  match PurchaseOrderData.line_items po_data with
  | [] => [error_msg "NO_LINE_ITEMS"
             "Purchase Order must have at least one line item"
             "line_items" 0]
  | _ :: _ => []
  end.

Definition line_item_messages (il : nat * PurchaseOrderLineItem.t float)
  : list ProcessingMessage.t :=
  (if String.eqb (PurchaseOrderLineItem.line_number (snd il)) "" then
     [error_msg "MISSING_LINE_NUMBER"
        ("Line item " ^^ PyStr.str_of_nat (fst il + 1)
         ^^ " must have a line number")
        ("line_items[" ^^ PyStr.str_of_nat (fst il) ^^ "].line_number") 0]
   else [])
  ++ (if float_le_zero
           (Quantity.value (PurchaseOrderLineItem.quantity_ordered (snd il)))
      then
        [error_msg "INVALID_QUANTITY"
           ("Line item " ^^ PyStr.str_of_nat (fst il + 1)
            ^^ " quantity must be greater than 0")
           ("line_items[" ^^ PyStr.str_of_nat (fst il)
            ^^ "].quantity_ordered") 0]
      else []).

Definition purchase_order_messages (po_data : PurchaseOrderData.t float)
  : list ProcessingMessage.t :=
  po_number_messages po_data ++ po_line_items_messages po_data
  ++ flat_map line_item_messages
       (PyStr.enumerate (PurchaseOrderData.line_items po_data)).

Definition line_item_acceptable (line_item : PurchaseOrderLineItem.t float)
  : bool :=
  negb (String.eqb (PurchaseOrderLineItem.line_number line_item) "")
  && negb (float_le_zero
             (Quantity.value
                (PurchaseOrderLineItem.quantity_ordered line_item))).

Definition purchase_order_acceptable (po_data : PurchaseOrderData.t float)
  : bool :=
  negb (String.eqb (PurchaseOrderData.po_number po_data) "")
  && match PurchaseOrderData.line_items po_data with
     | [] => false
     | _ :: _ => true
     end
  && forallb line_item_acceptable (PurchaseOrderData.line_items po_data).

Definition bad_quantity (il : nat * PurchaseOrderLineItem.t float) : bool :=
  float_le_zero
    (Quantity.value (PurchaseOrderLineItem.quantity_ordered (snd il))).

Definition no_line_number (il : nat * PurchaseOrderLineItem.t float) : bool :=
  String.eqb (PurchaseOrderLineItem.line_number (snd il)) "".

End RuleConditions.

(** The data is of the message class that goes with the type. *)
Definition class_of_type {F : Type} (message_type : string)
  (d : ParsedData F) : bool :=
  match d with
  | IsPurchaseOrder _ => String.eqb message_type "850"
  | IsInvoice _ => String.eqb message_type "810"
  | IsAdvanceShipNotice _ => String.eqb message_type "856"
  | IsFunctionalAcknowledgment _ => String.eqb message_type "997"
  | IsNone => false
  end.

(** The segment's id is one of [ids]. *)
Definition has_id (ids : list string) (segment : Segment) : bool :=
  PyStr.mem (segment_id segment) ids.

(** The first element of a segment, empty when there is none. *)
Definition first_element (segment : Segment) : string :=
  hd "" (elements segment).

(** The entry an AK2 segment adds to [transaction_set_acks]: its first
    three elements, empty where the segment is shorter. *)
Definition transaction_ack_of (segment : Segment)
  : TransactionSetAcknowledgment.t :=
  TransactionSetAcknowledgment.mk
    (nth 0 (elements segment) "")
    (nth 1 (elements segment) "")
    (nth 2 (elements segment) "").

Definition example_purchase_order : PurchaseOrderData.t nat :=
  PurchaseOrderData.mk "NE" "4500012345" (Party.mk "BY" "Globex")
    Party.default Party.default Party.default
    [ PurchaseOrderLineItem.mk "1" (Quantity.mk 5 "EA") (Money.mk 9)
        (Product.mk "Widget" "W1") ].

(** ** The request pipeline, case by case *)

(** The SUCCESS response for extracted data [d]. *)
Definition typed_response {F : Type} (message_type : string)
  (d : ParsedData F) (segs : list Segment) : ProcessEdiMessageResponse.t F :=
  ProcessEdiMessageResponse.mk PROCESSING_STATUS_SUCCESS message_type []
    (match d with IsPurchaseOrder x => Some x | _ => None end)
    (match d with IsInvoice x => Some x | _ => None end)
    (match d with IsAdvanceShipNotice x => Some x | _ => None end)
    (match d with IsFunctionalAcknowledgment x => Some x | _ => None end)
    segs.

Section Outcome.
Context `{PyFloat}.

(** The status of [ProcessEdiMessage] read off the stages in their order. *)
Definition expected_status (request : ProcessEdiMessageRequest.t)
  : ProcessingStatus :=
  let raw := ProcessEdiMessageRequest.edi_message request in
  let ty := ProcessEdiMessageRequest.message_type request in
  let options := ProcessEdiMessageRequest.options request in
  if negb (_is_message_type_supported ty) then
    PROCESSING_STATUS_UNSUPPORTED_MESSAGE_TYPE
  else if ProcessingOptions.validate_format options
          && has_errors (validate_format raw ty) then
    PROCESSING_STATUS_VALIDATION_ERROR
  else if negb (line_items_ok ty (_split_into_segments raw)) then
    PROCESSING_STATUS_PARSING_ERROR
  else if ProcessingOptions.validate_business_rules options
          && has_errors
               (validate_business_rules (data (parse_message raw ty)) ty)
  then PROCESSING_STATUS_BUSINESS_RULE_ERROR
  else PROCESSING_STATUS_SUCCESS.

End Outcome.

(** The record extracted from a text without segments. *)
Definition default_data {F : Type} (message_type : string) : ParsedData F :=
  if String.eqb message_type "850" then
    IsPurchaseOrder PurchaseOrderData.default
  else if String.eqb message_type "810" then IsInvoice InvoiceData.default
  else if String.eqb message_type "856" then
    IsAdvanceShipNotice AdvanceShipNoticeData.default
  else if String.eqb message_type "997" then
    IsFunctionalAcknowledgment FunctionalAcknowledgmentData.default
  else IsNone.

Definition example_validated_request : ProcessEdiMessageRequest.t :=
  ProcessEdiMessageRequest.mk example_long_isa_element "997" "C1" all_options.

Definition example_empty_request (options : ProcessingOptions.t)
  : ProcessEdiMessageRequest.t :=
  ProcessEdiMessageRequest.mk "" "850" "C1" options.

(** The ISA element at an index is longer than the limit for that index. *)
Definition too_long (elems : list string) (ie : nat * nat) : bool :=
  match nth_error elems (fst ie) with
  | Some element => snd ie <? String.length element
  | None => false
  end.

Definition example_isa : Segment :=
  mkSegment "ISA"
    ["000"; "a"; "00"; "b"; "ZZ"; "S"; "ZZ"; "R"; "210101"; "1200"; "U";
     "00401"; "1"; "0"; "P"; ">"] 1 1.

(** * Properties *)

(** ** Tokenizer *)

Lemma split_step_keep (segs : list Segment) (il : nat * string) :
  split_step segs il =
  match keep il with
  | Some (sid, es, ln) =>
      segs ++ [ {| segment_id := sid; elements := es; line_number := ln;
                   position := length segs + 1 |} ]
  | None => segs
  end.
Proof.
  destruct il as [i line]. unfold split_step, keep. cbn [fst snd].
  destruct (String.eqb (PyStr.strip line) ""); [reflexivity|].
  destruct (PyStr.split PyStr.star (PyStr.strip line)) as [|sid [|e rest]];
    reflexivity.
Qed.

Lemma fold_split_step_collect (ils : list (nat * string)) :
  forall acc, fold_left split_step ils acc = acc ++ collect ils (length acc).
Proof.
  induction ils as [|il ils IH]; intros acc; cbn [fold_left collect].
  - now rewrite app_nil_r.
  - rewrite split_step_keep. destruct (keep il) as [[[sid es] ln]|].
    + rewrite IH, length_app. cbn [length]. rewrite <- app_assoc.
      cbn [app]. now rewrite Nat.add_1_r.
    + apply IH.
Qed.

Lemma collect_positions (ils : list (nat * string)) :
  forall n, map position (collect ils n) = seq (n + 1) (length (collect ils n)).
Proof.
  induction ils as [|il ils IH]; intros n; cbn [collect]; [reflexivity|].
  destruct (keep il) as [[[sid es] ln]|]; [|apply IH].
  cbn [map length seq position]. f_equal. rewrite IH. f_equal; lia.
Qed.

Lemma enumerate_cons {A : Type} (k : nat) (a : A) (l : list A) :
  combine (seq k (length (a :: l))) (a :: l) =
  (k, a) :: combine (seq (S k) (length l)) l.
Proof. reflexivity. Qed.

Lemma in_enumerate_from {A : Type} (l : list A) :
  forall k i a,
    In (i, a) (combine (seq k (length l)) l) <->
    k <= i /\ nth_error l (i - k) = Some a.
Proof.
  induction l as [|b l IH]; intros k i a.
  - cbn. split; [tauto|]. intros [_ E]. destruct (i - k); discriminate.
  - rewrite enumerate_cons. cbn [In]. rewrite IH. split.
    + intros [E|[L E]].
      * inversion E; subst. split; [lia|]. now rewrite Nat.sub_diag.
      * split; [lia|]. replace (i - k) with (S (i - S k)) by lia. exact E.
    + intros [L E]. destruct (Nat.eq_dec i k) as [->|N].
      * left. rewrite Nat.sub_diag in E. cbn in E. congruence.
      * right. split; [lia|].
        replace (i - k) with (S (i - S k)) in E by lia. exact E.
Qed.

Lemma collect_line_numbers_in (ils : list (nat * string)) :
  forall n ln,
    In ln (map line_number (collect ils n)) <->
    exists il sid es, In il ils /\ keep il = Some (sid, es, ln).
Proof.
  induction ils as [|il ils IH]; intros n ln; cbn [collect].
  - cbn. split; [tauto|]. intros (? & ? & ? & [] & _).
  - destruct (keep il) as [[[sid es] l0]|] eqn:K.
    + cbn [map In line_number]. rewrite IH. split.
      * intros [->|(il' & s' & e' & I & K')].
        -- exists il, sid, es. split; [now left|exact K].
        -- exists il', s', e'. split; [now right|exact K'].
      * intros (il' & s' & e' & [->|I] & K').
        -- left. congruence.
        -- right. exists il', s', e'. tauto.
    + rewrite IH. split.
      * intros (il' & s' & e' & I & K'). exists il', s', e'. split;
          [now right|exact K'].
      * intros (il' & s' & e' & [->|I] & K'); [congruence|].
        exists il', s', e'. tauto.
Qed.

Lemma collect_segments_in (ils : list (nat * string)) :
  forall n seg,
    In seg (collect ils n) ->
    exists il, In il ils /\
      keep il = Some (segment_id seg, elements seg, line_number seg).
Proof.
  induction ils as [|il ils IH]; intros n seg; cbn [collect]; [intros []|].
  destruct (keep il) as [[[sid es] l0]|] eqn:K.
  - intros [<-|I].
    + exists il. split; [now left|exact K].
    + destruct (IH _ _ I) as (il' & I' & K'). exists il'. split;
        [now right|exact K'].
  - intros I. destruct (IH _ _ I) as (il' & I' & K'). exists il'. split;
      [now right|exact K'].
Qed.

Lemma keep_line_number (il : nat * string) sid es ln :
  keep il = Some (sid, es, ln) -> ln = fst il + 1.
Proof.
  unfold keep. destruct (String.eqb _ ""); [discriminate|].
  destruct (PyStr.split _ _) as [|? [|? ?]]; try discriminate.
  now intros [= _ _ <-].
Qed.

Lemma collect_sorted (l : list string) :
  forall k n,
    StronglySorted lt
      (map line_number (collect (combine (seq k (length l)) l) n))
    /\ Forall (fun ln => k < ln)
         (map line_number (collect (combine (seq k (length l)) l) n)).
Proof.
  induction l as [|a l IH]; intros k n.
  - cbn. split; constructor.
  - rewrite enumerate_cons. cbn [collect].
    destruct (IH (S k) n) as [S0 B0]. destruct (IH (S k) (S n)) as [S1 B1].
    destruct (keep (k, a)) as [[[sid es] ln]|] eqn:K.
    + apply keep_line_number in K. cbn [fst] in K. subst ln.
      cbn [map line_number]. split.
      * constructor; [exact S1|].
        eapply Forall_impl; [|exact B1]. cbn. intros; lia.
      * constructor; [lia|]. eapply Forall_impl; [|exact B1]. cbn.
        intros; lia.
    + split; [exact S0|]. eapply Forall_impl; [|exact B0]. cbn. intros; lia.
Qed.

Lemma keep_spec (i : nat) (line sid : string) (es : list string) (ln : nat) :
  keep (i, line) = Some (sid, es, ln) <->
  ln = i + 1 /\ PyStr.strip line <> ""
  /\ PyStr.split PyStr.star (PyStr.strip line) = sid :: es /\ es <> [].
Proof.
  unfold keep. cbn [fst snd].
  destruct (String.eqb_spec (PyStr.strip line) "") as [E|E].
  - split; [discriminate|]. intros (_ & N & _). contradiction.
  - destruct (PyStr.split PyStr.star (PyStr.strip line)) as [|s [|e rest]].
    + split; [discriminate|]. intros (_ & _ & D & _). discriminate.
    + split; [discriminate|]. intros (_ & _ & D & N). inversion D. subst.
      contradiction.
    + split.
      * intros [= <- <- <-]. repeat split; [exact E|discriminate].
      * intros (-> & _ & [= -> ->] & _). reflexivity.
Qed.

(** C8 (as the code has it).  [_split_into_segments] is a total function of
    the raw text.  The positions of the segments it returns are 1, 2, ..., n
    in output order.  Line numbers increase strictly; each one is the 1-based
    index of the segment's line among the lines of the text AFTER the whole
    text was stripped of surrounding white space; that line, stripped, is not
    empty and splits on the separator into the id and at least one element.
    A line that is empty after stripping, or has no separator, gives no
    segment, and every other line gives one. *)
Theorem split_into_segments_positions_and_lines (edi_message : string) :
  let segs := _split_into_segments edi_message in
  let lines := PyStr.split PyStr.LF (PyStr.strip edi_message) in
  map position segs = seq 1 (length segs)
  /\ StronglySorted lt (map line_number segs)
  /\ Forall
       (fun seg =>
          1 <= line_number seg
          /\ exists line,
               nth_error lines (line_number seg - 1) = Some line
               /\ PyStr.strip line <> ""
               /\ PyStr.split PyStr.star (PyStr.strip line)
                  = segment_id seg :: elements seg
               /\ elements seg <> [])
       segs
  /\ forall i line,
       nth_error lines i = Some line ->
       (In (i + 1) (map line_number segs) <->
        PyStr.strip line <> ""
        /\ 2 <= length (PyStr.split PyStr.star (PyStr.strip line))).
Proof.
  cbv zeta. unfold _split_into_segments, PyStr.enumerate.
  set (lines := PyStr.split PyStr.LF (PyStr.strip edi_message)).
  rewrite fold_split_step_collect. cbn [app length].
  split; [apply (collect_positions _ 0)|].
  split; [apply (collect_sorted lines 0 0)|].
  split.
  - apply Forall_forall. intros seg I.
    apply collect_segments_in in I. destruct I as ([i line] & I & K).
    apply in_enumerate_from in I. destruct I as [_ I].
    apply keep_spec in K. destruct K as (L & N & S & E).
    split; [lia|]. exists line. rewrite L.
    replace (i + 1 - 1) with (i - 0) by lia. tauto.
  - intros i line E. rewrite collect_line_numbers_in. split.
    + intros ([j l'] & sid & es & I & K).
      apply in_enumerate_from in I. destruct I as [_ I].
      apply keep_spec in K. destruct K as (L & N & S & E').
      assert (j = i) by lia. subst j. rewrite Nat.sub_0_r in I.
      assert (l' = line) by congruence. subst l'.
      split; [exact N|]. rewrite S. destruct es; [contradiction|cbn; lia].
    + intros [N L].
      destruct (PyStr.split PyStr.star (PyStr.strip line))
        as [|sid [|e rest]] eqn:S; cbn in L; try lia.
      exists (i, line), sid, (e :: rest). split.
      * apply in_enumerate_from. rewrite Nat.sub_0_r. split; [lia|exact E].
      * apply keep_spec. repeat split; [exact N|exact S|discriminate].
Qed.

(** C8, counterexample: the text is a blank line followed by [ISA*a].  The
    segment comes from the second line of the raw text, and its line number
    is 1. *)
Lemma split_into_segments_line_number_counterexample :
  PyStr.split PyStr.LF example_leading_blank_line = [""; "ISA*a"]
  /\ _split_into_segments example_leading_blank_line =
     [ {| segment_id := "ISA"; elements := ["a"]; line_number := 1;
          position := 1 |} ].
Proof. split; reflexivity. Qed.

(** ** Validator bodies as functions of their input *)

Lemma any_error_app (a b : list ProcessingMessage.t) :
  any_error (a ++ b) = any_error a || any_error b.
Proof. apply existsb_app. Qed.

Lemma any_error_flat_map_false {B : Type}
  (g : B -> list ProcessingMessage.t) (l : list B) :
  (forall b, any_error (g b) = false) -> any_error (flat_map g l) = false.
Proof.
  intros Hg. induction l as [|b l IH]; [reflexivity|].
  cbn [flat_map]. now rewrite any_error_app, Hg, IH.
Qed.

Lemma m_fold_flag {B : Type} (f : bool -> B -> M bool)
  (g : B -> list ProcessingMessage.t) :
  (forall he b ms, f he b ms = (ms ++ g b, Ok (he || any_error (g b)))) ->
  forall l he ms,
    m_fold f l he ms =
    (ms ++ flat_map g l, Ok (he || any_error (flat_map g l))).
Proof.
  intros Hf. induction l as [|b l IH]; intros he ms; cbn [m_fold flat_map].
  - unfold m_ret. now rewrite app_nil_r, orb_false_r.
  - unfold m_bind. rewrite Hf, IH, any_error_app, app_assoc, orb_assoc.
    reflexivity.
Qed.

Lemma m_fold_unit {B : Type} (f : unit -> B -> M unit)
  (g : B -> list ProcessingMessage.t) :
  (forall u b ms, f u b ms = (ms ++ g b, Ok tt)) ->
  forall l ms, m_fold f l tt ms = (ms ++ flat_map g l, Ok tt).
Proof.
  intros Hf. induction l as [|b l IH]; intros ms; cbn [m_fold flat_map].
  - unfold m_ret. now rewrite app_nil_r.
  - unfold m_bind. rewrite Hf, IH, app_assoc. reflexivity.
Qed.

Lemma py_getitem_lt {A : Type} (l : list A) (i : nat) :
  i < length l -> exists a, nth_error l i = Some a /\ py_getitem l i = Ok a.
Proof.
  intros L. unfold py_getitem.
  destruct (nth_error l i) as [a|] eqn:E; [now exists a|].
  apply nth_error_None in E. lia.
Qed.

Lemma validate_isa_segment_ok (seg : Segment) :
  _validate_isa_segment seg =
  Ok (mkValidationResult (negb (any_error (isa_messages seg)))
        (isa_messages seg) (any_error (isa_messages seg))).
Proof.
  unfold _validate_isa_segment, isa_messages, run_local.
  destruct (negb (String.eqb (segment_id seg) "ISA")); [reflexivity|].
  unfold m_bind at 1.
  set (elems := elements seg).
  assert (Hloop : forall ms,
             m_fold
               (fun (_ : unit) (ie : nat * nat) =>
                  let '(i, expected_length) := ie in
                  if i <? length elems then
                    element <~ m_lift (py_getitem elems i) ;;
                    if expected_length <? String.length element then
                      m_append
                        (warning_msg "ISA_ELEMENT_TOO_LONG"
                           ("ISA element " ^^ PyStr.str_of_nat (i + 1)
                            ^^ " exceeds maximum length of "
                            ^^ PyStr.str_of_nat expected_length)
                           ("ISA." ^^ PyStr.str_of_nat (i + 1)) 0)
                    else m_ret tt
                  else m_ret tt)
               (PyStr.enumerate isa_element_lengths) tt ms
             = (ms ++ flat_map (isa_length_message elems)
                        (PyStr.enumerate isa_element_lengths), Ok tt)).
  { apply m_fold_unit. intros [] [i e] ms. unfold isa_length_message.
    cbn [fst snd]. destruct (Nat.ltb_spec i (length elems)) as [L|L].
    - destruct (py_getitem_lt elems i L) as (a & E1 & E2).
      unfold m_bind, m_lift. rewrite E1, E2.
      destruct (e <? String.length a); [reflexivity|].
      unfold m_ret. now rewrite app_nil_r.
    - apply nth_error_None in L. rewrite L. unfold m_ret.
      now rewrite app_nil_r. }
  destruct (length elems <? 16).
  - unfold m_bind, m_append, m_ret, m_return, m_messages. cbn [app].
    rewrite Hloop. reflexivity.
  - unfold m_bind, m_ret, m_return, m_messages. rewrite Hloop.
    cbn [app snd negb].
    assert (W : any_error (flat_map (isa_length_message elems)
                             (PyStr.enumerate isa_element_lengths)) = false).
    { apply any_error_flat_map_false. intros [i e].
      unfold isa_length_message. cbn [fst snd].
      destruct (nth_error elems i) as [a|]; [|reflexivity].
      destruct (e <? String.length a); reflexivity. }
    rewrite W. reflexivity.
Qed.

Lemma validate_segment_structure_ok (segs : list Segment) (ty : string) :
  _validate_segment_structure segs ty =
  Ok (mkValidationResult (negb (any_error (structure_messages segs)))
        (structure_messages segs) (any_error (structure_messages segs))).
Proof.
  unfold _validate_segment_structure, structure_messages, run_local.
  cbv zeta. set (ids := map segment_id segs).
  unfold m_bind at 1.
  rewrite (m_fold_flag _ (order_message ids)).
  - cbn [app orb]. unfold closing_messages.
    destruct (negb (str_list_eqb (PyStr.last3 ids) ["SE"; "GE"; "IEA"])).
    + unfold m_bind, m_append, m_ret, m_return, m_messages. cbn [snd].
      rewrite any_error_app. cbn. rewrite orb_true_r. reflexivity.
    + unfold m_bind, m_ret, m_return, m_messages. cbn [snd].
      rewrite app_nil_r. reflexivity.
  - intros he [i e] ms. unfold order_message. cbn [fst snd].
    destruct (Nat.ltb_spec i (length ids)) as [L|L].
    + destruct (py_getitem_lt ids i L) as (a & E1 & E2).
      unfold m_bind, m_lift, m_ret. rewrite E1, E2.
      destruct (negb (String.eqb a e)).
      * unfold m_append. cbn. now rewrite orb_true_r.
      * cbn. now rewrite app_nil_r, orb_false_r.
    + apply nth_error_None in L. rewrite L. unfold m_bind, m_ret. cbn.
      now rewrite app_nil_r, orb_false_r.
Qed.

Lemma validate_segment_elements_ok (segs : list Segment) (ty : string) :
  _validate_segment_elements segs ty =
  Ok (mkValidationResult (negb (any_error (flat_map element_message segs)))
        (flat_map element_message segs)
        (any_error (flat_map element_message segs))).
Proof.
  unfold _validate_segment_elements, run_local. unfold m_bind at 1.
  rewrite (m_fold_flag _ element_message).
  - reflexivity.
  - intros he seg ms. unfold element_message.
    destruct (String.eqb (segment_id seg) "ST" && (length (elements seg) <? 2)).
    + unfold m_bind, m_append, m_ret. cbn. now rewrite orb_true_r.
    + destruct (String.eqb (segment_id seg) "BEG"
                && (length (elements seg) <? 3)).
      * unfold m_bind, m_append, m_ret. cbn. now rewrite orb_true_r.
      * unfold m_ret. cbn. now rewrite app_nil_r, orb_false_r.
Qed.

Lemma supported_required (ty : string) :
  py_dict_mem segment_patterns ty = true ->
  exists pattern,
    py_dict_get segment_patterns ty = Ok pattern
    /\ py_dict_get pattern "required" = Ok (required_of ty).
Proof.
  unfold py_dict_mem, required_of, segment_patterns.
  cbn [existsb fst py_dict_get rbind].
  destruct (String.eqb "850" ty); [intros _; eexists; split; reflexivity|].
  destruct (String.eqb "810" ty); [intros _; eexists; split; reflexivity|].
  destruct (String.eqb "856" ty); [intros _; eexists; split; reflexivity|].
  destruct (String.eqb "997" ty); [intros _; eexists; split; reflexivity|].
  discriminate.
Qed.

Lemma validate_format_try_segments (raw ty : string) :
  py_dict_mem segment_patterns ty = true ->
  _split_into_segments raw <> [] ->
  let msgs := format_messages (_split_into_segments raw) ty in
  validate_format_try raw ty [] =
  (msgs, Ok (mkValidationResult (negb (any_error msgs)) msgs
               (any_error msgs))).
Proof.
  intros Hs Hne. unfold validate_format_try. rewrite Hs. cbn [negb].
  destruct (_split_into_segments raw) as [|first rest] eqn:E;
    [contradiction|].
  cbv zeta. unfold format_messages, later_messages.
  set (segs := first :: rest).
  destruct (supported_required ty Hs) as (pattern & P1 & P2).
  unfold m_bind at 1. unfold m_lift at 1. cbn [py_getitem nth_error segs].
  unfold m_bind at 1. unfold m_lift at 1. rewrite validate_isa_segment_ok.
  unfold m_bind at 1. unfold m_extend at 1. cbn [messages has_errors app].
  unfold m_bind at 1. unfold m_lift at 1. rewrite P1.
  unfold m_bind at 1. unfold m_lift at 1. rewrite P2.
  unfold m_bind at 1.
  rewrite (m_fold_flag _ (missing_message (map segment_id segs))).
  - unfold m_bind at 1. unfold m_lift at 1.
    rewrite validate_segment_structure_ok.
    unfold m_bind at 1. unfold m_extend at 1. cbn [messages has_errors].
    unfold m_bind at 1. unfold m_lift at 1.
    rewrite validate_segment_elements_ok.
    unfold m_bind at 1. unfold m_extend at 1. cbn [messages has_errors].
    unfold m_return, m_bind, m_messages, m_ret.
    rewrite <- !app_assoc. rewrite !any_error_app.
    destruct (any_error (isa_messages first)),
      (any_error (flat_map (missing_message (map segment_id segs))
                    (required_of ty))),
      (any_error (structure_messages segs)),
      (any_error (flat_map element_message segs)); reflexivity.
  - intros he r ms. unfold missing_message.
    destruct (negb (PyStr.mem r (map segment_id segs))).
    + unfold m_bind, m_append, m_ret. cbn. now rewrite orb_true_r.
    + unfold m_ret. cbn. now rewrite app_nil_r, orb_false_r.
Qed.


Lemma validate_format_try_total (raw ty : string) :
  validate_format_try raw ty [] =
  (messages (format_result (_split_into_segments raw) ty),
   Ok (format_result (_split_into_segments raw) ty)).
Proof.
  unfold format_result.
  destruct (py_dict_mem segment_patterns ty) eqn:Hs; cbn [negb].
  - destruct (_split_into_segments raw) as [|first rest] eqn:E.
    + unfold validate_format_try. rewrite Hs, E. reflexivity.
    + rewrite <- E. rewrite validate_format_try_segments;
        [|exact Hs|rewrite E; discriminate].
      rewrite E. reflexivity.
  - unfold validate_format_try. rewrite Hs. reflexivity.
Qed.

Lemma validate_format_eq (raw ty : string) :
  validate_format raw ty = format_result (_split_into_segments raw) ty.
Proof.
  unfold validate_format. now rewrite validate_format_try_total.
Qed.

Lemma count_code_app (c : string) (a b : list ProcessingMessage.t) :
  count_code c (a ++ b) = count_code c a + count_code c b.
Proof. unfold count_code. now rewrite filter_app, length_app. Qed.

Lemma count_code_flat_map_zero {B : Type} (c : string)
  (g : B -> list ProcessingMessage.t) (l : list B) :
  (forall b, count_code c (g b) = 0) -> count_code c (flat_map g l) = 0.
Proof.
  intros Hg. induction l as [|b l IH]; [reflexivity|].
  cbn [flat_map]. now rewrite count_code_app, Hg, IH.
Qed.

Lemma isa_messages_no_closing (seg : Segment) :
  count_code "INVALID_CLOSING_SEGMENTS" (isa_messages seg) = 0.
Proof.
  unfold isa_messages.
  destruct (negb (String.eqb (segment_id seg) "ISA")); [reflexivity|].
  rewrite count_code_app, count_code_flat_map_zero.
  - destruct (length (elements seg) <? 16); reflexivity.
  - intros [i e]. unfold isa_length_message. cbn [fst snd].
    destruct (nth_error (elements seg) i) as [a|]; [|reflexivity].
    destruct (e <? String.length a); reflexivity.
Qed.

Lemma missing_messages_no_closing (ids required : list string) :
  count_code "INVALID_CLOSING_SEGMENTS"
    (flat_map (missing_message ids) required) = 0.
Proof.
  apply count_code_flat_map_zero. intros r. unfold missing_message.
  destruct (negb (PyStr.mem r ids)); reflexivity.
Qed.

Lemma order_messages_no_closing (ids : list string)
  (l : list (nat * string)) :
  count_code "INVALID_CLOSING_SEGMENTS" (flat_map (order_message ids) l) = 0.
Proof.
  apply count_code_flat_map_zero. intros [i e]. unfold order_message.
  cbn [fst snd]. destruct (nth_error ids i) as [a|]; [|reflexivity].
  destruct (negb (String.eqb a e)); reflexivity.
Qed.

Lemma element_messages_no_closing (segs : list Segment) :
  count_code "INVALID_CLOSING_SEGMENTS" (flat_map element_message segs) = 0.
Proof.
  apply count_code_flat_map_zero. intros seg. unfold element_message.
  destruct (String.eqb (segment_id seg) "ST" && (length (elements seg) <? 2));
    [reflexivity|].
  destruct (String.eqb (segment_id seg) "BEG" && (length (elements seg) <? 3));
    reflexivity.
Qed.

Lemma closing_messages_short (ids : list string) :
  length ids < 3 -> closing_messages ids = [invalid_closing_segments].
Proof.
  intros L. unfold closing_messages, PyStr.last3.
  replace (length ids - 3) with 0 by lia. cbn [skipn].
  destruct ids as [|a [|b [|c ids]]]; cbn in L; try lia; cbn [str_list_eqb].
  - reflexivity.
  - now rewrite andb_false_r.
  - now rewrite !andb_false_r.
Qed.

Lemma count_closing_format_messages (first : Segment) (rest : list Segment)
  (ty : string) :
  count_code "INVALID_CLOSING_SEGMENTS" (format_messages (first :: rest) ty)
  = count_code "INVALID_CLOSING_SEGMENTS"
      (closing_messages (map segment_id (first :: rest))).
Proof.
  unfold format_messages, later_messages, structure_messages.
  rewrite !count_code_app, isa_messages_no_closing,
    missing_messages_no_closing, order_messages_no_closing,
    element_messages_no_closing. lia.
Qed.

(** C1 (as the code has it).  On an input of fewer than three segments the
    body of [validate_format] returns normally (its [except] clause is not
    reached: slicing the last three ids raises nothing), and the closing
    check is NOT skipped: for a supported type and one or two segments the
    result holds exactly one INVALID_CLOSING_SEGMENTS message; it holds none
    when the type is unsupported or there is no segment at all, where
    validation stopped before that check. *)
Theorem validate_format_short_input (raw ty : string) :
  length (_split_into_segments raw) < 3 ->
  (exists r,
      validate_format_try raw ty [] = (messages r, Ok r)
      /\ validate_format raw ty = r)
  /\ count_code "INVALID_CLOSING_SEGMENTS" (messages (validate_format raw ty))
     = if py_dict_mem segment_patterns ty
          && (0 <? length (_split_into_segments raw))
       then 1 else 0.
Proof.
  intros L. split.
  - exists (format_result (_split_into_segments raw) ty).
    split; [apply validate_format_try_total|apply validate_format_eq].
  - rewrite validate_format_eq. unfold format_result.
    destruct (py_dict_mem segment_patterns ty); cbn [negb andb];
      [|reflexivity].
    destruct (_split_into_segments raw) as [|first rest] eqn:E;
      [reflexivity|].
    cbn [messages length Nat.ltb Nat.leb]. rewrite count_closing_format_messages.
    rewrite closing_messages_short; [reflexivity|].
    now rewrite length_map.
Qed.

(** Witness for C1: a header and a group segment only, type 850. *)
Lemma validate_format_short_input_witness :
  length (_split_into_segments example_two_segments) < 3
  /\ ((exists r,
          validate_format_try example_two_segments "850" []
          = (messages r, Ok r)
          /\ validate_format example_two_segments "850" = r)
      /\ count_code "INVALID_CLOSING_SEGMENTS"
           (messages (validate_format example_two_segments "850"))
         = if py_dict_mem segment_patterns "850"
              && (0 <? length (_split_into_segments example_two_segments))
           then 1 else 0).
Proof.
  split.
  - vm_compute. lia.
  - apply validate_format_short_input. vm_compute. lia.
Defined.

(** C1, counterexample: two segments, and the closing check reports. *)
Lemma validate_format_short_input_counterexample :
  length (_split_into_segments example_two_segments) = 2
  /\ codes (messages (validate_format example_two_segments "850")) =
     [ "INSUFFICIENT_ISA_ELEMENTS"; "MISSING_REQUIRED_SEGMENT";
       "MISSING_REQUIRED_SEGMENT"; "MISSING_REQUIRED_SEGMENT";
       "MISSING_REQUIRED_SEGMENT"; "MISSING_REQUIRED_SEGMENT";
       "INVALID_CLOSING_SEGMENTS" ]
  /\ In invalid_closing_segments
       (messages (validate_format example_two_segments "850")).
Proof.
  split; [reflexivity|]. split; [reflexivity|].
  vm_compute. do 6 right. left. reflexivity.
Qed.

Lemma count_code_isa_invalid (c : string) :
  c <> "INVALID_ISA_SEGMENT" -> count_code c [invalid_isa_segment] = 0.
Proof.
  intros N. unfold count_code. cbn [filter invalid_isa_segment error_msg
    ProcessingMessage.code].
  destruct (String.eqb_spec "INVALID_ISA_SEGMENT" c); [congruence|reflexivity].
Qed.

Lemma later_messages_no_isa_code (segs : list Segment) (ty c : string) :
  c = "INSUFFICIENT_ISA_ELEMENTS" \/ c = "ISA_ELEMENT_TOO_LONG" ->
  count_code c (later_messages segs ty) = 0.
Proof.
  intros Hc. unfold later_messages, structure_messages.
  rewrite !count_code_app.
  rewrite !count_code_flat_map_zero.
  - unfold closing_messages.
    destruct (negb (str_list_eqb _ _)); destruct Hc; subst; reflexivity.
  - intros seg. unfold element_message.
    destruct (String.eqb (segment_id seg) "ST"
              && (length (elements seg) <? 2));
      [destruct Hc; subst; reflexivity|].
    destruct (String.eqb (segment_id seg) "BEG"
              && (length (elements seg) <? 3));
      destruct Hc; subst; reflexivity.
  - intros [i e]. unfold order_message. cbn [fst snd].
    destruct (nth_error _ i) as [a|]; [|reflexivity].
    destruct (negb (String.eqb a e)); destruct Hc; subst; reflexivity.
  - intros r. unfold missing_message.
    destruct (negb (PyStr.mem r _)); destruct Hc; subst; reflexivity.
Qed.

(** C3 (as the code has it).  When the first segment's id is not ISA,
    [validate_format] (supported type) puts the Error INVALID_ISA_SEGMENT
    first and the result has errors.  That error ends the envelope-header
    check only: no ISA element count or length message is produced.  The
    required-segment, opening, closing and element-count checks still run
    and their messages follow; the opening check always reports
    INVALID_SEGMENT_ORDER for position 1. *)
Theorem validate_format_first_not_isa (raw ty : string) (first : Segment)
  (rest : list Segment) :
  py_dict_mem segment_patterns ty = true ->
  _split_into_segments raw = first :: rest ->
  segment_id first <> "ISA" ->
  let r := validate_format raw ty in
  messages r = invalid_isa_segment :: later_messages (first :: rest) ty
  /\ has_errors r = true
  /\ is_valid r = false
  /\ count_code "INSUFFICIENT_ISA_ELEMENTS" (messages r) = 0
  /\ count_code "ISA_ELEMENT_TOO_LONG" (messages r) = 0
  /\ In (invalid_segment_order 0 "ISA" (segment_id first)) (messages r).
Proof.
  intros Hs E N. cbv zeta. rewrite validate_format_eq, E.
  unfold format_result. rewrite Hs. cbn [negb messages has_errors is_valid].
  assert (M : format_messages (first :: rest) ty
              = invalid_isa_segment :: later_messages (first :: rest) ty).
  { unfold format_messages, isa_messages.
    destruct (String.eqb_spec (segment_id first) "ISA"); [contradiction|].
    reflexivity. }
  rewrite M. split; [reflexivity|]. split; [reflexivity|].
  split; [reflexivity|].
  split.
  { change (invalid_isa_segment :: ?l) with ([invalid_isa_segment] ++ l).
    rewrite count_code_app, later_messages_no_isa_code by tauto.
    reflexivity. }
  split.
  { change (invalid_isa_segment :: ?l) with ([invalid_isa_segment] ++ l).
    rewrite count_code_app, later_messages_no_isa_code by tauto.
    reflexivity. }
  right. unfold later_messages, structure_messages.
  apply in_or_app. right. apply in_or_app. left. apply in_or_app. left.
  cbn [PyStr.enumerate length seq combine flat_map map].
  apply in_or_app. left. unfold order_message.
  cbn [fst snd nth_error].
  destruct (String.eqb_spec (segment_id first) "ISA"); [contradiction|].
  cbn [negb]. now left.
Qed.

(** Witness for C3: a text that starts with a group segment. *)
Lemma validate_format_first_not_isa_witness :
  py_dict_mem segment_patterns "850" = true
  /\ _split_into_segments example_no_header = example_gs :: [example_st]
  /\ segment_id example_gs <> "ISA"
  /\ (messages (validate_format example_no_header "850")
      = invalid_isa_segment
          :: later_messages (example_gs :: [example_st]) "850"
      /\ has_errors (validate_format example_no_header "850") = true
      /\ is_valid (validate_format example_no_header "850") = false
      /\ count_code "INSUFFICIENT_ISA_ELEMENTS"
           (messages (validate_format example_no_header "850")) = 0
      /\ count_code "ISA_ELEMENT_TOO_LONG"
           (messages (validate_format example_no_header "850")) = 0
      /\ In (invalid_segment_order 0 "ISA" (segment_id example_gs))
           (messages (validate_format example_no_header "850"))).
Proof.
  split; [reflexivity|]. split; [reflexivity|].
  split; [discriminate|].
  apply validate_format_first_not_isa;
    [reflexivity|reflexivity|discriminate].
Defined.

(** C3, counterexample: the first segment is not ISA, and nine messages of
    the later checks follow INVALID_ISA_SEGMENT. *)
Lemma validate_format_first_not_isa_counterexample :
  map segment_id (_split_into_segments example_no_header) = ["GS"; "ST"]
  /\ codes (messages (validate_format example_no_header "850")) =
     [ "INVALID_ISA_SEGMENT"; "MISSING_REQUIRED_SEGMENT";
       "MISSING_REQUIRED_SEGMENT"; "MISSING_REQUIRED_SEGMENT";
       "MISSING_REQUIRED_SEGMENT"; "MISSING_REQUIRED_SEGMENT";
       "INVALID_SEGMENT_ORDER"; "INVALID_SEGMENT_ORDER";
       "INVALID_CLOSING_SEGMENTS"; "INSUFFICIENT_ST_ELEMENTS" ].
Proof. split; reflexivity. Qed.

Lemma format_result_coherent (segs : list Segment) (ty : string) :
  coherent (format_result segs ty).
Proof.
  unfold format_result, coherent.
  destruct (negb (py_dict_mem segment_patterns ty)); [split; reflexivity|].
  destruct segs; split; reflexivity.
Qed.

(** ** Business rules *)

Section BusinessRulesFacts.
Context `{PyFloat}.

Lemma purchase_order_rules_coherent (po_data : PurchaseOrderData.t float) :
  exists r,
    _validate_purchase_order_rules (IsPurchaseOrder po_data) = Ok r
    /\ coherent r.
Proof.
  unfold _validate_purchase_order_rules.
  set (first :=
         if String.eqb (PurchaseOrderData.po_number po_data) "" then
           [error_msg "MISSING_PO_NUMBER" "Purchase Order number is required"
              "po_number" 0]
         else []).
  set (second :=
         match PurchaseOrderData.line_items po_data with
         | [] => [error_msg "NO_LINE_ITEMS"
                    "Purchase Order must have at least one line item"
                    "line_items" 0]
         | _ :: _ => []
         end).
  set (item := fun il : nat * PurchaseOrderLineItem.t float =>
         (if String.eqb (PurchaseOrderLineItem.line_number (snd il)) "" then
            [error_msg "MISSING_LINE_NUMBER"
               ("Line item " ^^ PyStr.str_of_nat (fst il + 1)
                ^^ " must have a line number")
               ("line_items[" ^^ PyStr.str_of_nat (fst il)
                ^^ "].line_number") 0]
          else [])
         ++ (if float_le_zero
                  (Quantity.value
                     (PurchaseOrderLineItem.quantity_ordered (snd il)))
             then
               [error_msg "INVALID_QUANTITY"
                  ("Line item " ^^ PyStr.str_of_nat (fst il + 1)
                   ^^ " quantity must be greater than 0")
                  ("line_items[" ^^ PyStr.str_of_nat (fst il)
                   ^^ "].quantity_ordered") 0]
             else [])).
  set (msgs := first ++ second
               ++ flat_map item
                    (PyStr.enumerate (PurchaseOrderData.line_items po_data))).
  exists (mkValidationResult (negb (any_error msgs)) msgs (any_error msgs)).
  split; [|split; reflexivity].
  unfold run_local. unfold m_bind at 1.
  assert (E1 : forall ms,
             (if String.eqb (PurchaseOrderData.po_number po_data) "" then
                _ <~ m_append (error_msg "MISSING_PO_NUMBER"
                                 "Purchase Order number is required"
                                 "po_number" 0) ;;
                m_ret true
              else m_ret false) ms = (ms ++ first, Ok (any_error first))).
  { intros ms. subst first.
    destruct (String.eqb (PurchaseOrderData.po_number po_data) "");
      [reflexivity|]. unfold m_ret. now rewrite app_nil_r. }
  rewrite E1. unfold m_bind at 1.
  assert (E2 : forall he ms,
             (match PurchaseOrderData.line_items po_data with
              | [] =>
                  _ <~ m_append
                         (error_msg "NO_LINE_ITEMS"
                            "Purchase Order must have at least one line item"
                            "line_items" 0) ;;
                  m_ret true
              | _ :: _ => m_ret he
              end) ms = (ms ++ second, Ok (he || any_error second))).
  { intros he ms. subst second.
    destruct (PurchaseOrderData.line_items po_data).
    - cbn. now rewrite orb_true_r.
    - unfold m_ret. cbn. now rewrite app_nil_r, orb_false_r. }
  rewrite E2. unfold m_bind at 1.
  rewrite (m_fold_flag _ item).
  - unfold m_return, m_bind, m_messages, m_ret. cbn [app].
    subst msgs. rewrite !any_error_app, <- !orb_assoc, <- !app_assoc.
    reflexivity.
  - intros he [i li] ms. subst item. cbn [fst snd].
    unfold m_bind.
    destruct (String.eqb (PurchaseOrderLineItem.line_number li) "");
      destruct (float_le_zero
                  (Quantity.value (PurchaseOrderLineItem.quantity_ordered li)));
      unfold m_append, m_ret; cbn [app any_error existsb is_error
        ProcessingMessage.level error_msg MessageLevel_eqb];
      rewrite <- ?app_assoc, ?app_nil_r, ?orb_true_r, ?orb_false_r;
      reflexivity.
Qed.

Lemma invoice_rules_coherent (invoice_data : InvoiceData.t float) :
  exists r,
    _validate_invoice_rules (IsInvoice invoice_data) = Ok r /\ coherent r.
Proof.
  unfold _validate_invoice_rules, run_local, m_bind, m_return, m_messages,
    m_append, m_ret.
  destruct (String.eqb (InvoiceData.invoice_number invoice_data) "");
    destruct (InvoiceData.line_items invoice_data);
    eexists; (split; [reflexivity|split; reflexivity]).
Qed.

Lemma asn_rules_coherent (asn_data : AdvanceShipNoticeData.t) :
  exists r,
    _validate_asn_rules (IsAdvanceShipNotice asn_data) = Ok r /\ coherent r.
Proof.
  unfold _validate_asn_rules, run_local, m_bind, m_return, m_messages,
    m_append, m_ret.
  destruct (String.eqb (AdvanceShipNoticeData.shipment_id asn_data) "");
    eexists; (split; [reflexivity|split; reflexivity]).
Qed.

Lemma functional_ack_rules_coherent
  (fa_data : FunctionalAcknowledgmentData.t) :
  exists r,
    _validate_functional_ack_rules (IsFunctionalAcknowledgment fa_data) = Ok r
    /\ coherent r.
Proof.
  unfold _validate_functional_ack_rules, run_local, m_bind, m_return,
    m_messages, m_append, m_ret.
  destruct (String.eqb
              (FunctionalAcknowledgmentData.original_transaction_set_id
                 fa_data) "");
    eexists; (split; [reflexivity|split; reflexivity]).
Qed.

(** A rule set either returns a coherent result or raises with no message
    kept. *)
Lemma rules_branch_coherent (rules : result ValidationResult) :
  (exists r, rules = Ok r /\ coherent r) \/ (exists e, rules = Raise e) ->
  coherent
    (match
       (errors <~
          (v <~ m_lift rules ;;
           _ <~ m_extend (messages v) ;;
           m_ret (has_errors v)) ;;
        m_return (negb errors) errors) []
     with
     | (_, Ok r) => r
     | (ms, Raise e) =>
         mkValidationResult false
           (ms ++ [error_msg "BUSINESS_RULE_ERROR"
                     ("Business rule validation error: " ^^ exn_str e) "" 0])
           true
     end).
Proof.
  intros [(r & -> & [C1 C2])|(e & ->)].
  - unfold m_bind, m_lift, m_extend, m_ret, m_return, m_messages.
    cbn [app]. split; cbn [has_errors messages is_valid]; [exact C1|].
    reflexivity.
  - split; reflexivity.
Qed.

Lemma validate_business_rules_coherent (parsed_data : ParsedData float)
  (ty : string) :
  coherent (validate_business_rules parsed_data ty).
Proof.
  unfold validate_business_rules, validate_business_rules_try.
  destruct (String.eqb ty "850").
  { apply rules_branch_coherent. destruct parsed_data;
      try (right; eexists; reflexivity).
    left. apply purchase_order_rules_coherent. }
  destruct (String.eqb ty "810").
  { apply rules_branch_coherent. destruct parsed_data;
      try (right; eexists; reflexivity).
    left. apply invoice_rules_coherent. }
  destruct (String.eqb ty "856").
  { apply rules_branch_coherent. destruct parsed_data;
      try (right; eexists; reflexivity).
    left. apply asn_rules_coherent. }
  destruct (String.eqb ty "997").
  { apply rules_branch_coherent. destruct parsed_data;
      try (right; eexists; reflexivity).
    left. apply functional_ack_rules_coherent. }
  split; reflexivity.
Qed.

End BusinessRulesFacts.

(** C9.  Every result of [validate_format] and of [validate_business_rules]
    has [has_errors] true exactly when one of its messages has Error level
    (so Warning and Info messages alone leave it false), and [is_valid] is
    the negation of [has_errors]. *)
Theorem validation_results_coherent :
  (forall raw ty : string,
      let r := validate_format raw ty in
      (has_errors r = true <->
       exists m, In m (messages r)
                 /\ ProcessingMessage.level m = MESSAGE_LEVEL_ERROR)
      /\ is_valid r = negb (has_errors r))
  /\ (forall (PF : PyFloat) (parsed_data : ParsedData float) (ty : string),
         let r := validate_business_rules parsed_data ty in
         (has_errors r = true <->
          exists m, In m (messages r)
                    /\ ProcessingMessage.level m = MESSAGE_LEVEL_ERROR)
         /\ is_valid r = negb (has_errors r)).
Proof.
  assert (K : forall r, coherent r ->
                (has_errors r = true <->
                 exists m, In m (messages r)
                           /\ ProcessingMessage.level m = MESSAGE_LEVEL_ERROR)
                /\ is_valid r = negb (has_errors r)).
  { intros r [C1 C2]. split; [|exact C2]. rewrite C1. unfold any_error.
    rewrite existsb_exists. split; intros (m & I & L); exists m; split;
      try exact I.
    - unfold is_error in L. destruct (ProcessingMessage.level m);
        [reflexivity|discriminate|discriminate].
    - unfold is_error. now rewrite L. }
  split.
  - intros raw ty. apply K. rewrite validate_format_eq.
    apply format_result_coherent.
  - intros PF parsed_data ty. apply K. apply validate_business_rules_coherent.
Qed.

(** ** Extraction *)

Lemma rfold_app {A B : Type} (f : A -> B -> result A) (l1 l2 : list B)
  (a : A) :
  rfold f (l1 ++ l2) a = (a' <- rfold f l1 a ;; rfold f l2 a').
Proof.
  revert a. induction l1 as [|b l1 IH]; intros a; cbn [app rfold rbind];
    [reflexivity|].
  destruct (f a b) as [a'|e]; cbn [rbind]; [apply IH|reflexivity].
Qed.

Lemma rfold_total {A B : Type} (f : A -> B -> result A) (l : list B) :
  (forall a b, In b l -> exists a', f a b = Ok a') ->
  forall a, exists a', rfold f l a = Ok a'.
Proof.
  induction l as [|b l IH]; intros Hf a; cbn [rfold].
  - now exists a.
  - destruct (Hf a b (or_introl eq_refl)) as [a' E]. rewrite E. cbn [rbind].
    apply IH. intros a0 b0 I. apply Hf. now right.
Qed.

Lemma rfold_preserves {A B C : Type} (f : A -> B -> result A) (g : A -> C)
  (l : list B) :
  (forall a b a', In b l -> f a b = Ok a' -> g a' = g a) ->
  forall a a', rfold f l a = Ok a' -> g a' = g a.
Proof.
  induction l as [|b l IH]; intros Hf a a'; cbn [rfold].
  - now intros [= ->].
  - destruct (f a b) as [a1|e] eqn:E; cbn [rbind]; [|discriminate].
    intros R. rewrite (IH (fun a0 b0 a0' I => Hf a0 b0 a0' (or_intror I))
                         a1 a' R).
    exact (Hf a b a1 (or_introl eq_refl) E).
Qed.

Lemma rfold_raises {A B : Type} (f : A -> B -> result A) (l : list B)
  (b : B) :
  In b l -> (forall a, exists e, f a b = Raise e) ->
  forall a, exists e, rfold f l a = Raise e.
Proof.
  intros I Hb. induction l as [|b0 l IH]; [destruct I|]. intros a.
  cbn [rfold]. destruct (f a b0) as [a1|e] eqn:E; cbn [rbind].
  - destruct I as [->|I].
    + destruct (Hb a) as [e' E']. congruence.
    + apply IH, I.
  - now exists e.
Qed.

Lemma functional_acknowledgment_step_total
  (fa : FunctionalAcknowledgmentData.t) (s : Segment) :
  exists fa', functional_acknowledgment_step fa s = Ok fa'.
Proof.
  unfold functional_acknowledgment_step. destruct fa as [a b c d].
  destruct (String.eqb (segment_id s) "AK1").
  { destruct (elements s) as [|? [|? [|? ?]]]; cbn; eexists; reflexivity. }
  destruct (String.eqb (segment_id s) "AK2").
  { destruct (elements s) as [|? [|? [|? ?]]]; cbn; eexists; reflexivity. }
  destruct (String.eqb (segment_id s) "AK5").
  { destruct (elements s) as [|? ?]; cbn; eexists; reflexivity. }
  eexists; reflexivity.
Qed.

Lemma functional_acknowledgment_step_keeps
  (fa fa' : FunctionalAcknowledgmentData.t) (s : Segment) :
  writes_acknowledgment_code s = false ->
  functional_acknowledgment_step fa s = Ok fa' ->
  FunctionalAcknowledgmentData.acknowledgment_code fa' =
  FunctionalAcknowledgmentData.acknowledgment_code fa.
Proof.
  unfold functional_acknowledgment_step, writes_acknowledgment_code.
  destruct fa as [a b c d].
  destruct (String.eqb (segment_id s) "AK1").
  { destruct (elements s) as [|? [|? [|? ?]]]; cbn; try discriminate;
      now intros _ [= <-]. }
  destruct (String.eqb (segment_id s) "AK2").
  { destruct (elements s) as [|? [|? [|? ?]]]; cbn; now intros _ [= <-]. }
  destruct (String.eqb (segment_id s) "AK5").
  { destruct (elements s) as [|? ?]; cbn; try discriminate;
      now intros _ [= <-]. }
  now intros _ [= <-].
Qed.

Lemma functional_acknowledgment_step_ak5
  (fa : FunctionalAcknowledgmentData.t) (s : Segment) (code : string)
  (rest : list string) :
  segment_id s = "AK5" -> elements s = code :: rest ->
  exists fa',
    functional_acknowledgment_step fa s = Ok fa'
    /\ FunctionalAcknowledgmentData.acknowledgment_code fa' = code.
Proof.
  intros I E. unfold functional_acknowledgment_step. rewrite I, E.
  destruct fa as [a b c d]. cbn. eexists. split; reflexivity.
Qed.

Lemma functional_acknowledgment_step_ak1
  (fa : FunctionalAcknowledgmentData.t) (s : Segment) (a b c : string)
  (rest : list string) :
  segment_id s = "AK1" -> elements s = a :: b :: c :: rest ->
  exists fa',
    functional_acknowledgment_step fa s = Ok fa'
    /\ FunctionalAcknowledgmentData.acknowledgment_code fa' = c.
Proof.
  intros I E. unfold functional_acknowledgment_step. rewrite I, E.
  destruct fa as [a0 b0 c0 d0]. cbn. eexists. split; reflexivity.
Qed.

(** An AK1 with a third element, later an AK5 with a first element, and no
    segment after it that assigns the code again. *)
Lemma ak5_after_ak1
  (pre mid post : list Segment) (ak1 ak5 : Segment) (a b c code : string)
  (rest1 rest5 : list string) :
  segment_id ak1 = "AK1" -> elements ak1 = a :: b :: c :: rest1 ->
  segment_id ak5 = "AK5" -> elements ak5 = code :: rest5 ->
  forallb (fun s => negb (writes_acknowledgment_code s)) post = true ->
  (exists fa1,
      _parse_functional_acknowledgment (pre ++ [ak1]) = Ok fa1
      /\ FunctionalAcknowledgmentData.acknowledgment_code fa1 = c)
  /\ (exists fa,
         _parse_functional_acknowledgment (pre ++ ak1 :: mid ++ ak5 :: post)
         = Ok fa
         /\ FunctionalAcknowledgmentData.acknowledgment_code fa = code).
Proof.
  intros I1 E1 I5 E5 P. unfold _parse_functional_acknowledgment.
  destruct (rfold_total functional_acknowledgment_step pre
              (fun a0 b0 _ => functional_acknowledgment_step_total a0 b0)
              FunctionalAcknowledgmentData.default) as [fa0 R0].
  destruct (functional_acknowledgment_step_ak1 fa0 ak1 a b c rest1 I1 E1)
    as (fa1 & S1 & C1).
  split.
  - exists fa1. rewrite rfold_app, R0. cbn [rbind rfold]. rewrite S1.
    split; [reflexivity|exact C1].
  - destruct (rfold_total functional_acknowledgment_step mid
                (fun a0 b0 _ => functional_acknowledgment_step_total a0 b0)
                fa1) as [fa2 R2].
    destruct (functional_acknowledgment_step_ak5 fa2 ak5 code rest5 I5 E5)
      as (fa3 & S3 & C3).
    destruct (rfold_total functional_acknowledgment_step post
                (fun a0 b0 _ => functional_acknowledgment_step_total a0 b0)
                fa3) as [fa4 R4].
    exists fa4. split.
    + rewrite rfold_app, R0. cbn [rbind rfold]. rewrite S1. cbn [rbind].
      rewrite rfold_app, R2. cbn [rbind rfold]. rewrite S3. cbn [rbind].
      exact R4.
    + rewrite <- C3.
      apply (rfold_preserves functional_acknowledgment_step
               FunctionalAcknowledgmentData.acknowledgment_code post);
        [|exact R4].
      intros x s x' I. apply functional_acknowledgment_step_keeps.
      rewrite forallb_forall in P. specialize (P s I).
      now destruct (writes_acknowledgment_code s).
Qed.

Lemma functional_acknowledgment_step_writes
  (fa : FunctionalAcknowledgmentData.t) (s : Segment) :
  writes_acknowledgment_code s = true ->
  exists fa',
    functional_acknowledgment_step fa s = Ok fa'
    /\ FunctionalAcknowledgmentData.acknowledgment_code fa' = written_code s.
Proof.
  unfold writes_acknowledgment_code, written_code.
  destruct (String.eqb_spec (segment_id s) "AK1") as [E|N].
  - destruct (elements s) as [|a [|b [|c rest]]] eqn:El; rewrite E; cbn;
      try discriminate.
    intros _. apply (functional_acknowledgment_step_ak1 fa s a b c rest E El).
  - cbn [andb orb].
    destruct (String.eqb_spec (segment_id s) "AK5") as [E|_];
      [|discriminate].
    destruct (elements s) as [|code rest] eqn:El; cbn; [discriminate|].
    intros _. apply (functional_acknowledgment_step_ak5 fa s code rest E El).
Qed.

Lemma parse_functional_acknowledgment_last_writer (segs : list Segment) :
  exists fa,
    _parse_functional_acknowledgment segs = Ok fa
    /\ FunctionalAcknowledgmentData.acknowledgment_code fa
       = match last_writer segs with
         | Some s => written_code s
         | None => ""
         end.
Proof.
  unfold _parse_functional_acknowledgment, last_writer.
  induction segs as [|s l IH] using rev_ind.
  - exists FunctionalAcknowledgmentData.default. split; reflexivity.
  - destruct IH as (fa & R & C). rewrite rfold_app, R, rev_unit.
    cbn [rbind rfold find].
    destruct (writes_acknowledgment_code s) eqn:W.
    + destruct (functional_acknowledgment_step_writes fa s W) as (fa' & S & V).
      exists fa'. rewrite S. split; [reflexivity | exact V].
    + destruct (functional_acknowledgment_step_total fa s) as (fa' & S).
      exists fa'. rewrite S. split; [reflexivity|].
      rewrite <- C. exact (functional_acknowledgment_step_keeps _ _ _ W S).
Qed.

(** C10 (as the code has it).  Extraction of a 997 returns for every
    segment list, and the extracted [acknowledgment_code] is the one
    assigned by the last segment that assigns it: the third element of an
    AK1 that has one, or the first element of an AK5 that has one; it is
    empty when no such segment exists.  In particular, when an AK1 with a
    third element is followed later by an AK5 with a first element, the
    code is that of the AK1 after the AK1, and the AK5 overwrites it: when
    no AK5 with an element and no AK1 with a third element comes after
    that AK5, the extracted code is the AK5's first element. *)
Theorem functional_acknowledgment_ak5_overwrites :
  (forall segs : list Segment,
      exists fa,
        _parse_functional_acknowledgment segs = Ok fa
        /\ FunctionalAcknowledgmentData.acknowledgment_code fa
           = match last_writer segs with
             | Some s => written_code s
             | None => ""
             end)
  /\ (forall (pre mid post : list Segment) (ak1 ak5 : Segment)
             (a b c code : string) (rest1 rest5 : list string),
         segment_id ak1 = "AK1" -> elements ak1 = a :: b :: c :: rest1 ->
         segment_id ak5 = "AK5" -> elements ak5 = code :: rest5 ->
         forallb (fun s => negb (writes_acknowledgment_code s)) post = true ->
         (exists fa1,
             _parse_functional_acknowledgment (pre ++ [ak1]) = Ok fa1
             /\ FunctionalAcknowledgmentData.acknowledgment_code fa1 = c)
         /\ (exists fa,
                _parse_functional_acknowledgment
                  (pre ++ ak1 :: mid ++ ak5 :: post) = Ok fa
                /\ FunctionalAcknowledgmentData.acknowledgment_code fa
                   = code)).
Proof.
  split.
  - apply parse_functional_acknowledgment_last_writer.
  - intros pre mid post ak1 ak5 a b c code rest1 rest5.
    apply ak5_after_ak1.
Qed.

(** Witness for C10: AK1 with code A, then AK2, AK5 with code R, and SE. *)
Lemma functional_acknowledgment_ak5_overwrites_witness :
  (exists fa,
      _parse_functional_acknowledgment example_acknowledgment = Ok fa
      /\ FunctionalAcknowledgmentData.acknowledgment_code fa
         = match last_writer example_acknowledgment with
           | Some s => written_code s
           | None => ""
           end)
  /\ segment_id example_ak1 = "AK1"
  /\ elements example_ak1 = ["850"; "0001"; "A"]
  /\ segment_id example_ak5 = "AK5" /\ elements example_ak5 = ["R"]
  /\ forallb (fun s => negb (writes_acknowledgment_code s)) [example_se]
     = true
  /\ ((exists fa1,
          _parse_functional_acknowledgment ([] ++ [example_ak1]) = Ok fa1
          /\ FunctionalAcknowledgmentData.acknowledgment_code fa1 = "A")
      /\ (exists fa,
             _parse_functional_acknowledgment
               ([] ++ example_ak1 :: [example_ak2]
                ++ example_ak5 :: [example_se]) = Ok fa
             /\ FunctionalAcknowledgmentData.acknowledgment_code fa = "R")).
Proof.
  split.
  - apply (proj1 functional_acknowledgment_ak5_overwrites
             example_acknowledgment).
  - repeat (split; [reflexivity|]).
    apply (proj2 functional_acknowledgment_ak5_overwrites [] [example_ak2]
             [example_se] example_ak1 example_ak5 "850" "0001" "A" "R" [] []);
      reflexivity.
Defined.

(** C10, counterexample: AK1 (code A), AK5 (code R), AK1 (code E).  The
    document holds an AK1 with a third element followed by an AK5 with an
    element, and the extracted code is E, the first element of no AK5: the
    last segment that assigns the code is the second AK1. *)
Lemma functional_acknowledgment_ak5_counterexample :
  map segment_id (_split_into_segments example_ak1_ak5_ak1)
  = ["AK1"; "AK5"; "AK1"]
  /\ _parse_functional_acknowledgment
       (_split_into_segments example_ak1_ak5_ak1) =
     Ok (FunctionalAcknowledgmentData.mk "810" "0002" "E" []).
Proof. split; reflexivity. Qed.

Section ExtractionFacts.
Context `{PyFloat}.

Lemma float_or_zero_ok (e : string) :
  (if String.eqb e "" then true
   else match py_float e with Some _ => true | None => false end) = true ->
  exists x, float_or_zero e = Ok x /\ (e = "" -> x = float_zero).
Proof.
  unfold float_or_zero, float_of_str.
  destruct (String.eqb_spec e "") as [->|N].
  - intros _. now exists float_zero.
  - destruct (py_float e) as [x|]; [|discriminate]. intros _. exists x.
    split; [reflexivity|]. intros E. contradiction.
Qed.

Lemma float_or_zero_raises (e : string) :
  (if String.eqb e "" then true
   else match py_float e with Some _ => true | None => false end) = false ->
  float_or_zero e = Raise (ValueError (py_float_error e)).
Proof.
  unfold float_or_zero, float_of_str.
  destruct (String.eqb e ""); [discriminate|].
  destruct (py_float e); [discriminate|reflexivity].
Qed.


Ltac use_float_ok :=
  repeat match goal with
    | N : (if String.eqb ?e "" then true else _) = true
      |- context [float_or_zero ?e] =>
        let x := fresh "x" in
        let Z := fresh "Z" in
        destruct (float_or_zero_ok e N) as (x & -> & Z); cbn [rbind]
    end.

Ltac line_item_ok_tac :=
  intros; use_float_ok; eexists; split; [reflexivity|];
  split; cbn; intros E; inversion E; subst; auto.

Ltac line_item_raises_tac :=
  match goal with
  | |- context [float_or_zero ?e1] =>
      destruct (if String.eqb e1 "" then true
                else match py_float e1 with Some _ => true | None => false end)
        eqn:?N1;
      [ use_float_ok;
        match goal with
        | N : true && ?c = false |- context [float_or_zero ?e3] =>
            cbn [andb] in N; rewrite (float_or_zero_raises e3 N)
        | N : true && true = false |- _ => discriminate N
        end
      | match goal with
        | N1 : _ = false |- _ => rewrite (float_or_zero_raises e1 N1)
        end ];
      eexists; reflexivity
  end.

Lemma parse_po1_ok (elems : list string) :
  numeric_ok elems 1 = true -> numeric_ok elems 3 = true ->
  exists item,
    parse_po1 elems = Ok item
    /\ (nth_error elems 1 = Some "" ->
        Quantity.value (PurchaseOrderLineItem.quantity_ordered item)
        = float_zero)
    /\ (nth_error elems 3 = Some "" ->
        Money.value (PurchaseOrderLineItem.unit_price item) = float_zero).
Proof.
  unfold numeric_ok, parse_po1.
  destruct elems as [|e0 [|e1 [|e2 [|e3 [|e4 [|e5 rest]]]]]];
    cbn [nth_error length Nat.leb py_getitem rbind]; line_item_ok_tac.
Qed.

Lemma parse_po1_raises (elems : list string) :
  numeric_ok elems 1 && numeric_ok elems 3 = false ->
  exists e, parse_po1 elems = Raise e.
Proof.
  unfold numeric_ok, parse_po1.
  destruct elems as [|e0 [|e1 [|e2 [|e3 [|e4 [|e5 rest]]]]]];
    cbn [nth_error length Nat.leb py_getitem rbind andb]; try discriminate;
    intros N; line_item_raises_tac.
Qed.

Lemma parse_it1_ok (elems : list string) :
  numeric_ok elems 1 = true -> numeric_ok elems 3 = true ->
  exists item,
    parse_it1 elems = Ok item
    /\ (nth_error elems 1 = Some "" ->
        Quantity.value (InvoiceLineItem.quantity_invoiced item) = float_zero)
    /\ (nth_error elems 3 = Some "" ->
        Money.value (InvoiceLineItem.unit_price item) = float_zero).
Proof.
  unfold numeric_ok, parse_it1.
  destruct elems as [|e0 [|e1 [|e2 [|e3 [|e4 [|e5 rest]]]]]];
    cbn [nth_error length Nat.leb py_getitem rbind]; line_item_ok_tac.
Qed.

Lemma parse_it1_raises (elems : list string) :
  numeric_ok elems 1 && numeric_ok elems 3 = false ->
  exists e, parse_it1 elems = Raise e.
Proof.
  unfold numeric_ok, parse_it1.
  destruct elems as [|e0 [|e1 [|e2 [|e3 [|e4 [|e5 rest]]]]]];
    cbn [nth_error length Nat.leb py_getitem rbind andb]; try discriminate;
    intros N; line_item_raises_tac.
Qed.

End ExtractionFacts.

Section PartyFacts.
Context `{PyFloat}.

Ltac short_elems s :=
  destruct (elements s) as [|? [|? [|? ?]]];
  cbn [length Nat.leb Nat.ltb py_getitem nth_error rbind].

Lemma purchase_order_step_total (po : PurchaseOrderData.t float)
  (s : Segment) :
  line_item_ok "PO1" s = true ->
  exists po', purchase_order_step po s = Ok po'.
Proof.
  unfold line_item_ok, purchase_order_step.
  destruct (String.eqb_spec (segment_id s) "BEG") as [E|_].
  { rewrite E. cbn [String.eqb Ascii.eqb Bool.eqb]. intros _.
    short_elems s; eexists; reflexivity. }
  destruct (String.eqb (segment_id s) "PO1").
  { intros N. apply andb_true_iff in N. destruct N as [N1 N3].
    destruct (parse_po1_ok (elements s) N1 N3) as (item & -> & _).
    eexists; reflexivity. }
  intros _. destruct (String.eqb (segment_id s) "N1");
    [|eexists; reflexivity].
  destruct po. unfold n1_party. short_elems s; try (eexists; reflexivity);
    cbn [Party.entity_identifier_code];
    repeat match goal with
      | |- context [if String.eqb ?a ?b then _ else _] =>
          destruct (String.eqb a b)
      end; eexists; reflexivity.
Qed.

Lemma purchase_order_step_raises (po : PurchaseOrderData.t float)
  (s : Segment) :
  line_item_ok "PO1" s = false ->
  exists e, purchase_order_step po s = Raise e.
Proof.
  unfold line_item_ok, purchase_order_step.
  destruct (String.eqb_spec (segment_id s) "PO1") as [E|_]; [|discriminate].
  rewrite E. cbn [String.eqb Ascii.eqb Bool.eqb]. intros N.
  destruct (parse_po1_raises (elements s) N) as [e ->]. now exists e.
Qed.

Lemma purchase_order_step_keeps (role : string)
  (po po' : PurchaseOrderData.t float) (s : Segment) :
  party_segment_for role s = false ->
  purchase_order_step po s = Ok po' ->
  purchase_order_slot role po' = purchase_order_slot role po.
Proof.
  unfold party_segment_for, purchase_order_step, purchase_order_slot.
  destruct (String.eqb_spec (segment_id s) "BEG") as [E|_].
  { intros _. short_elems s; intros [= <-]; reflexivity. }
  destruct (String.eqb_spec (segment_id s) "PO1") as [E|_].
  { intros _. destruct (parse_po1 (elements s)); cbn [rbind];
      [|discriminate]. intros [= <-]. reflexivity. }
  destruct (String.eqb (segment_id s) "N1"); [|now intros _ [= <-]].
  cbn [andb]. destruct po. unfold n1_party.
  short_elems s; try (now intros _ [= <-]);
    cbn [Party.entity_identifier_code];
    intros N;
    repeat match goal with
      | |- context [if String.eqb ?a ?b then _ else _] =>
          destruct (String.eqb_spec a b); subst
      end; intros [= <-]; cbn; try reflexivity; try discriminate;
      try (rewrite String.eqb_refl in N; discriminate).
Qed.

Lemma purchase_order_step_sets (role name : string) (rest : list string)
  (po : PurchaseOrderData.t float) (s : Segment) :
  segment_id s = "N1" -> elements s = role :: name :: rest ->
  PyStr.mem role ["BY"; "SE"; "ST"; "BT"] = true ->
  exists po',
    purchase_order_step po s = Ok po'
    /\ purchase_order_slot role po' = Some (Party.mk role name).
Proof.
  intros I E R. unfold purchase_order_step, purchase_order_slot.
  rewrite I, E. cbn [String.eqb Ascii.eqb Bool.eqb length Nat.leb].
  unfold n1_party. cbn [py_getitem nth_error rbind
    Party.entity_identifier_code]. destruct po.
  unfold PyStr.mem in R. cbn [existsb] in R.
  destruct (String.eqb_spec role "BY"); [subst; eexists; split; reflexivity|].
  destruct (String.eqb_spec role "SE"); [subst; eexists; split; reflexivity|].
  destruct (String.eqb_spec role "ST"); [subst; eexists; split; reflexivity|].
  destruct (String.eqb_spec role "BT"); [subst; eexists; split; reflexivity|].
  discriminate.
Qed.

Lemma invoice_step_total (inv : InvoiceData.t float) (s : Segment) :
  line_item_ok "IT1" s = true ->
  exists inv', invoice_step inv s = Ok inv'.
Proof.
  unfold line_item_ok, invoice_step. destruct inv.
  destruct (String.eqb_spec (segment_id s) "BIG") as [E|_].
  { rewrite E. cbn [String.eqb Ascii.eqb Bool.eqb]. intros _.
    short_elems s; eexists; reflexivity. }
  destruct (String.eqb (segment_id s) "IT1").
  { intros N. apply andb_true_iff in N. destruct N as [N1 N3].
    destruct (parse_it1_ok (elements s) N1 N3) as (item & -> & _).
    eexists; reflexivity. }
  intros _. destruct (String.eqb (segment_id s) "N1");
    [|eexists; reflexivity].
  unfold n1_party. short_elems s; try (eexists; reflexivity);
    cbn [Party.entity_identifier_code];
    repeat match goal with
      | |- context [if String.eqb ?a ?b then _ else _] =>
          destruct (String.eqb a b)
      end; eexists; reflexivity.
Qed.

Lemma invoice_step_raises (inv : InvoiceData.t float) (s : Segment) :
  line_item_ok "IT1" s = false ->
  exists e, invoice_step inv s = Raise e.
Proof.
  unfold line_item_ok, invoice_step. destruct inv.
  destruct (String.eqb_spec (segment_id s) "IT1") as [E|_]; [|discriminate].
  rewrite E. cbn [String.eqb Ascii.eqb Bool.eqb]. intros N.
  destruct (parse_it1_raises (elements s) N) as [e ->]. now exists e.
Qed.

Lemma invoice_step_keeps (role : string) (inv inv' : InvoiceData.t float)
  (s : Segment) :
  party_segment_for role s = false ->
  invoice_step inv s = Ok inv' ->
  invoice_slot role inv' = invoice_slot role inv.
Proof.
  unfold party_segment_for, invoice_step, invoice_slot. destruct inv.
  destruct (String.eqb_spec (segment_id s) "BIG") as [E|_].
  { intros _. short_elems s; intros [= <-]; reflexivity. }
  destruct (String.eqb_spec (segment_id s) "IT1") as [E|_].
  { intros _. destruct (parse_it1 (elements s)); cbn [rbind];
      [|discriminate]. intros [= <-]. reflexivity. }
  destruct (String.eqb (segment_id s) "N1"); [|now intros _ [= <-]].
  cbn [andb]. unfold n1_party.
  short_elems s; try (now intros _ [= <-]);
    cbn [Party.entity_identifier_code];
    intros N;
    repeat match goal with
      | |- context [if String.eqb ?a ?b then _ else _] =>
          destruct (String.eqb_spec a b); subst
      end; intros [= <-]; cbn; try reflexivity; try discriminate;
      try (rewrite String.eqb_refl in N; discriminate).
Qed.

Lemma invoice_step_sets (role name : string) (rest : list string)
  (inv : InvoiceData.t float) (s : Segment) :
  segment_id s = "N1" -> elements s = role :: name :: rest ->
  PyStr.mem role ["BT"; "RE"; "SF"; "ST"] = true ->
  exists inv',
    invoice_step inv s = Ok inv'
    /\ invoice_slot role inv' = Some (Party.mk role name).
Proof.
  intros I E R. unfold invoice_step, invoice_slot. destruct inv.
  rewrite I, E. cbn [String.eqb Ascii.eqb Bool.eqb length Nat.leb].
  unfold n1_party. cbn [py_getitem nth_error rbind
    Party.entity_identifier_code].
  unfold PyStr.mem in R. cbn [existsb] in R.
  destruct (String.eqb_spec role "BT"); [subst; eexists; split; reflexivity|].
  destruct (String.eqb_spec role "RE"); [subst; eexists; split; reflexivity|].
  destruct (String.eqb_spec role "SF"); [subst; eexists; split; reflexivity|].
  destruct (String.eqb_spec role "ST"); [subst; eexists; split; reflexivity|].
  discriminate.
Qed.

Lemma advance_ship_notice_step_total (asn : AdvanceShipNoticeData.t)
  (s : Segment) :
  exists asn', advance_ship_notice_step asn s = Ok asn'.
Proof.
  unfold advance_ship_notice_step. destruct asn.
  destruct (String.eqb (segment_id s) "BSN").
  { short_elems s; eexists; reflexivity. }
  destruct (String.eqb (segment_id s) "HL"); [eexists; reflexivity|].
  destruct (String.eqb (segment_id s) "N1"); [|eexists; reflexivity].
  unfold n1_party. short_elems s; try (eexists; reflexivity);
    cbn [Party.entity_identifier_code];
    repeat match goal with
      | |- context [if String.eqb ?a ?b then _ else _] =>
          destruct (String.eqb a b)
      end; eexists; reflexivity.
Qed.

Lemma advance_ship_notice_step_keeps (role : string)
  (asn asn' : AdvanceShipNoticeData.t) (s : Segment) :
  party_segment_for role s = false ->
  advance_ship_notice_step asn s = Ok asn' ->
  advance_ship_notice_slot role asn' = advance_ship_notice_slot role asn.
Proof.
  unfold party_segment_for, advance_ship_notice_step,
    advance_ship_notice_slot. destruct asn.
  destruct (String.eqb_spec (segment_id s) "BSN") as [E|_].
  { intros _. short_elems s; intros [= <-]; reflexivity. }
  destruct (String.eqb_spec (segment_id s) "HL") as [E|_];
    [now intros _ [= <-]|].
  destruct (String.eqb (segment_id s) "N1"); [|now intros _ [= <-]].
  cbn [andb]. unfold n1_party.
  short_elems s; try (now intros _ [= <-]);
    cbn [Party.entity_identifier_code];
    intros N;
    repeat match goal with
      | |- context [if String.eqb ?a ?b then _ else _] =>
          destruct (String.eqb_spec a b); subst
      end; intros [= <-]; cbn; try reflexivity; try discriminate;
      try (rewrite String.eqb_refl in N; discriminate).
Qed.

Lemma advance_ship_notice_step_sets (role name : string)
  (rest : list string) (asn : AdvanceShipNoticeData.t) (s : Segment) :
  segment_id s = "N1" -> elements s = role :: name :: rest ->
  PyStr.mem role ["SF"; "ST"; "BT"; "CA"] = true ->
  exists asn',
    advance_ship_notice_step asn s = Ok asn'
    /\ advance_ship_notice_slot role asn' = Some (Party.mk role name).
Proof.
  intros I E R. unfold advance_ship_notice_step, advance_ship_notice_slot.
  destruct asn.
  rewrite I, E. cbn [String.eqb Ascii.eqb Bool.eqb length Nat.leb].
  unfold n1_party. cbn [py_getitem nth_error rbind
    Party.entity_identifier_code].
  unfold PyStr.mem in R. cbn [existsb] in R.
  destruct (String.eqb_spec role "SF"); [subst; eexists; split; reflexivity|].
  destruct (String.eqb_spec role "ST"); [subst; eexists; split; reflexivity|].
  destruct (String.eqb_spec role "BT"); [subst; eexists; split; reflexivity|].
  destruct (String.eqb_spec role "CA"); [subst; eexists; split; reflexivity|].
  discriminate.
Qed.

(** The shape shared by the three extractors: total steps before and after
    the segment, a step that sets the slot, steps that keep it. *)
Lemma last_party_wins {A : Type} (step : A -> Segment -> result A)
  (slot : A -> option Party.t) (a0 : A) (pre post : list Segment)
  (n1 : Segment) (party : Party.t) :
  (forall a s, In s (pre ++ n1 :: post) -> exists a', step a s = Ok a') ->
  (forall a, exists a', step a n1 = Ok a' /\ slot a' = Some party) ->
  (forall a a' s, In s post -> step a s = Ok a' -> slot a' = slot a) ->
  exists a, rfold step (pre ++ n1 :: post) a0 = Ok a /\ slot a = Some party.
Proof.
  intros T S K.
  destruct (rfold_total step pre
              (fun a s I => T a s (in_or_app _ _ _ (or_introl I))) a0)
    as [a1 R1].
  destruct (S a1) as (a2 & S2 & P2).
  destruct (rfold_total step post
              (fun a s I =>
                 T a s (in_or_app _ _ _ (or_intror (in_cons _ _ _ I)))) a2)
    as [a3 R3].
  exists a3. split.
  - rewrite rfold_app, R1. cbn [rbind rfold]. rewrite S2. exact R3.
  - rewrite <- P2. apply (rfold_preserves step slot post); [|exact R3].
    intros a a' s. apply K.
Qed.

End PartyFacts.

Lemma forallb_negb_false {A : Type} (p : A -> bool) (l : list A) (a : A) :
  forallb (fun x => negb (p x)) l = true -> In a l -> p a = false.
Proof.
  intros F I. rewrite forallb_forall in F. specialize (F a I).
  now destruct (p a).
Qed.

(** C7 (as the code has it).  A document of type 850, 810 or 856 whose
    segments hold an N1 segment with role code [role] and name [name], the
    role being one the record has a slot for, and no N1 segment with code
    and name for the same role after it: whatever N1 segments for that role
    come before, and whatever N1 segments carrying the role code alone come
    after, extraction succeeds (the line items being convertible) and the
    slot of the role holds exactly the code and the name of that last
    segment with code and name. *)
Theorem party_last_occurrence_overwrites (PF : PyFloat) (raw ty : string)
  (pre post : list Segment) (n1 : Segment) (role name : string)
  (rest : list string) :
  _split_into_segments raw = pre ++ n1 :: post ->
  segment_id n1 = "N1" ->
  elements n1 = role :: name :: rest ->
  forallb (fun s => negb (party_segment_for role s)) post = true ->
  role_recognised ty role = true ->
  line_items_ok ty (pre ++ n1 :: post) = true ->
  success (parse_message raw ty) = true
  /\ parsed_slot role (data (parse_message raw ty))
     = Some (Party.mk role name).
Proof.
  intros E I El P R L.
  unfold parse_message, parse_message_try. rewrite E.
  unfold _parse_purchase_order, _parse_invoice, _parse_advance_ship_notice.
  unfold role_recognised in R. unfold line_items_ok in L.
  destruct (String.eqb ty "850").
  { rewrite forallb_forall in L.
    destruct (last_party_wins purchase_order_step (purchase_order_slot role)
                PurchaseOrderData.default pre post n1 (Party.mk role name))
      as (po & -> & S).
    - intros a s Hs. apply purchase_order_step_total, L, Hs.
    - intros a. apply (purchase_order_step_sets role name rest); assumption.
    - intros a a' s Hs. apply purchase_order_step_keeps.
      apply (forallb_negb_false _ _ _ P Hs).
    - cbn. split; [reflexivity|exact S]. }
  destruct (String.eqb ty "810").
  { rewrite forallb_forall in L.
    destruct (last_party_wins invoice_step (invoice_slot role)
                InvoiceData.default pre post n1 (Party.mk role name))
      as (inv & -> & S).
    - intros a s Hs. apply invoice_step_total, L, Hs.
    - intros a. apply (invoice_step_sets role name rest); assumption.
    - intros a a' s Hs. apply invoice_step_keeps.
      apply (forallb_negb_false _ _ _ P Hs).
    - cbn. split; [reflexivity|exact S]. }
  destruct (String.eqb ty "856"); [|discriminate].
  destruct (last_party_wins advance_ship_notice_step
              (advance_ship_notice_slot role)
              AdvanceShipNoticeData.default pre post n1 (Party.mk role name))
    as (asn & -> & S).
  - intros a s _. apply advance_ship_notice_step_total.
  - intros a. apply (advance_ship_notice_step_sets role name rest);
      assumption.
  - intros a a' s Hs. apply advance_ship_notice_step_keeps.
    apply (forallb_negb_false _ _ _ P Hs).
  - cbn. split; [reflexivity|exact S].
Qed.

(** Witness for C7: two N1 segments for the buyer in a purchase order. *)
Lemma party_last_occurrence_overwrites_witness :
  _split_into_segments example_two_buyers
  = [ mkSegment "BEG" ["00"; "NE"; "4500012345"] 1 1;
      mkSegment "N1" ["BY"; "Acme"] 2 2 ]
    ++ mkSegment "N1" ["BY"; "Globex"] 3 3
       :: [ mkSegment "PO1" ["1"; "5"; "EA"; "9"; "Widget"; "W1"] 4 4 ]
  /\ segment_id (mkSegment "N1" ["BY"; "Globex"] 3 3) = "N1"
  /\ elements (mkSegment "N1" ["BY"; "Globex"] 3 3) = "BY" :: "Globex" :: []
  /\ forallb (fun s => negb (party_segment_for "BY" s))
       [ mkSegment "PO1" ["1"; "5"; "EA"; "9"; "Widget"; "W1"] 4 4 ] = true
  /\ role_recognised "850" "BY" = true
  /\ @line_items_ok DecimalFloat "850"
       ([ mkSegment "BEG" ["00"; "NE"; "4500012345"] 1 1;
          mkSegment "N1" ["BY"; "Acme"] 2 2 ]
        ++ mkSegment "N1" ["BY"; "Globex"] 3 3
           :: [ mkSegment "PO1" ["1"; "5"; "EA"; "9"; "Widget"; "W1"] 4 4 ])
     = true
  /\ (success (@parse_message DecimalFloat example_two_buyers "850") = true
      /\ parsed_slot "BY"
           (data (@parse_message DecimalFloat example_two_buyers "850"))
         = Some (Party.mk "BY" "Globex")).
Proof.
  repeat (split; [reflexivity|]).
  apply (party_last_occurrence_overwrites DecimalFloat example_two_buyers
           "850"
           [ mkSegment "BEG" ["00"; "NE"; "4500012345"] 1 1;
             mkSegment "N1" ["BY"; "Acme"] 2 2 ]
           [ mkSegment "PO1" ["1"; "5"; "EA"; "9"; "Widget"; "W1"] 4 4 ]
           (mkSegment "N1" ["BY"; "Globex"] 3 3) "BY" "Globex" []);
    reflexivity.
Defined.

(** C7, counterexample: an N1 segment with the role code BY and a name,
    then an N1 segment that carries the role code BY alone.  The last N1
    segment carrying the role code has no name; the extractor skips it and
    the buyer slot keeps the code and the name of the earlier segment. *)
Lemma party_last_occurrence_counterexample :
  _split_into_segments example_role_code_alone
  = [mkSegment "N1" ["BY"; "Acme"] 1 1; mkSegment "N1" ["BY"] 2 2]
  /\ success (@parse_message DecimalFloat example_role_code_alone "850")
     = true
  /\ parsed_slot "BY"
       (data (@parse_message DecimalFloat example_role_code_alone "850"))
     = Some (Party.mk "BY" "Acme").
Proof. repeat split; vm_compute; reflexivity. Qed.

Section PipelineFacts.
Context `{PyFloat}.

Lemma stage_without_errors (st : ProcessingStatus) (ty : string)
  (msgs : list ProcessingMessage.t) (v : ValidationResult) :
  coherent v -> has_errors v = false -> stage st ty msgs v = inr msgs.
Proof.
  intros [_ C] E. unfold stage. rewrite C, E. reflexivity.
Qed.

Lemma stage_with_errors (st : ProcessingStatus) (ty : string)
  (msgs : list ProcessingMessage.t) (v : ValidationResult) :
  coherent v -> has_errors v = true ->
  stage st ty msgs v
  = inl (ProcessEdiMessageResponse.plain st ty (msgs ++ messages v)).
Proof.
  intros [_ C] E. unfold stage. rewrite C, E. reflexivity.
Qed.

Lemma parse_message_raises (raw ty lid : string) (seg : Segment) :
  (ty = "850" /\ lid = "PO1") \/ (ty = "810" /\ lid = "IT1") ->
  In seg (_split_into_segments raw) ->
  line_item_ok lid seg = false ->
  exists e,
    parse_message raw ty
    = mkParseResult false IsNone None (Some ("Parsing error: " ^^ exn_str e)).
Proof.
  intros K I L. unfold parse_message, parse_message_try.
  destruct K as [[-> ->]|[-> ->]]; cbn [String.eqb Ascii.eqb Bool.eqb].
  - destruct (rfold_raises purchase_order_step _ seg I
                (fun a => purchase_order_step_raises a seg L)
                PurchaseOrderData.default) as [e R].
    unfold _parse_purchase_order. rewrite R. now exists e.
  - destruct (rfold_raises invoice_step _ seg I
                (fun a => invoice_step_raises a seg L)
                InvoiceData.default) as [e R].
    unfold _parse_invoice. rewrite R. now exists e.
Qed.

End PipelineFacts.

Section SuccessFacts.
Context `{PyFloat}.

Lemma stage_inr (st : ProcessingStatus) (ty : string)
  (msgs msgs' : list ProcessingMessage.t) (v : ValidationResult) :
  coherent v -> stage st ty msgs v = inr msgs' -> msgs' = msgs.
Proof.
  intros [_ C]. unfold stage. rewrite C.
  destruct (has_errors v); cbn [negb]; [discriminate|]. now intros [= <-].
Qed.

Lemma stage_inl_status (st : ProcessingStatus) (ty : string)
  (msgs : list ProcessingMessage.t) (v : ValidationResult)
  (r : ProcessEdiMessageResponse.t float) :
  stage st ty msgs v = inl r -> ProcessEdiMessageResponse.status r = st.
Proof.
  unfold stage. destruct (negb (is_valid v)); [|discriminate].
  destruct (has_errors v); [|discriminate]. now intros [= <-].
Qed.

(** Whatever the request, a SUCCESS response carries no message: a
    validation result that is valid adds nothing to the list, and one that
    is not valid has errors and ends the request. *)
Lemma success_has_no_messages (request : ProcessEdiMessageRequest.t) :
  ProcessEdiMessageResponse.status (ProcessEdiMessage request)
  = PROCESSING_STATUS_SUCCESS ->
  ProcessEdiMessageResponse.messages (ProcessEdiMessage request) = [].
Proof.
  unfold ProcessEdiMessage, ProcessEdiMessage_try.
  set (raw := ProcessEdiMessageRequest.edi_message request).
  set (ty := ProcessEdiMessageRequest.message_type request).
  set (opts := ProcessEdiMessageRequest.options request).
  cbv zeta.
  destruct (negb (_is_message_type_supported ty)); [discriminate|].
  destruct (if ProcessingOptions.validate_format opts
            then stage PROCESSING_STATUS_VALIDATION_ERROR ty []
                   (validate_format raw ty)
            else inr []) as [r|msgs] eqn:F.
  { destruct (ProcessingOptions.validate_format opts); [|discriminate].
    apply stage_inl_status in F. cbn. rewrite F. discriminate. }
  assert (msgs = []) as ->.
  { destruct (ProcessingOptions.validate_format opts);
      [|now inversion F].
    apply stage_inr in F; [exact F|].
    rewrite validate_format_eq. apply format_result_coherent. }
  destruct (negb (success (parse_message raw ty))); [discriminate|].
  destruct (if ProcessingOptions.validate_business_rules opts
            then stage PROCESSING_STATUS_BUSINESS_RULE_ERROR ty []
                   (validate_business_rules (data (parse_message raw ty)) ty)
            else inr []) as [r|msgs] eqn:B.
  { destruct (ProcessingOptions.validate_business_rules opts);
      [|discriminate].
    apply stage_inl_status in B. cbn. rewrite B. discriminate. }
  assert (msgs = []) as ->.
  { destruct (ProcessingOptions.validate_business_rules opts);
      [|now inversion B].
    apply stage_inr in B; [exact B|].
    apply validate_business_rules_coherent. }
  unfold ProcessEdiMessageResponse.plain.
  repeat match goal with
    | |- context [if ?c then _ else _] => destruct c
    | |- context [match data ?p with _ => _ end] => destruct (data p)
    | |- context [match segments ?p with _ => _ end] => destruct (segments p)
    end; cbn; try discriminate; reflexivity.
Qed.

End SuccessFacts.

(** C2, the code at a failing input: a well-formed 997 whose first ISA
    element is one character too long.  Structural validation gives one
    Warning and no Error; with both validations requested the response is
    SUCCESS, carries the typed record, and its message list is empty: the
    Warning is not in it. *)
Theorem process_edi_message_drops_warnings :
  has_errors (validate_format example_long_isa_element "997") = false
  /\ messages (validate_format example_long_isa_element "997")
     = [warning_msg "ISA_ELEMENT_TOO_LONG"
          "ISA element 1 exceeds maximum length of 2" "ISA.1" 0]
  /\ @ProcessEdiMessage DecimalFloat
       (ProcessEdiMessageRequest.mk example_long_isa_element "997" "C1"
          all_options)
     = ProcessEdiMessageResponse.mk PROCESSING_STATUS_SUCCESS "997" []
         None None None
         (Some (FunctionalAcknowledgmentData.mk "850" "0001" "A" []))
         [].
Proof. repeat split; vm_compute; reflexivity. Qed.

(** ** The regular expressions *)

Lemma sapp_assoc (a b c : string) : (a ^^ b) ^^ c = a ^^ b ^^ c.
Proof. induction a as [|x a IH]; cbn; [reflexivity | now rewrite IH]. Qed.

Lemma sapp_length (a b : string) :
  String.length (a ^^ b) = String.length a + String.length b.
Proof. induction a as [|x a IH]; cbn; [reflexivity | now rewrite IH]. Qed.

Lemma match_here_lit (c : ascii) (p : Re.pattern) (s : string) :
  Re.match_here (Re.Lit c :: p) s = true
  <-> exists s', s = String c s' /\ Re.match_here p s' = true.
Proof.
  destruct s as [|a s]; cbn.
  - split; [discriminate | intros (s' & E & _); discriminate].
  - destruct (Ascii.eqb_spec a c) as [->|N].
    + split; [eauto | intros (s' & E & M); now injection E as <-].
    + split; [discriminate | intros (s' & E & _); now injection E].
Qed.

Lemma match_here_digit (p : Re.pattern) (s : string) :
  Re.match_here (Re.Digit :: p) s = true
  <-> exists a s',
        s = String a s' /\ PyStr.isdigit a = true
        /\ Re.match_here p s' = true.
Proof.
  destruct s as [|a s]; cbn.
  - split; [discriminate | intros (b & s' & E & _); discriminate].
  - destruct (PyStr.isdigit a) eqn:D.
    + split; [eauto | intros (b & s' & E & _ & M); now injection E as <- <-].
    + split; [discriminate |].
      intros (b & s' & E & D' & _). injection E as <- <-. congruence.
Qed.

Lemma match_here_star_eq (c : ascii) (p : Re.pattern) (s : string) :
  Re.match_here (Re.StarNot c :: p) s
  = if Re.match_here p s then true
    else match s with
         | String a s' =>
             if Ascii.eqb a c then false
             else Re.match_here (Re.StarNot c :: p) s'
         | EmptyString => false
         end.
Proof. destruct s; reflexivity. Qed.

Lemma match_here_star (c : ascii) (p : Re.pattern) (s : string) :
  Re.match_here (Re.StarNot c :: p) s = true
  <-> exists f s',
        s = f ^^ s'
        /\ forallb (fun a => negb (Ascii.eqb a c)) (list_ascii_of_string f)
           = true
        /\ Re.match_here p s' = true.
Proof.
  split.
  - induction s as [|a s IH]; rewrite match_here_star_eq.
    + destruct (Re.match_here p "") eqn:M; [|discriminate].
      intros _. exists "", "". auto.
    + destruct (Re.match_here p (String a s)) eqn:M.
      * intros _. exists "", (String a s). auto.
      * destruct (Ascii.eqb a c) eqn:E; [discriminate|].
        intros S. destruct (IH S) as (f & s' & -> & F & M').
        exists (String a f), s'. cbn. rewrite E, F. auto.
  - intros (f & s' & -> & F & M). induction f as [|a f IH].
    + cbn [String.append]. rewrite match_here_star_eq, M. reflexivity.
    + cbn in F. apply andb_true_iff in F as [E F].
      rewrite match_here_star_eq. cbn [String.append].
      destruct (Re.match_here p (String a (f ^^ s'))); [reflexivity|].
      apply negb_true_iff in E. rewrite E. auto.
Qed.

Lemma match_here_lits (m : string) (p : Re.pattern) (s : string) :
  Re.match_here (Re.lits m ++ p) s = true
  <-> exists s', s = m ^^ s' /\ Re.match_here p s' = true.
Proof.
  revert s. induction m as [|c m IH]; intros s.
  - cbn. split; [eauto | now intros (s' & -> & M)].
  - change (Re.lits (String c m) ++ p) with (Re.Lit c :: (Re.lits m ++ p)).
    rewrite match_here_lit. split.
    + intros (s1 & -> & M). apply IH in M as (s' & -> & M).
      exists s'. split; [reflexivity | exact M].
    + intros (s' & -> & M). exists (m ^^ s'). split; [reflexivity|].
      apply IH. eauto.
Qed.

Lemma match_here_field (p : Re.pattern) (s : string) :
  Re.match_here (Re.field ++ p) s = true
  <-> exists f s',
        s = f ^^ "*" ^^ s' /\ star_free f = true
        /\ Re.match_here p s' = true.
Proof.
  change (Re.field ++ p)
    with (Re.StarNot PyStr.star :: Re.Lit PyStr.star :: p).
  rewrite match_here_star. split.
  - intros (f & s1 & -> & F & M).
    apply match_here_lit in M as (s' & -> & M). exists f, s'.
    split; [reflexivity | split; [exact F | exact M]].
  - intros (f & s' & -> & F & M). exists f, ("*" ^^ s').
    split; [reflexivity | split; [exact F |]].
    apply match_here_lit. exists s'. split; [reflexivity | exact M].
Qed.

Lemma match_here_fields (n : nat) (p : Re.pattern) (s : string) :
  Re.match_here (concat (repeat Re.field n) ++ p) s = true
  <-> exists fields s',
        length fields = n /\ forallb star_free fields = true
        /\ s = fields_text fields ^^ s' /\ Re.match_here p s' = true.
Proof.
  revert s. induction n as [|n IH]; intros s.
  - cbn [repeat concat app]. split.
    + intros M. exists [], s. auto.
    + intros (fields & s' & L & _ & -> & M).
      destruct fields; [exact M | discriminate].
  - cbn [repeat concat]. rewrite <- app_assoc, match_here_field. split.
    + intros (f & s1 & -> & F & M).
      apply IH in M as (fields & s' & L & Fs & -> & M).
      exists (f :: fields), s'. cbn [length forallb fields_text].
      rewrite L, F, Fs, !sapp_assoc. auto.
    + intros (fields & s' & L & Fs & -> & M).
      destruct fields as [|f fields]; [discriminate|].
      cbn in Fs. apply andb_true_iff in Fs as [F Fs].
      exists f, (fields_text fields ^^ s'). cbn [fields_text].
      rewrite !sapp_assoc. split; [reflexivity | split; [exact F |]].
      apply IH. exists fields, s'. injection L as L. auto.
Qed.

Lemma match_here_version (n : nat) (marker s : string) :
  Re.match_here (version_pattern n marker) s = true
  <-> exists fields post,
        length fields = n /\ forallb star_free fields = true
        /\ s = "ISA*" ^^ fields_text fields ^^ marker ^^ post.
Proof.
  unfold version_pattern. rewrite match_here_lits. split.
  - intros (s1 & -> & M).
    apply match_here_fields in M as (fields & s2 & L & F & -> & M).
    rewrite <- (app_nil_r (Re.lits marker)) in M.
    apply match_here_lits in M as (post & -> & _). eauto.
  - intros (fields & post & L & F & ->).
    exists (fields_text fields ^^ marker ^^ post). split; [reflexivity|].
    apply match_here_fields. exists fields, (marker ^^ post).
    split; [exact L | split; [exact F | split; [reflexivity |]]].
    rewrite <- (app_nil_r (Re.lits marker)). apply match_here_lits.
    exists post. split; reflexivity.
Qed.

Lemma match_here_st (s : string) :
  Re.match_here st_pattern s = true
  <-> exists code post,
        three_digits code = true /\ s = "ST*" ^^ code ^^ post.
Proof.
  unfold st_pattern. rewrite match_here_lits. split.
  - intros (s1 & -> & M).
    apply match_here_digit in M as (a & s2 & -> & A & M).
    apply match_here_digit in M as (b & s3 & -> & B & M).
    apply match_here_digit in M as (c & post & -> & C & _).
    exists (String a (String b (String c ""))), post.
    unfold three_digits. cbn [String.length list_ascii_of_string forallb].
    rewrite A, B, C. split; reflexivity.
  - intros (code & post & T & ->). unfold three_digits in T.
    apply andb_true_iff in T as [L D].
    destruct code as [|a [|b [|c [|d code]]]]; try discriminate.
    cbn in D. apply andb_true_iff in D as [A D].
    apply andb_true_iff in D as [B D]. apply andb_true_iff in D as [C _].
    exists (String a (String b (String c post))). split; [reflexivity|].
    apply match_here_digit. do 2 eexists.
    split; [reflexivity | split; [exact A |]].
    apply match_here_digit. do 2 eexists.
    split; [reflexivity | split; [exact B |]].
    apply match_here_digit. do 2 eexists.
    split; [reflexivity | split; [exact C | reflexivity]].
Qed.

Lemma st_group1_code (code post : string) :
  three_digits code = true -> st_group1 ("ST*" ^^ code ^^ post) = code.
Proof.
  unfold three_digits. intros T. apply andb_true_iff in T as [L _].
  destruct code as [|a [|b [|c [|d code]]]]; try discriminate.
  unfold st_group1. cbn. now destruct post.
Qed.

Lemma search_eq (p : Re.pattern) (s : string) :
  Re.search p s
  = if Re.match_here p s then Some s
    else match s with
         | String _ s' => Re.search p s'
         | EmptyString => None
         end.
Proof. destruct s; reflexivity. Qed.

Lemma search_none (p : Re.pattern) (s : string) :
  Re.search p s = None ->
  forall pre m, s = pre ^^ m -> Re.match_here p m = false.
Proof.
  induction s as [|a s IH]; rewrite search_eq; intros S pre m E.
  - destruct (Re.match_here p "") eqn:M; [discriminate|].
    destruct pre; [|discriminate]. cbn in E. now subst m.
  - destruct (Re.match_here p (String a s)) eqn:M; [discriminate|].
    destruct pre as [|b pre]; cbn in E.
    + now subst m.
    + injection E as _ E. exact (IH S pre m E).
Qed.

Lemma search_some (p : Re.pattern) (s m : string) :
  Re.search p s = Some m ->
  exists pre,
    s = pre ^^ m /\ Re.match_here p m = true
    /\ forall pre' m',
         s = pre' ^^ m' -> Re.match_here p m' = true ->
         String.length pre <= String.length pre'.
Proof.
  revert m. induction s as [|a s IH]; intros m; rewrite search_eq.
  - destruct (Re.match_here p "") eqn:M; [|discriminate].
    intros [= <-]. exists "".
    split; [reflexivity | split; [exact M |]]. cbn. lia.
  - destruct (Re.match_here p (String a s)) eqn:M.
    + intros [= <-]. exists "".
      split; [reflexivity | split; [exact M |]]. cbn. lia.
    + intros S. destruct (IH m S) as (pre & -> & Mm & Least).
      exists (String a pre). split; [reflexivity | split; [exact Mm |]].
      intros pre' m' E M'. destruct pre' as [|b pre']; cbn in E.
      * subst m'. congruence.
      * injection E as _ E. cbn. apply le_n_S. exact (Least pre' m' E M').
Qed.

Lemma search_version (n : nat) (marker raw : string) :
  match Re.search (version_pattern n marker) raw with
  | Some _ => version_occurs n marker raw
  | None => ~ version_occurs n marker raw
  end.
Proof.
  destruct (Re.search (version_pattern n marker) raw) as [m|] eqn:S.
  - apply search_some in S as (pre & -> & M & _).
    apply match_here_version in M as (fields & post & L & F & ->).
    exists pre, fields, post. auto.
  - intros (pre & fields & post & L & F & E).
    pose proof (search_none _ _ S pre _ E) as M.
    assert (Re.match_here (version_pattern n marker)
              ("ISA*" ^^ fields_text fields ^^ marker ^^ post) = true)
      as M' by (apply match_here_version; eauto).
    congruence.
Qed.

(** C4 (amended).  [detect_message_type] reads the text, not its lines:
    when [ST*] followed by three digits occurs somewhere in the text, the
    result is the three digits of the leftmost such occurrence, whatever
    comes before [ST] and after the third digit; when it occurs nowhere,
    the result is [Unknown]. *)
Theorem detect_message_type_leftmost_code (raw : string) :
  (exists pre code,
      st_code_at raw pre code
      /\ (forall pre' code',
             st_code_at raw pre' code' ->
             String.length pre <= String.length pre')
      /\ detect_message_type raw = code)
  \/ ((forall pre code, ~ st_code_at raw pre code)
      /\ detect_message_type raw = "Unknown").
Proof.
  unfold detect_message_type.
  destruct (Re.search st_pattern raw) as [m|] eqn:S.
  - left. apply search_some in S as (pre & -> & M & Least).
    apply match_here_st in M as (code & post & T & ->).
    exists pre, code. split; [split; [exact T | now exists post] |].
    split; [| now apply st_group1_code].
    intros pre' code' [T' [post' E]]. apply (Least pre' _ E).
    apply match_here_st. now exists code', post'.
  - right. split; [| reflexivity].
    intros pre code [T [post E]].
    pose proof (search_none _ _ S pre _ E) as M.
    assert (Re.match_here st_pattern ("ST*" ^^ code ^^ post) = true) as M'
      by (apply match_here_st; now exists code, post).
    congruence.
Qed.

(** C4, counterexample: a line [ST] whose first element has four
    characters gives its first three, and a line whose id is [BST] gives a
    code, where the reading by lines gives [Unknown] both times. *)
Lemma detect_message_type_counterexample :
  detect_message_type example_long_type_code = "850"
  /\ detect_message_type_by_line example_long_type_code = "Unknown"
  /\ map segment_id (_split_into_segments example_other_segment_id) = ["BST"]
  /\ detect_message_type example_other_segment_id = "850"
  /\ detect_message_type_by_line example_other_segment_id = "Unknown".
Proof. repeat split; vm_compute; reflexivity. Qed.

(** What [detect_edi_version] computes: it counts fields in the text after
    [ISA*]: it returns [004010] when that marker follows [ISA*] and 16
    fields, each closed by a star; otherwise [005010] when that marker
    follows [ISA*] and 17 such fields; otherwise [Unknown].  Fields may
    run over line ends, and the marker need not end the header line. *)
Lemma detect_edi_version_by_field_count (raw : string) :
  (version_occurs 16 "004010" raw /\ detect_edi_version raw = "004010")
  \/ (~ version_occurs 16 "004010" raw
      /\ version_occurs 17 "005010" raw
      /\ detect_edi_version raw = "005010")
  \/ (~ version_occurs 16 "004010" raw
      /\ ~ version_occurs 17 "005010" raw
      /\ detect_edi_version raw = "Unknown").
Proof.
  unfold detect_edi_version, edi_version_patterns, first_version.
  pose proof (search_version 16 "004010" raw) as V4.
  pose proof (search_version 17 "005010" raw) as V5.
  destruct (Re.search (version_pattern 16 "004010") raw).
  - left. auto.
  - right. destruct (Re.search (version_pattern 17 "005010") raw).
    + left. auto.
    + right. auto.
Qed.

(** C5, the code at failing inputs.  The purchase order of the
    repository's client example is a version 005010 document (its GS
    segment ends with that marker, its ISA segment has the 16 elements of
    the standard); it passes structural validation as a 850, and
    [detect_edi_version] answers [Unknown] for it.  A header line of 16
    elements whose trailing element is [005010] gives [Unknown] as well,
    and a header line whose trailing element is the unrecognised [X] gives
    [004010]: the pattern of 005010 asks for the marker after 17 fields,
    one more than the pattern of 004010 and than an ISA segment has. *)
Theorem detect_edi_version_misses_005010 :
  (is_valid (validate_format example_repository_850 "850") = true
   /\ detect_message_type example_repository_850 = "850"
   /\ map (fun e => length e)
        (elements_of "ISA" (_split_into_segments example_repository_850))
      = [16]
   /\ map (fun e => last e "")
        (elements_of "GS" (_split_into_segments example_repository_850))
      = ["005010~"]
   /\ detect_edi_version example_repository_850 = "Unknown")
  /\ (map (fun e => (length e, last e ""))
        (elements_of "ISA" (_split_into_segments example_header_ends_005010))
      = [(16, "005010")]
      /\ detect_edi_version_by_line example_header_ends_005010 = "005010"
      /\ detect_edi_version example_header_ends_005010 = "Unknown")
  /\ (map (fun e => last e "")
        (elements_of "ISA" (_split_into_segments example_header_ends_other))
      = ["X"]
      /\ detect_edi_version_by_line example_header_ends_other = "Unknown"
      /\ detect_edi_version example_header_ends_other = "004010").
Proof. repeat split; vm_compute; reflexivity. Qed.

(** * Further properties *)

(** ** Strings *)

Lemma has_char_app (c : ascii) (a b : string) :
  has_char c (a ^^ b) = has_char c a || has_char c b.
Proof.
  induction a as [|x a IH]; cbn; [reflexivity|].
  now rewrite IH, orb_assoc.
Qed.

Lemma split_length (sep : ascii) (s : string) :
  1 <= length (PyStr.split sep s).
Proof.
  induction s as [|c s IH]; cbn; [lia|].
  destruct (Ascii.eqb c sep); cbn; [lia|].
  destruct (PyStr.split sep s); cbn in *; lia.
Qed.

Lemma split_no_sep (sep : ascii) (s : string) :
  has_char sep s = false -> PyStr.split sep s = [s].
Proof.
  induction s as [|c s IH]; cbn; [reflexivity|].
  intros E. apply orb_false_iff in E as [E1 E2].
  rewrite E1, (IH E2). reflexivity.
Qed.

Lemma split_sep_two (sep : ascii) (s : string) :
  has_char sep s = true -> 2 <= length (PyStr.split sep s).
Proof.
  induction s as [|c s IH]; cbn; [discriminate|].
  destruct (Ascii.eqb c sep) eqn:E; cbn.
  - intros _. pose proof (split_length sep s). lia.
  - intros S. specialize (IH S).
    destruct (PyStr.split sep s); cbn in *; lia.
Qed.

Lemma join_split (sep : ascii) (s : string) :
  py_join sep (PyStr.split sep s) = s.
Proof.
  induction s as [|c s IH]; cbn; [reflexivity|].
  pose proof (split_length sep s) as L.
  destruct (Ascii.eqb_spec c sep) as [->|N].
  - destruct (PyStr.split sep s) as [|h t]; [cbn in L; lia|].
    cbn [py_join String.append]. now rewrite <- IH.
  - destruct (PyStr.split sep s) as [|h t]; [cbn in L; lia|].
    destruct t as [|h' t].
    + cbn in *. now rewrite IH.
    + cbn [py_join String.append] in *. now rewrite IH.
Qed.

Lemma split_pieces_no_sep (sep : ascii) (s p : string) :
  In p (PyStr.split sep s) -> has_char sep p = false.
Proof.
  revert p. induction s as [|c s IH]; cbn; intros p I.
  - destruct I as [<-|[]]. reflexivity.
  - destruct (Ascii.eqb c sep) eqn:E.
    + destruct I as [<-|I]; [reflexivity | now apply IH].
    + destruct (PyStr.split sep s) as [|h t].
      * destruct I as [<-|[]]. cbn. now rewrite E.
      * destruct I as [<-|I].
        -- cbn. rewrite E. apply IH. now left.
        -- apply IH. now right.
Qed.

Lemma split_pieces_sub (sep c : ascii) (s p : string) :
  In p (PyStr.split sep s) -> has_char c p = true -> has_char c s = true.
Proof.
  revert p. induction s as [|a s IH]; cbn; intros p I.
  - destruct I as [<-|[]]. discriminate.
  - destruct (Ascii.eqb a sep) eqn:E.
    + destruct I as [<-|I]; [discriminate|].
      intros P. rewrite (IH p I P). apply orb_true_r.
    + destruct (PyStr.split sep s) as [|h t].
      * destruct I as [<-|[]]. cbn. rewrite orb_false_r. intros ->.
        reflexivity.
      * destruct I as [<-|I].
        -- cbn. intros P. apply orb_true_iff in P as [P|P].
           ++ now rewrite P.
           ++ rewrite (IH h (or_introl eq_refl) P). apply orb_true_r.
        -- intros P. rewrite (IH p (or_intror I) P). apply orb_true_r.
Qed.

Lemma lstrip_sub (c : ascii) (s : string) :
  has_char c (PyStr.lstrip s) = true -> has_char c s = true.
Proof.
  induction s as [|a s IH]; cbn; [discriminate|].
  destruct (PyStr.isspace a); [|exact (fun P => P)].
  intros P. rewrite (IH P). apply orb_true_r.
Qed.

Lemma rstrip_sub (c : ascii) (s : string) :
  has_char c (PyStr.rstrip s) = true -> has_char c s = true.
Proof.
  induction s as [|a s IH]; cbn; [discriminate|].
  destruct (PyStr.isspace a && String.eqb (PyStr.rstrip s) "");
    cbn; [discriminate|].
  intros P. apply orb_true_iff in P as [P|P].
  - now rewrite P.
  - rewrite (IH P). apply orb_true_r.
Qed.

Lemma strip_sub (c : ascii) (s : string) :
  has_char c s = false -> has_char c (PyStr.strip s) = false.
Proof.
  intros N. destruct (has_char c (PyStr.strip s)) eqn:P; [|reflexivity].
  apply rstrip_sub, lstrip_sub in P. congruence.
Qed.

Lemma line_has_no_line_feed (raw line : string) :
  In line (PyStr.split PyStr.LF (PyStr.strip raw)) ->
  has_char PyStr.LF (PyStr.strip line) = false.
Proof.
  intros I. apply strip_sub. exact (split_pieces_no_sep _ _ _ I).
Qed.

(** ** The tokenizer, line by line *)

Lemma map_snd_enumerate {A : Type} (l : list A) :
  forall k, map snd (combine (seq k (length l)) l) = l.
Proof.
  induction l as [|a l IH]; intros k; cbn; [reflexivity|].
  now rewrite IH.
Qed.

Lemma split_into_segments_collect (raw : string) :
  _split_into_segments raw
  = collect (PyStr.enumerate (PyStr.split PyStr.LF (PyStr.strip raw))) 0.
Proof.
  unfold _split_into_segments. now rewrite fold_split_step_collect.
Qed.

Lemma keep_text (il : nat * string) :
  match keep il with
  | Some (sid, es, _) =>
      has_char PyStr.star (PyStr.strip (snd il)) = true
      /\ py_join PyStr.star (sid :: es) = PyStr.strip (snd il)
  | None => has_char PyStr.star (PyStr.strip (snd il)) = false
  end.
Proof.
  unfold keep. destruct (String.eqb_spec (PyStr.strip (snd il)) "") as [E|E].
  - now rewrite E.
  - pose proof (join_split PyStr.star (PyStr.strip (snd il))) as J.
    destruct (has_char PyStr.star (PyStr.strip (snd il))) eqn:S.
    + pose proof (split_sep_two _ _ S) as L.
      destruct (PyStr.split PyStr.star (PyStr.strip (snd il)))
        as [|sid [|e rest]]; cbn in L; try lia.
      split; [reflexivity | exact J].
    + now rewrite (split_no_sep _ _ S).
Qed.

Lemma collect_text (ils : list (nat * string)) :
  forall n,
    map segment_text (collect ils n)
    = filter (has_char PyStr.star)
        (map (fun il => PyStr.strip (snd il)) ils).
Proof.
  induction ils as [|il ils IH]; intros n; cbn [collect map filter];
    [reflexivity|].
  pose proof (keep_text il) as K.
  destruct (keep il) as [[[sid es] ln]|].
  - destruct K as [S J]. rewrite S. cbn [map]. rewrite IH.
    unfold segment_text at 1. cbn [segment_id elements]. now rewrite J.
  - rewrite K. apply IH.
Qed.

Lemma segments_text (raw : string) :
  map segment_text (_split_into_segments raw)
  = filter (has_char PyStr.star) (trimmed_lines raw).
Proof.
  rewrite split_into_segments_collect, collect_text.
  unfold trimmed_lines, PyStr.enumerate.
  rewrite <- (map_map snd PyStr.strip), map_snd_enumerate. reflexivity.
Qed.

Lemma filter_none {A : Type} (f : A -> bool) (l : list A) :
  (forall a, In a l -> f a = false) -> filter f l = [].
Proof.
  induction l as [|a l IH]; intros N; cbn; [reflexivity|].
  rewrite (N a (or_introl eq_refl)). apply IH.
  intros b I. apply N. now right.
Qed.

Lemma no_separator_no_segments (raw : string) :
  has_char PyStr.star raw = false -> _split_into_segments raw = [].
Proof.
  intros N. pose proof (segments_text raw) as T.
  rewrite filter_none in T.
  - now destruct (_split_into_segments raw).
  - intros line I. unfold trimmed_lines in I.
    apply in_map_iff in I as (l & <- & I). apply strip_sub.
    destruct (has_char PyStr.star l) eqn:P; [|reflexivity].
    pose proof (split_pieces_sub _ _ _ _ I P) as Q.
    rewrite (strip_sub _ _ N) in Q. discriminate.
Qed.

(** X1.  Round trip of the tokenizer: writing every segment back as its id
    and elements joined by the separator gives, in order, exactly the
    trimmed lines of the (trimmed) text that hold a separator; the other
    lines, and nothing else, are lost. *)
Theorem split_into_segments_round_trip (edi_message : string) :
  map segment_text (_split_into_segments edi_message)
  = filter (has_char PyStr.star) (trimmed_lines edi_message).
Proof. exact (segments_text edi_message). Qed.

(** X2.  No id and no element of a segment holds the element separator
    or a line feed, and every segment has at least one element. *)
Theorem split_into_segments_tokens_clean (edi_message : string) :
  Forall
    (fun seg =>
       elements seg <> []
       /\ Forall
            (fun token =>
               has_char PyStr.star token = false
               /\ has_char PyStr.LF token = false)
            (segment_id seg :: elements seg))
    (_split_into_segments edi_message).
Proof.
  apply Forall_forall. intros seg I.
  rewrite split_into_segments_collect in I.
  apply collect_segments_in in I as ([i line] & I & K).
  apply in_enumerate_from in I as [_ I]. apply nth_error_In in I.
  apply keep_spec in K as (_ & _ & S & E).
  split; [exact E|]. rewrite <- S. apply Forall_forall. intros token T.
  split; [exact (split_pieces_no_sep _ _ _ T)|].
  destruct (has_char PyStr.LF token) eqn:P; [|reflexivity].
  pose proof (split_pieces_sub _ _ _ _ T P) as Q.
  rewrite (line_has_no_line_feed _ _ I) in Q. discriminate.
Qed.

(** ** Structural validation, check by check *)

Lemma forallb_flat_map {A B : Type} (f : A -> bool) (g : B -> list A)
  (l : list B) :
  (forall b, forallb f (g b) = true) -> forallb f (flat_map g l) = true.
Proof.
  intros G. induction l as [|b l IH]; cbn; [reflexivity|].
  now rewrite forallb_app, G, IH.
Qed.

Lemma any_error_flat_map {B : Type} (g : B -> list ProcessingMessage.t)
  (l : list B) :
  any_error (flat_map g l) = existsb (fun b => any_error (g b)) l.
Proof.
  induction l as [|b l IH]; cbn; [reflexivity|].
  now rewrite any_error_app, IH.
Qed.

Lemma with_code_app (c : string) (a b : list ProcessingMessage.t) :
  with_code c (a ++ b) = with_code c a ++ with_code c b.
Proof. apply filter_app. Qed.

Lemma with_code_other (c : string) (codes_of : list string)
  (ms : list ProcessingMessage.t) :
  forallb (fun m => PyStr.mem (ProcessingMessage.code m) codes_of) ms = true ->
  PyStr.mem c codes_of = false ->
  with_code c ms = [].
Proof.
  intros F N. apply filter_none. intros m I.
  rewrite forallb_forall in F. specialize (F m I).
  destruct (String.eqb_spec (ProcessingMessage.code m) c) as [E|E];
    [|reflexivity].
  rewrite E in F. congruence.
Qed.

Ltac case_messages :=
  repeat match goal with
    | |- context [if ?c then _ else _] => destruct c
    | |- context [match nth_error ?l ?i with _ => _ end] =>
        destruct (nth_error l i)
    end;
  reflexivity.

Lemma isa_messages_codes (seg : Segment) :
  forallb
    (fun m =>
       PyStr.mem (ProcessingMessage.code m)
         ["INVALID_ISA_SEGMENT"; "INSUFFICIENT_ISA_ELEMENTS";
          "ISA_ELEMENT_TOO_LONG"])
    (isa_messages seg) = true.
Proof.
  unfold isa_messages.
  destruct (negb (String.eqb (segment_id seg) "ISA")); [reflexivity|].
  rewrite forallb_app. apply andb_true_iff. split; [case_messages|].
  apply forallb_flat_map. intros ie. unfold isa_length_message.
  case_messages.
Qed.

Lemma missing_messages_codes (ids required : list string) :
  forallb
    (fun m =>
       PyStr.mem (ProcessingMessage.code m) ["MISSING_REQUIRED_SEGMENT"])
    (flat_map (missing_message ids) required) = true.
Proof.
  apply forallb_flat_map. intros r. unfold missing_message. case_messages.
Qed.

Lemma structure_messages_codes (segs : list Segment) :
  forallb
    (fun m =>
       PyStr.mem (ProcessingMessage.code m)
         ["INVALID_SEGMENT_ORDER"; "INVALID_CLOSING_SEGMENTS"])
    (structure_messages segs) = true.
Proof.
  unfold structure_messages. rewrite forallb_app. apply andb_true_iff.
  split.
  - apply forallb_flat_map. intros ie. unfold order_message. case_messages.
  - unfold closing_messages. case_messages.
Qed.

Lemma element_messages_codes (segs : list Segment) :
  forallb
    (fun m =>
       PyStr.mem (ProcessingMessage.code m)
         ["INSUFFICIENT_ST_ELEMENTS"; "INSUFFICIENT_BEG_ELEMENTS"])
    (flat_map element_message segs) = true.
Proof.
  apply forallb_flat_map. intros s. unfold element_message. case_messages.
Qed.

Lemma isa_messages_kind (seg : Segment) :
  forallb format_message_kind (isa_messages seg) = true.
Proof.
  unfold isa_messages.
  destruct (negb (String.eqb (segment_id seg) "ISA")); [reflexivity|].
  rewrite forallb_app. apply andb_true_iff. split; [case_messages|].
  apply forallb_flat_map. intros ie. unfold isa_length_message.
  case_messages.
Qed.

Lemma later_messages_kind (segs : list Segment) (ty : string) :
  forallb format_message_kind (later_messages segs ty) = true.
Proof.
  unfold later_messages, structure_messages.
  rewrite !forallb_app. repeat (apply andb_true_iff; split).
  - apply forallb_flat_map. intros r. unfold missing_message. case_messages.
  - apply forallb_flat_map. intros ie. unfold order_message. case_messages.
  - unfold closing_messages. case_messages.
  - apply forallb_flat_map. intros s. unfold element_message. case_messages.
Qed.

(** X3.  [validate_format] writes only Errors with one of its nine codes
    and the Warning ISA_ELEMENT_TOO_LONG: it never writes an Info message,
    and never the code VALIDATION_ERROR of its [except] clause, which no
    input reaches. *)
Theorem validate_format_message_kinds (edi_message message_type : string) :
  validate_format_try edi_message message_type []
  = (messages (validate_format edi_message message_type),
     Ok (validate_format edi_message message_type))
  /\ forallb format_message_kind
       (messages (validate_format edi_message message_type)) = true.
Proof.
  rewrite validate_format_eq. split; [apply validate_format_try_total|].
  unfold format_result.
  destruct (negb (py_dict_mem segment_patterns message_type));
    [reflexivity|].
  destruct (_split_into_segments edi_message) as [|first rest];
    [reflexivity|].
  cbn [messages format_messages]. rewrite forallb_app.
  now rewrite isa_messages_kind, later_messages_kind.
Qed.

(** *** When a document is valid *)

Lemma any_error_isa_messages (seg : Segment) :
  any_error (isa_messages seg)
  = negb (String.eqb (segment_id seg) "ISA")
    || (length (elements seg) <? 16).
Proof.
  unfold isa_messages.
  destruct (String.eqb (segment_id seg) "ISA"); cbn [negb orb];
    [|reflexivity].
  rewrite any_error_app, any_error_flat_map_false.
  - rewrite orb_false_r. now destruct (length (elements seg) <? 16).
  - intros ie. unfold isa_length_message. case_messages.
Qed.

Lemma any_error_missing (ids required : list string) :
  any_error (flat_map (missing_message ids) required)
  = negb (forallb (fun r => negb (absent ids r)) required).
Proof.
  induction required as [|r required IH]; cbn [flat_map forallb];
    [reflexivity|].
  rewrite any_error_app, IH. unfold missing_message, absent.
  now destruct (negb (PyStr.mem r ids)).
Qed.

Lemma any_error_order (ids : list string) (ie : nat * string) :
  any_error (order_message ids ie)
  = negb match nth_error ids (fst ie) with
         | Some found => String.eqb found (snd ie)
         | None => true
         end.
Proof.
  unfold order_message. destruct (nth_error ids (fst ie)); [|reflexivity].
  now destruct (String.eqb s (snd ie)).
Qed.

Lemma any_error_structure (segs : list Segment) :
  any_error (structure_messages segs)
  = negb (opening_ok (map segment_id segs))
    || negb (closing_ok (map segment_id segs)).
Proof.
  unfold structure_messages, opening_ok, closing_ok, closing_messages.
  rewrite any_error_app, any_error_flat_map.
  f_equal.
  - induction (PyStr.enumerate ["ISA"; "GS"; "ST"]) as [|ie l IH];
      cbn [existsb forallb]; [reflexivity|].
    rewrite IH, any_error_order, negb_andb. reflexivity.
  - now destruct (str_list_eqb (PyStr.last3 (map segment_id segs))
                    ["SE"; "GE"; "IEA"]).
Qed.

Lemma any_error_elements (segs : list Segment) :
  any_error (flat_map element_message segs)
  = negb (forallb (fun s => negb (short_st s) && negb (short_beg s)) segs).
Proof.
  induction segs as [|s segs IH]; cbn [flat_map forallb]; [reflexivity|].
  rewrite any_error_app, IH. unfold element_message, short_st, short_beg.
  destruct (String.eqb (segment_id s) "ST" && (length (elements s) <? 2));
    [reflexivity|].
  destruct (String.eqb (segment_id s) "BEG" && (length (elements s) <? 3));
    [reflexivity|].
  cbn. now destruct (forallb _ segs).
Qed.

Lemma format_result_valid (segs : list Segment) (ty : string) :
  is_valid (format_result segs ty) = well_formed ty segs.
Proof.
  unfold format_result, well_formed.
  destruct (py_dict_mem segment_patterns ty); cbn [negb andb];
    [|reflexivity].
  destruct segs as [|first rest]; [reflexivity|].
  cbn [is_valid format_messages]. unfold later_messages.
  rewrite !any_error_app, any_error_isa_messages, any_error_missing,
    any_error_structure, any_error_elements.
  destruct (String.eqb (segment_id first) "ISA"),
    (length (elements first) <? 16),
    (forallb (fun r => negb (absent (map segment_id (first :: rest)) r))
       (required_of ty)),
    (opening_ok (map segment_id (first :: rest))),
    (closing_ok (map segment_id (first :: rest))),
    (forallb (fun s => negb (short_st s) && negb (short_beg s))
       (first :: rest)); reflexivity.
Qed.

(** X4.  [validate_format] accepts a document exactly when the type is
    known, the first segment is ISA with at least 16 elements, every
    required id occurs, the first three ids are ISA, GS, ST as far as they
    exist, the last three are SE, GE, IEA, no ST has fewer than 2 elements
    and no BEG fewer than 3.  The lengths of the ISA elements play no
    part. *)
Theorem validate_format_valid_iff (edi_message message_type : string) :
  is_valid (validate_format edi_message message_type)
  = well_formed message_type (_split_into_segments edi_message).
Proof. rewrite validate_format_eq. apply format_result_valid. Qed.

(** *** The shape of a valid document *)

Lemma str_list_eqb_eq (a b : list string) :
  str_list_eqb a b = true -> a = b.
Proof.
  revert b. induction a as [|x a IH]; intros [|y b]; cbn;
    try discriminate; [reflexivity|].
  intros E. apply andb_true_iff in E as [E1 E2].
  apply String.eqb_eq in E1. now rewrite E1, (IH b E2).
Qed.

Lemma supported_cases (ty : string) :
  py_dict_mem segment_patterns ty = true ->
  ty = "850" \/ ty = "810" \/ ty = "856" \/ ty = "997".
Proof.
  unfold py_dict_mem, segment_patterns. cbn [existsb fst].
  destruct (String.eqb_spec "850" ty); [auto|].
  destruct (String.eqb_spec "810" ty); [auto|].
  destruct (String.eqb_spec "856" ty); [auto|].
  destruct (String.eqb_spec "997" ty); [auto|]. discriminate.
Qed.

Lemma required_header (ty : string) :
  py_dict_mem segment_patterns ty = true ->
  exists header,
    required_of ty = ["ISA"; "GS"; "ST"; header; "SE"; "GE"; "IEA"]
    /\ ~ In header ["ISA"; "GS"; "ST"; "SE"; "GE"; "IEA"].
Proof.
  intros S. destruct (supported_cases ty S) as [-> | [-> | [-> | ->]]];
    eexists; (split; [reflexivity|]); cbn; intuition discriminate.
Qed.

Lemma py_dict_get_not_mem {A : Type} (d : list (string * A)) (k : string) :
  py_dict_mem d k = false -> py_dict_get d k = Raise (KeyError k).
Proof.
  unfold py_dict_mem. induction d as [|[k' v] d IH]; cbn; [reflexivity|].
  destruct (String.eqb k' k); cbn; [discriminate | exact IH].
Qed.

Lemma required_of_unknown (ty : string) :
  py_dict_mem segment_patterns ty = false -> required_of ty = [].
Proof.
  intros N. unfold required_of. now rewrite (py_dict_get_not_mem _ _ N).
Qed.

Lemma ids_shape (ids : list string) (header : string) :
  ~ In header ["ISA"; "GS"; "ST"; "SE"; "GE"; "IEA"] ->
  absent ids header = false ->
  opening_ok ids = true -> closing_ok ids = true ->
  exists mid,
    In header mid /\ ids = "ISA" :: "GS" :: "ST" :: mid ++ ["SE"; "GE"; "IEA"].
Proof.
  intros D P O C. unfold closing_ok in C. apply str_list_eqb_eq in C.
  unfold absent in P. apply negb_false_iff in P. unfold PyStr.mem in P.
  apply existsb_exists in P as (x & I & E). apply String.eqb_eq in E.
  subst x.
  pose proof (firstn_skipn (length ids - 3) ids) as F.
  unfold PyStr.last3 in C. rewrite C in F. rewrite <- F in I, O |- *.
  clear F C. set (front := firstn (length ids - 3) ids) in *.
  clearbody front. clear ids.
  apply in_app_or in I as [I|I].
  - destruct front as [|a [|b [|c mid]]]; cbn in O; try discriminate.
    + destruct (String.eqb a "ISA"); discriminate.
    + destruct (String.eqb a "ISA"), (String.eqb b "GS"); discriminate.
    + destruct (String.eqb_spec a "ISA") as [->|]; [|discriminate].
      destruct (String.eqb_spec b "GS") as [->|]; [|discriminate].
      destruct (String.eqb_spec c "ST") as [->|]; [|discriminate].
      exists mid. split; [|reflexivity].
      destruct I as [<-|[<-|[<-|I]]]; [| | |exact I];
        exfalso; apply D; cbn; auto.
  - exfalso. apply D. cbn in *. intuition.
Qed.

(** X5.  A document that [validate_format] accepts has its ids in the
    order ISA, GS, ST, ..., SE, GE, IEA, with the header id of its type
    (BEG, BIG, BSN or AK1) strictly between ST and SE, and at least 16
    elements in its first segment. *)
Theorem valid_document_shape (edi_message message_type : string) :
  is_valid (validate_format edi_message message_type) = true ->
  exists first rest header mid,
    _split_into_segments edi_message = first :: rest
    /\ 16 <= length (elements first)
    /\ nth_error (required_of message_type) 3 = Some header
    /\ In header mid
    /\ map segment_id (first :: rest)
       = "ISA" :: "GS" :: "ST" :: mid ++ ["SE"; "GE"; "IEA"].
Proof.
  rewrite validate_format_eq, format_result_valid. unfold well_formed.
  intros W. apply andb_true_iff in W as [S W].
  destruct (_split_into_segments edi_message) as [|first rest];
    [discriminate|].
  repeat match type of W with
    | _ && _ = true => let H := fresh "W" in apply andb_true_iff in W as [W H]
    end.
  destruct (required_header message_type S) as (header & R & D).
  rewrite R in W3. cbn [forallb] in W3.
  repeat match type of W3 with
    | _ && _ = true =>
        let H := fresh "P" in apply andb_true_iff in W3 as [H W3]
    end.
  apply negb_true_iff in P2.
  destruct (ids_shape _ header D P2 W2 W1) as (mid & I & E).
  exists first, rest, header, mid. rewrite R.
  repeat split; [| exact I | exact E].
  apply negb_true_iff, Nat.ltb_ge in W4. exact W4.
Qed.

Lemma valid_document_shape_witness :
  is_valid (validate_format example_long_isa_element "997") = true
  /\ exists first rest header mid,
       _split_into_segments example_long_isa_element = first :: rest
       /\ 16 <= length (elements first)
       /\ nth_error (required_of "997") 3 = Some header
       /\ In header mid
       /\ map segment_id (first :: rest)
          = "ISA" :: "GS" :: "ST" :: mid ++ ["SE"; "GE"; "IEA"].
Proof.
  split; [vm_compute; reflexivity|].
  apply valid_document_shape. vm_compute. reflexivity.
Defined.

(** *** What the messages say *)

Lemma missing_fields (ids required : list string) :
  map ProcessingMessage.field
    (with_code "MISSING_REQUIRED_SEGMENT"
       (flat_map (missing_message ids) required))
  = filter (absent ids) required.
Proof.
  induction required as [|r required IH]; cbn [flat_map filter];
    [reflexivity|].
  rewrite with_code_app, map_app, IH. unfold missing_message, absent.
  now destruct (negb (PyStr.mem r ids)).
Qed.

(** X6.  The MISSING_REQUIRED_SEGMENT messages of [validate_format] name,
    in their field and in the order of the type's required list, exactly
    the required ids that no segment carries; a text without segments
    gets none of them. *)
Theorem missing_required_segments_reported (edi_message message_type : string) :
  map ProcessingMessage.field
    (with_code "MISSING_REQUIRED_SEGMENT"
       (messages (validate_format edi_message message_type)))
  = match _split_into_segments edi_message with
    | [] => []
    | _ :: _ =>
        filter (absent (map segment_id (_split_into_segments edi_message)))
          (required_of message_type)
    end.
Proof.
  rewrite validate_format_eq. unfold format_result.
  destruct (py_dict_mem segment_patterns message_type) eqn:S;
    cbn [negb].
  - destruct (_split_into_segments edi_message) as [|first rest];
      [reflexivity|].
    cbn [messages format_messages]. unfold later_messages.
    rewrite !with_code_app, !map_app, missing_fields.
    rewrite (with_code_other "MISSING_REQUIRED_SEGMENT" _ _
               (isa_messages_codes first) eq_refl).
    rewrite (with_code_other "MISSING_REQUIRED_SEGMENT" _ _
               (structure_messages_codes _) eq_refl).
    rewrite (with_code_other "MISSING_REQUIRED_SEGMENT" _ _
               (element_messages_codes _) eq_refl).
    cbn [map app]. now rewrite app_nil_r.
  - rewrite (required_of_unknown _ S).
    now destruct (_split_into_segments edi_message).
Qed.

Lemma element_message_lines (segs : list Segment) :
  map ProcessingMessage.line_number
    (with_code "INSUFFICIENT_ST_ELEMENTS" (flat_map element_message segs))
  = map line_number (filter short_st segs)
  /\ map ProcessingMessage.line_number
       (with_code "INSUFFICIENT_BEG_ELEMENTS"
          (flat_map element_message segs))
     = map line_number (filter short_beg segs).
Proof.
  induction segs as [|s segs [IH1 IH2]]; cbn [flat_map filter];
    [split; reflexivity|].
  rewrite !with_code_app, !map_app, IH1, IH2.
  unfold element_message, short_st, short_beg.
  destruct (String.eqb_spec (segment_id s) "ST") as [E|E].
  - rewrite E. cbn [String.eqb Ascii.eqb Bool.eqb andb].
    destruct (length (elements s) <? 2); split; reflexivity.
  - cbn [andb].
    destruct (String.eqb (segment_id s) "BEG" && (length (elements s) <? 3));
      split; reflexivity.
Qed.

(** X7.  For a known type, the INSUFFICIENT_ST_ELEMENTS messages carry, in
    order, the line numbers of the ST segments with fewer than 2 elements,
    and the INSUFFICIENT_BEG_ELEMENTS messages those of the BEG segments
    with fewer than 3. *)
Theorem element_count_errors_locate_segments
  (edi_message message_type : string) :
  py_dict_mem segment_patterns message_type = true ->
  map ProcessingMessage.line_number
    (with_code "INSUFFICIENT_ST_ELEMENTS"
       (messages (validate_format edi_message message_type)))
  = map line_number (filter short_st (_split_into_segments edi_message))
  /\ map ProcessingMessage.line_number
       (with_code "INSUFFICIENT_BEG_ELEMENTS"
          (messages (validate_format edi_message message_type)))
     = map line_number (filter short_beg (_split_into_segments edi_message)).
Proof.
  intros S. rewrite validate_format_eq. unfold format_result.
  rewrite S. cbn [negb].
  destruct (_split_into_segments edi_message) as [|first rest] eqn:E;
    [split; reflexivity|].
  cbn [messages format_messages]. unfold later_messages.
  rewrite !with_code_app, !map_app.
  rewrite (with_code_other "INSUFFICIENT_ST_ELEMENTS" _ _
             (isa_messages_codes first) eq_refl).
  rewrite (with_code_other "INSUFFICIENT_BEG_ELEMENTS" _ _
             (isa_messages_codes first) eq_refl).
  rewrite (with_code_other "INSUFFICIENT_ST_ELEMENTS" _ _
             (missing_messages_codes _ _) eq_refl).
  rewrite (with_code_other "INSUFFICIENT_BEG_ELEMENTS" _ _
             (missing_messages_codes _ _) eq_refl).
  rewrite (with_code_other "INSUFFICIENT_ST_ELEMENTS" _ _
             (structure_messages_codes _) eq_refl).
  rewrite (with_code_other "INSUFFICIENT_BEG_ELEMENTS" _ _
             (structure_messages_codes _) eq_refl).
  cbn [map app]. apply element_message_lines.
Qed.

Lemma element_count_errors_locate_segments_witness :
  py_dict_mem segment_patterns "850" = true
  /\ (map ProcessingMessage.line_number
        (with_code "INSUFFICIENT_ST_ELEMENTS"
           (messages (validate_format example_no_header "850")))
      = map line_number
          (filter short_st (_split_into_segments example_no_header))
      /\ map ProcessingMessage.line_number
           (with_code "INSUFFICIENT_BEG_ELEMENTS"
              (messages (validate_format example_no_header "850")))
         = map line_number
             (filter short_beg (_split_into_segments example_no_header))).
Proof.
  split; [reflexivity|].
  apply element_count_errors_locate_segments. reflexivity.
Defined.

(** ** Business rules, rule by rule *)

Section BusinessRulesMore.
Context `{PyFloat}.

Lemma purchase_order_rules_ok (po_data : PurchaseOrderData.t float) :
  _validate_purchase_order_rules (IsPurchaseOrder po_data)
  = Ok (mkValidationResult
          (negb (any_error (purchase_order_messages po_data)))
          (purchase_order_messages po_data)
          (any_error (purchase_order_messages po_data))).
Proof.
  unfold _validate_purchase_order_rules, run_local. unfold m_bind at 1.
  assert (E1 : forall ms,
             (if String.eqb (PurchaseOrderData.po_number po_data) "" then
                _ <~ m_append (error_msg "MISSING_PO_NUMBER"
                                 "Purchase Order number is required"
                                 "po_number" 0) ;;
                m_ret true
              else m_ret false) ms
             = (ms ++ po_number_messages po_data,
                Ok (any_error (po_number_messages po_data)))).
  { intros ms. unfold po_number_messages.
    destruct (String.eqb (PurchaseOrderData.po_number po_data) "");
      [reflexivity|]. unfold m_ret. now rewrite app_nil_r. }
  rewrite E1. unfold m_bind at 1.
  assert (E2 : forall he ms,
             (match PurchaseOrderData.line_items po_data with
              | [] =>
                  _ <~ m_append
                         (error_msg "NO_LINE_ITEMS"
                            "Purchase Order must have at least one line item"
                            "line_items" 0) ;;
                  m_ret true
              | _ :: _ => m_ret he
              end) ms
             = (ms ++ po_line_items_messages po_data,
                Ok (he || any_error (po_line_items_messages po_data)))).
  { intros he ms. unfold po_line_items_messages.
    destruct (PurchaseOrderData.line_items po_data).
    - cbn. now rewrite orb_true_r.
    - unfold m_ret. cbn. now rewrite app_nil_r, orb_false_r. }
  rewrite E2. unfold m_bind at 1.
  rewrite (m_fold_flag _ line_item_messages).
  - unfold m_return, m_bind, m_messages, m_ret. cbn [app snd].
    unfold purchase_order_messages.
    rewrite !any_error_app, <- !orb_assoc, <- !app_assoc.
    reflexivity.
  - intros he [i li] ms. unfold line_item_messages. cbn [fst snd].
    unfold m_bind.
    destruct (String.eqb (PurchaseOrderLineItem.line_number li) "");
      destruct (float_le_zero
                  (Quantity.value (PurchaseOrderLineItem.quantity_ordered li)));
      unfold m_append, m_ret; cbn [app any_error existsb is_error
        ProcessingMessage.level error_msg MessageLevel_eqb];
      rewrite <- ?app_assoc, ?app_nil_r, ?orb_true_r, ?orb_false_r;
      reflexivity.
Qed.

Lemma validate_purchase_order (po_data : PurchaseOrderData.t float) :
  validate_business_rules (IsPurchaseOrder po_data) "850"
  = mkValidationResult
      (negb (any_error (purchase_order_messages po_data)))
      (purchase_order_messages po_data)
      (any_error (purchase_order_messages po_data)).
Proof.
  unfold validate_business_rules, validate_business_rules_try.
  cbn [String.eqb Ascii.eqb Bool.eqb].
  unfold m_bind at 1. unfold m_bind at 1. unfold m_lift at 1.
  rewrite purchase_order_rules_ok. reflexivity.
Qed.

Lemma existsb_enumerate {A : Type} (g : A -> bool) (l : list A) :
  forall k,
    existsb (fun il => g (snd il)) (combine (seq k (length l)) l)
    = existsb g l.
Proof.
  induction l as [|a l IH]; intros k; cbn; [reflexivity|].
  now rewrite IH.
Qed.

Lemma any_error_line_item (il : nat * PurchaseOrderLineItem.t float) :
  any_error (line_item_messages il) = negb (line_item_acceptable (snd il)).
Proof.
  unfold line_item_messages, line_item_acceptable.
  destruct (String.eqb (PurchaseOrderLineItem.line_number (snd il)) "");
    destruct (float_le_zero
                (Quantity.value
                   (PurchaseOrderLineItem.quantity_ordered (snd il))));
    reflexivity.
Qed.

Lemma any_error_line_items (l : list (PurchaseOrderLineItem.t float)) :
  forall k,
    existsb (fun il => any_error (line_item_messages il))
      (combine (seq k (length l)) l)
    = negb (forallb line_item_acceptable l).
Proof.
  induction l as [|a l IH]; intros k; cbn [length seq combine existsb forallb];
    [reflexivity|].
  rewrite IH, any_error_line_item. cbn [snd].
  now destruct (line_item_acceptable a).
Qed.

Lemma any_error_purchase_order (po_data : PurchaseOrderData.t float) :
  any_error (purchase_order_messages po_data)
  = negb (purchase_order_acceptable po_data).
Proof.
  unfold purchase_order_messages, purchase_order_acceptable.
  rewrite !any_error_app, any_error_flat_map.
  unfold PyStr.enumerate. rewrite any_error_line_items.
  unfold po_number_messages, po_line_items_messages.
  destruct (String.eqb (PurchaseOrderData.po_number po_data) "");
    destruct (PurchaseOrderData.line_items po_data); cbn;
    reflexivity.
Qed.

End BusinessRulesMore.

(** X8.  The purchase-order rules accept a record exactly when its number
    is not empty, it has at least one line item, and every line item has a
    line number and a quantity for which the test [quantity <= 0] is
    false: a quantity above zero, or one that is not a number (NaN, which
    [float] returns for the text [nan]), for which the comparison is false
    as well.  Unit prices, dates and parties are not looked at. *)
Theorem purchase_order_rules_accept_iff (PF : PyFloat)
  (po_data : PurchaseOrderData.t float) :
  is_valid (validate_business_rules (IsPurchaseOrder po_data) "850")
  = purchase_order_acceptable po_data
  /\ has_errors (validate_business_rules (IsPurchaseOrder po_data) "850")
     = negb (purchase_order_acceptable po_data).
Proof.
  rewrite validate_purchase_order. cbn [is_valid has_errors].
  rewrite any_error_purchase_order. split; [apply negb_involutive|reflexivity].
Qed.

Section BusinessRulesFields.
Context `{PyFloat}.

Lemma line_item_fields (ils : list (nat * PurchaseOrderLineItem.t float)) :
  map ProcessingMessage.field
    (with_code "INVALID_QUANTITY" (flat_map line_item_messages ils))
  = map (fun il =>
           "line_items[" ^^ PyStr.str_of_nat (fst il) ^^ "].quantity_ordered")
      (filter bad_quantity ils)
  /\ map ProcessingMessage.field
       (with_code "MISSING_LINE_NUMBER" (flat_map line_item_messages ils))
     = map (fun il =>
              "line_items[" ^^ PyStr.str_of_nat (fst il) ^^ "].line_number")
         (filter no_line_number ils).
Proof.
  induction ils as [|il ils [IH1 IH2]]; cbn [flat_map filter];
    [split; reflexivity|].
  rewrite !with_code_app, !map_app, IH1, IH2.
  unfold line_item_messages, bad_quantity, no_line_number.
  destruct (String.eqb (PurchaseOrderLineItem.line_number (snd il)) "");
    destruct (float_le_zero
                (Quantity.value
                   (PurchaseOrderLineItem.quantity_ordered (snd il))));
    split; reflexivity.
Qed.

Lemma supported_is_mem (ty : string) :
  _is_message_type_supported ty = py_dict_mem segment_patterns ty.
Proof. reflexivity. Qed.

Lemma unsupported_eqbs (ty : string) :
  _is_message_type_supported ty = false ->
  String.eqb ty "850" = false /\ String.eqb ty "810" = false
  /\ String.eqb ty "856" = false /\ String.eqb ty "997" = false.
Proof.
  unfold _is_message_type_supported, supported_types.
  cbn [existsb EdiMessageType.code].
  rewrite !(String.eqb_sym ty).
  destruct (String.eqb "850" ty), (String.eqb "810" ty),
    (String.eqb "856" ty), (String.eqb "997" ty); cbn;
    try discriminate; auto.
Qed.

End BusinessRulesFields.

(** X9.  The purchase-order rules point at the offending line items by
    their 0-based index: the fields of the INVALID_QUANTITY messages are
    [line_items[i].quantity_ordered] for exactly the indices [i] of the
    items whose quantity is not above zero, in order, and those of the
    MISSING_LINE_NUMBER messages are [line_items[i].line_number] for the
    items without a line number. *)
Theorem purchase_order_rules_locate_items (PF : PyFloat)
  (po_data : PurchaseOrderData.t float) :
  map ProcessingMessage.field
    (with_code "INVALID_QUANTITY"
       (messages (validate_business_rules (IsPurchaseOrder po_data) "850")))
  = map (fun il =>
           "line_items[" ^^ PyStr.str_of_nat (fst il) ^^ "].quantity_ordered")
      (filter bad_quantity
         (PyStr.enumerate (PurchaseOrderData.line_items po_data)))
  /\ map ProcessingMessage.field
       (with_code "MISSING_LINE_NUMBER"
          (messages (validate_business_rules (IsPurchaseOrder po_data) "850")))
     = map (fun il =>
              "line_items[" ^^ PyStr.str_of_nat (fst il) ^^ "].line_number")
         (filter no_line_number
            (PyStr.enumerate (PurchaseOrderData.line_items po_data))).
Proof.
  rewrite validate_purchase_order. cbn [messages].
  unfold purchase_order_messages. rewrite !with_code_app, !map_app.
  destruct (line_item_fields
              (PyStr.enumerate (PurchaseOrderData.line_items po_data)))
    as [-> ->].
  unfold po_number_messages, po_line_items_messages.
  destruct (String.eqb (PurchaseOrderData.po_number po_data) "");
    destruct (PurchaseOrderData.line_items po_data); split; reflexivity.
Qed.

(** X10.  The rules of the other three kinds: an invoice is accepted
    exactly when its number is not empty and it has a line item (the line
    items themselves are not inspected), a ship notice when its shipment id
    is not empty, an acknowledgment when its original transaction set id is
    not empty. *)
Theorem other_rules_accept_iff (PF : PyFloat)
  (invoice_data : InvoiceData.t float)
  (asn_data : AdvanceShipNoticeData.t)
  (fa_data : FunctionalAcknowledgmentData.t) :
  is_valid (validate_business_rules (IsInvoice invoice_data) "810")
  = negb (String.eqb (InvoiceData.invoice_number invoice_data) "")
    && match InvoiceData.line_items invoice_data with
       | [] => false
       | _ :: _ => true
       end
  /\ is_valid (validate_business_rules (IsAdvanceShipNotice asn_data) "856")
     = negb (String.eqb (AdvanceShipNoticeData.shipment_id asn_data) "")
  /\ is_valid
       (validate_business_rules (IsFunctionalAcknowledgment fa_data) "997")
     = negb (String.eqb
               (FunctionalAcknowledgmentData.original_transaction_set_id
                  fa_data) "").
Proof.
  unfold validate_business_rules, validate_business_rules_try,
    _validate_invoice_rules, _validate_asn_rules,
    _validate_functional_ack_rules, run_local, m_bind, m_lift, m_extend,
    m_return, m_messages, m_append, m_ret.
  cbn [String.eqb Ascii.eqb Bool.eqb].
  repeat split.
  - destruct (String.eqb (InvoiceData.invoice_number invoice_data) "");
      destruct (InvoiceData.line_items invoice_data); reflexivity.
  - destruct (String.eqb (AdvanceShipNoticeData.shipment_id asn_data) "");
      reflexivity.
  - destruct (String.eqb
                (FunctionalAcknowledgmentData.original_transaction_set_id
                   fa_data) ""); reflexivity.
Qed.

(** X11.  How [validate_business_rules] treats what it is given: for a
    type that is not one of the four it accepts anything, with no message;
    for one of the four and data of another message class (or [None]) the
    attribute access fails, and the result is the single Error
    BUSINESS_RULE_ERROR of the [except] clause. *)
Theorem business_rules_dispatch (PF : PyFloat) (parsed_data : ParsedData float)
  (message_type : string) :
  (_is_message_type_supported message_type = false ->
   validate_business_rules parsed_data message_type
   = mkValidationResult true [] false)
  /\ (_is_message_type_supported message_type = true ->
      class_of_type message_type parsed_data = false ->
      exists text,
        validate_business_rules parsed_data message_type
        = mkValidationResult false
            [error_msg "BUSINESS_RULE_ERROR" text "" 0] true).
Proof.
  split.
  - intros U. destruct (unsupported_eqbs _ U) as (E1 & E2 & E3 & E4).
    unfold validate_business_rules, validate_business_rules_try.
    now rewrite E1, E2, E3, E4.
  - intros S C. rewrite supported_is_mem in S.
    destruct (supported_cases _ S) as [-> | [-> | [-> | ->]]];
      destruct parsed_data; cbn in C; try discriminate;
      eexists; reflexivity.
Qed.

Lemma business_rules_dispatch_witness :
  (_is_message_type_supported "999" = false
   /\ @validate_business_rules DecimalFloat IsNone "999"
      = mkValidationResult true [] false)
  /\ (_is_message_type_supported "850" = true
      /\ @class_of_type (@float DecimalFloat) "850" IsNone = false
      /\ exists text,
           @validate_business_rules DecimalFloat IsNone "850"
           = mkValidationResult false
               [error_msg "BUSINESS_RULE_ERROR" text "" 0] true).
Proof.
  split.
  - split; [reflexivity|].
    apply (proj1 (business_rules_dispatch DecimalFloat IsNone "999")).
    reflexivity.
  - split; [reflexivity|]. split; [reflexivity|].
    apply (proj2 (business_rules_dispatch DecimalFloat IsNone "850"));
      reflexivity.
Defined.

(** ** Extraction, segment by segment *)

Lemma rfold_filter {A B : Type} (f : A -> B -> result A) (keep : B -> bool)
  (l : list B) :
  (forall a b, keep b = false -> f a b = Ok a) ->
  forall a, rfold f (filter keep l) a = rfold f l a.
Proof.
  intros K. induction l as [|b l IH]; intros a; cbn [filter rfold];
    [reflexivity|].
  destruct (keep b) eqn:E.
  - cbn [rfold]. destruct (f a b); cbn [rbind]; [apply IH|reflexivity].
  - rewrite (K a b E). cbn [rbind]. apply IH.
Qed.

Lemma convert_segments_same (segs : list Segment) :
  _convert_segments_to_pb segs = segs.
Proof.
  unfold _convert_segments_to_pb. induction segs as [|s segs IH]; cbn;
    [reflexivity|]. rewrite IH. now destruct s.
Qed.

Ltac ids_false N :=
  unfold has_id, PyStr.mem in N; cbn [existsb] in N;
  repeat match type of N with
    | (String.eqb ?a ?b || _) = false =>
        let E := fresh "E" in
        apply orb_false_iff in N as [E N]
    end.

Section ExtractionMore.
Context `{PyFloat}.

Lemma purchase_order_step_skips (po : PurchaseOrderData.t float)
  (s : Segment) :
  has_id ["BEG"; "PO1"; "N1"] s = false -> purchase_order_step po s = Ok po.
Proof.
  intros N. ids_false N. unfold purchase_order_step. now rewrite E, E0, E1.
Qed.

Lemma invoice_step_skips (inv : InvoiceData.t float) (s : Segment) :
  has_id ["BIG"; "IT1"; "N1"] s = false -> invoice_step inv s = Ok inv.
Proof.
  intros N. ids_false N. unfold invoice_step. destruct inv.
  now rewrite E, E0, E1.
Qed.

Lemma advance_ship_notice_step_skips (asn : AdvanceShipNoticeData.t)
  (s : Segment) :
  has_id ["BSN"; "N1"] s = false -> advance_ship_notice_step asn s = Ok asn.
Proof.
  intros N. ids_false N. unfold advance_ship_notice_step. destruct asn.
  rewrite E, E0. now destruct (String.eqb (segment_id s) "HL").
Qed.

Lemma functional_acknowledgment_step_skips
  (fa : FunctionalAcknowledgmentData.t) (s : Segment) :
  has_id ["AK1"; "AK2"; "AK5"] s = false ->
  functional_acknowledgment_step fa s = Ok fa.
Proof.
  intros N. ids_false N. unfold functional_acknowledgment_step. destruct fa.
  now rewrite E, E0, E1.
Qed.

Lemma parse_po1_line_number (elems : list string)
  (item : PurchaseOrderLineItem.t float) :
  parse_po1 elems = Ok item ->
  PurchaseOrderLineItem.line_number item = hd "" elems.
Proof.
  unfold parse_po1.
  destruct elems as [|e0 [|e1 [|e2 [|e3 [|e4 [|e5 rest]]]]]];
    cbn [length Nat.leb py_getitem nth_error rbind hd];
    repeat match goal with
      | |- context [float_or_zero ?e] =>
          destruct (float_or_zero e); cbn [rbind]
      end; try discriminate; intros [= <-]; reflexivity.
Qed.

Lemma parse_it1_line_number (elems : list string)
  (item : InvoiceLineItem.t float) :
  parse_it1 elems = Ok item ->
  InvoiceLineItem.line_number item = hd "" elems.
Proof.
  unfold parse_it1.
  destruct elems as [|e0 [|e1 [|e2 [|e3 [|e4 [|e5 rest]]]]]];
    cbn [length Nat.leb py_getitem nth_error rbind hd];
    repeat match goal with
      | |- context [float_or_zero ?e] =>
          destruct (float_or_zero e); cbn [rbind]
      end; try discriminate; intros [= <-]; reflexivity.
Qed.

Lemma purchase_order_step_items (po po' : PurchaseOrderData.t float)
  (s : Segment) :
  purchase_order_step po s = Ok po' ->
  map PurchaseOrderLineItem.line_number (PurchaseOrderData.line_items po')
  = map PurchaseOrderLineItem.line_number (PurchaseOrderData.line_items po)
    ++ (if String.eqb (segment_id s) "PO1" then [first_element s] else []).
Proof.
  unfold purchase_order_step, first_element.
  destruct (String.eqb_spec (segment_id s) "BEG") as [E|_].
  { rewrite E. cbn [String.eqb Ascii.eqb Bool.eqb].
    destruct (elements s) as [|? [|? [|? ?]]];
      cbn [length Nat.leb Nat.ltb py_getitem nth_error rbind];
      intros [= <-]; cbn; now rewrite app_nil_r. }
  destruct (String.eqb (segment_id s) "PO1").
  { destruct (parse_po1 (elements s)) as [item|] eqn:P; cbn [rbind];
      [|discriminate].
    intros [= <-]. cbn [PurchaseOrderData.line_items].
    rewrite map_app. cbn [map]. now rewrite (parse_po1_line_number _ _ P). }
  rewrite app_nil_r.
  destruct (String.eqb (segment_id s) "N1"); [|now intros [= <-]].
  destruct po. unfold n1_party.
  destruct (elements s) as [|? [|? ?]];
    cbn [length Nat.leb py_getitem nth_error rbind
         Party.entity_identifier_code];
    repeat match goal with
      | |- context [if String.eqb ?a ?b then _ else _] =>
          destruct (String.eqb a b)
      end; intros [= <-]; reflexivity.
Qed.

Lemma invoice_step_items (inv inv' : InvoiceData.t float) (s : Segment) :
  invoice_step inv s = Ok inv' ->
  map InvoiceLineItem.line_number (InvoiceData.line_items inv')
  = map InvoiceLineItem.line_number (InvoiceData.line_items inv)
    ++ (if String.eqb (segment_id s) "IT1" then [first_element s] else []).
Proof.
  unfold invoice_step, first_element. destruct inv.
  destruct (String.eqb_spec (segment_id s) "BIG") as [E|_].
  { rewrite E. cbn [String.eqb Ascii.eqb Bool.eqb].
    destruct (elements s) as [|? [|? [|? ?]]];
      cbn [length Nat.leb Nat.ltb py_getitem nth_error rbind];
      intros [= <-]; cbn; now rewrite app_nil_r. }
  destruct (String.eqb (segment_id s) "IT1").
  { destruct (parse_it1 (elements s)) as [item|] eqn:P; cbn [rbind];
      [|discriminate].
    intros [= <-]. cbn [InvoiceData.line_items].
    rewrite map_app. cbn [map]. now rewrite (parse_it1_line_number _ _ P). }
  rewrite app_nil_r.
  destruct (String.eqb (segment_id s) "N1"); [|now intros [= <-]].
  unfold n1_party.
  destruct (elements s) as [|? [|? ?]];
    cbn [length Nat.leb py_getitem nth_error rbind
         Party.entity_identifier_code];
    repeat match goal with
      | |- context [if String.eqb ?a ?b then _ else _] =>
          destruct (String.eqb a b)
      end; intros [= <-]; reflexivity.
Qed.

Lemma rfold_items {A I : Type} (step : A -> Segment -> result A)
  (items : A -> list I) (number : I -> string) (lid : string) :
  (forall a a' s,
      step a s = Ok a' ->
      map number (items a')
      = map number (items a)
        ++ (if String.eqb (segment_id s) lid then [first_element s] else [])) ->
  forall segs a a',
    rfold step segs a = Ok a' ->
    map number (items a')
    = map number (items a)
      ++ map first_element
           (filter (fun s => String.eqb (segment_id s) lid) segs).
Proof.
  intros S. induction segs as [|s segs IH]; intros a a'; cbn [rfold filter].
  - intros [= <-]. now rewrite app_nil_r.
  - destruct (step a s) as [a1|] eqn:E; cbn [rbind]; [|discriminate].
    intros R. rewrite (IH _ _ R), (S _ _ _ E), <- app_assoc.
    now destruct (String.eqb (segment_id s) lid).
Qed.

End ExtractionMore.

(** X12.  Segments whose id the extractor of a kind does not read do not
    change its result, whatever they hold and wherever they stand: only
    BEG, PO1 and N1 matter for a purchase order, BIG, IT1 and N1 for an
    invoice, BSN and N1 for a ship notice, AK1, AK2 and AK5 for an
    acknowledgment.  The envelope segments are among those ignored. *)
Theorem extraction_ignores_other_segments (PF : PyFloat)
  (segs : list Segment) :
  _parse_purchase_order (filter (has_id ["BEG"; "PO1"; "N1"]) segs)
  = _parse_purchase_order segs
  /\ _parse_invoice (filter (has_id ["BIG"; "IT1"; "N1"]) segs)
     = _parse_invoice segs
  /\ _parse_advance_ship_notice (filter (has_id ["BSN"; "N1"]) segs)
     = _parse_advance_ship_notice segs
  /\ _parse_functional_acknowledgment
       (filter (has_id ["AK1"; "AK2"; "AK5"]) segs)
     = _parse_functional_acknowledgment segs.
Proof.
  unfold _parse_purchase_order, _parse_invoice, _parse_advance_ship_notice,
    _parse_functional_acknowledgment.
  repeat split; apply rfold_filter.
  - intros a b. apply purchase_order_step_skips.
  - intros a b. apply invoice_step_skips.
  - intros a b. apply advance_ship_notice_step_skips.
  - intros a b. apply functional_acknowledgment_step_skips.
Qed.

(** X13.  Line items keep the order of their segments: when extraction of
    a purchase order (an invoice) returns, the line numbers of its line
    items are the first elements of the PO1 (IT1) segments, one per
    segment, in segment order. *)
Theorem line_items_in_segment_order (PF : PyFloat) (segs : list Segment) :
  (forall po_data,
      _parse_purchase_order segs = Ok po_data ->
      map PurchaseOrderLineItem.line_number
        (PurchaseOrderData.line_items po_data)
      = map first_element
          (filter (fun s => String.eqb (segment_id s) "PO1") segs))
  /\ (forall invoice_data,
         _parse_invoice segs = Ok invoice_data ->
         map InvoiceLineItem.line_number
           (InvoiceData.line_items invoice_data)
         = map first_element
             (filter (fun s => String.eqb (segment_id s) "IT1") segs)).
Proof.
  split.
  - intros po R.
    apply (rfold_items purchase_order_step PurchaseOrderData.line_items
             PurchaseOrderLineItem.line_number "PO1"
             purchase_order_step_items) in R.
    exact R.
  - intros inv R.
    apply (rfold_items invoice_step InvoiceData.line_items
             InvoiceLineItem.line_number "IT1" invoice_step_items) in R.
    exact R.
Qed.

Lemma line_items_in_segment_order_witness :
  @_parse_purchase_order DecimalFloat
    (_split_into_segments example_two_buyers) = Ok example_purchase_order
  /\ map PurchaseOrderLineItem.line_number
       (PurchaseOrderData.line_items example_purchase_order)
     = map first_element
         (filter (fun s => String.eqb (segment_id s) "PO1")
            (_split_into_segments example_two_buyers)).
Proof.
  split; [reflexivity|].
  apply (proj1 (line_items_in_segment_order DecimalFloat
                  (_split_into_segments example_two_buyers))).
  reflexivity.
Defined.

Lemma functional_acknowledgment_step_acks
  (fa : FunctionalAcknowledgmentData.t) (s : Segment) :
  exists fa',
    functional_acknowledgment_step fa s = Ok fa'
    /\ FunctionalAcknowledgmentData.transaction_set_acks fa'
       = FunctionalAcknowledgmentData.transaction_set_acks fa
         ++ (if String.eqb (segment_id s) "AK2" then [transaction_ack_of s]
             else []).
Proof.
  unfold functional_acknowledgment_step, transaction_ack_of. destruct fa.
  destruct (String.eqb_spec (segment_id s) "AK1") as [E|_].
  { rewrite E. cbn [String.eqb Ascii.eqb Bool.eqb].
    destruct (elements s) as [|? [|? [|? ?]]];
      cbn [length Nat.leb py_getitem nth_error rbind];
      eexists; (split; [reflexivity|]); cbn; now rewrite app_nil_r. }
  destruct (String.eqb (segment_id s) "AK2").
  { destruct (elements s) as [|? [|? [|? ?]]];
      cbn [length Nat.leb py_getitem nth_error rbind nth];
      eexists; split; reflexivity. }
  destruct (String.eqb (segment_id s) "AK5").
  { destruct (elements s) as [|? ?];
      cbn [length Nat.leb py_getitem nth_error rbind];
      eexists; (split; [reflexivity|]); cbn; now rewrite app_nil_r. }
  eexists; split; [reflexivity|]. cbn. now rewrite app_nil_r.
Qed.

Lemma rfold_acks (segs : list Segment) :
  forall fa,
  exists fa',
    rfold functional_acknowledgment_step segs fa = Ok fa'
    /\ FunctionalAcknowledgmentData.transaction_set_acks fa'
       = FunctionalAcknowledgmentData.transaction_set_acks fa
         ++ map transaction_ack_of
              (filter (fun s => String.eqb (segment_id s) "AK2") segs).
Proof.
  induction segs as [|s segs IH]; intros fa; cbn [rfold filter].
  - exists fa. now rewrite app_nil_r.
  - destruct (functional_acknowledgment_step_acks fa s) as (fa1 & -> & A1).
    cbn [rbind]. destruct (IH fa1) as (fa' & -> & A).
    exists fa'. split; [reflexivity|]. rewrite A, A1, <- app_assoc.
    now destruct (String.eqb (segment_id s) "AK2").
Qed.

(** X14.  Extraction of a functional acknowledgment returns for every
    segment list, and its [transaction_set_acks] holds one entry per AK2
    segment, in segment order, made of the segment's first three elements
    (empty where the segment is shorter). *)
Theorem transaction_acks_in_segment_order (segs : list Segment) :
  exists fa_data,
    _parse_functional_acknowledgment segs = Ok fa_data
    /\ FunctionalAcknowledgmentData.transaction_set_acks fa_data
       = map transaction_ack_of
           (filter (fun s => String.eqb (segment_id s) "AK2") segs).
Proof.
  destruct (rfold_acks segs FunctionalAcknowledgmentData.default)
    as (fa & R & A).
  exists fa. split; [exact R | exact A].
Qed.

(** ** The outcome of [parse_message] *)

Section ParserOutcome.
Context `{PyFloat}.

Lemma forallb_false_in {A : Type} (p : A -> bool) (l : list A) :
  forallb p l = false -> exists a, In a l /\ p a = false.
Proof.
  induction l as [|a l IH]; cbn; [discriminate|].
  destruct (p a) eqn:E.
  - intros F. destruct (IH F) as (b & I & N). exists b. auto.
  - intros _. exists a. auto.
Qed.

Lemma parse_message_unsupported (raw ty : string) :
  _is_message_type_supported ty = false ->
  parse_message raw ty
  = mkParseResult false IsNone None
      (Some ("Unsupported message type: " ^^ ty)).
Proof.
  intros U. destruct (unsupported_eqbs _ U) as (E1 & E2 & E3 & E4).
  unfold parse_message, parse_message_try. now rewrite E1, E2, E3, E4.
Qed.

Lemma parse_message_succeeds (raw ty : string) :
  _is_message_type_supported ty = true ->
  line_items_ok ty (_split_into_segments raw) = true ->
  exists d,
    class_of_type ty d = true
    /\ parse_message raw ty
       = mkParseResult true d (Some (_split_into_segments raw)) None.
Proof.
  intros S L. rewrite supported_is_mem in S.
  unfold parse_message, parse_message_try.
  rewrite convert_segments_same.
  destruct (supported_cases _ S) as [-> | [-> | [-> | ->]]];
    cbn [String.eqb Ascii.eqb Bool.eqb]; unfold line_items_ok in L;
    cbn [String.eqb Ascii.eqb Bool.eqb] in L.
  - rewrite forallb_forall in L.
    destruct (rfold_total purchase_order_step (_split_into_segments raw)
                (fun a b I => purchase_order_step_total a b (L b I))
                PurchaseOrderData.default) as (d & R).
    unfold _parse_purchase_order. rewrite R. cbn [rbind].
    exists (IsPurchaseOrder d). split; reflexivity.
  - rewrite forallb_forall in L.
    destruct (rfold_total invoice_step (_split_into_segments raw)
                (fun a b I => invoice_step_total a b (L b I))
                InvoiceData.default) as (d & R).
    unfold _parse_invoice. rewrite R. cbn [rbind].
    exists (IsInvoice d). split; reflexivity.
  - destruct (rfold_total advance_ship_notice_step
                (_split_into_segments raw)
                (fun a b _ => advance_ship_notice_step_total a b)
                AdvanceShipNoticeData.default) as (d & R).
    unfold _parse_advance_ship_notice. rewrite R. cbn [rbind].
    exists (IsAdvanceShipNotice d). split; reflexivity.
  - destruct (rfold_total functional_acknowledgment_step
                (_split_into_segments raw)
                (fun a b _ => functional_acknowledgment_step_total a b)
                FunctionalAcknowledgmentData.default) as (d & R).
    unfold _parse_functional_acknowledgment. rewrite R. cbn [rbind].
    exists (IsFunctionalAcknowledgment d). split; reflexivity.
Qed.

Lemma parse_message_fails (raw ty : string) :
  line_items_ok ty (_split_into_segments raw) = false ->
  exists e,
    parse_message raw ty
    = mkParseResult false IsNone None (Some ("Parsing error: " ^^ exn_str e)).
Proof.
  unfold line_items_ok.
  destruct (String.eqb_spec ty "850") as [->|_].
  { intros L. apply forallb_false_in in L as (seg & I & N).
    apply (parse_message_raises raw "850" "PO1" seg); auto. }
  destruct (String.eqb_spec ty "810") as [->|_]; [|discriminate].
  intros L. apply forallb_false_in in L as (seg & I & N).
  apply (parse_message_raises raw "810" "IT1" seg); auto.
Qed.

Lemma parse_message_success_iff (raw ty : string) :
  success (parse_message raw ty)
  = _is_message_type_supported ty
    && line_items_ok ty (_split_into_segments raw).
Proof.
  destruct (line_items_ok ty (_split_into_segments raw)) eqn:L.
  - destruct (_is_message_type_supported ty) eqn:S.
    + destruct (parse_message_succeeds raw ty S L) as (d & _ & ->).
      reflexivity.
    + now rewrite (parse_message_unsupported raw ty S).
  - destruct (parse_message_fails raw ty L) as (e & ->).
    now rewrite andb_false_r.
Qed.

End ParserOutcome.

(** X15.  [parse_message] never raises and has three outcomes.  For a type
    outside the four: failure with the text [Unsupported message type].
    For one of the four whose PO1 (850) or IT1 (810) segments all have
    empty or numeric quantity and unit price: success, with data of the
    class of the type and all the tokenized segments.  Otherwise: failure
    with a text that starts with [Parsing error: ], no data and no
    segments.  Types 856 and 997 always succeed. *)
Theorem parse_message_outcome (PF : PyFloat) (edi_message message_type : string) :
  (_is_message_type_supported message_type = false
   /\ parse_message edi_message message_type
      = mkParseResult false IsNone None
          (Some ("Unsupported message type: " ^^ message_type)))
  \/ (_is_message_type_supported message_type = true
      /\ line_items_ok message_type (_split_into_segments edi_message) = true
      /\ exists d,
           class_of_type message_type d = true
           /\ parse_message edi_message message_type
              = mkParseResult true d
                  (Some (_split_into_segments edi_message)) None)
  \/ (_is_message_type_supported message_type = true
      /\ (message_type = "850" \/ message_type = "810")
      /\ line_items_ok message_type (_split_into_segments edi_message) = false
      /\ exists text,
           parse_message edi_message message_type
           = mkParseResult false IsNone None
               (Some ("Parsing error: " ^^ text))).
Proof.
  destruct (_is_message_type_supported message_type) eqn:S.
  - destruct (line_items_ok message_type (_split_into_segments edi_message))
      eqn:L.
    + right. left. repeat split.
      apply parse_message_succeeds; assumption.
    + right. right. repeat split.
      * unfold line_items_ok in L.
        destruct (String.eqb_spec message_type "850"); [auto|].
        destruct (String.eqb_spec message_type "810"); [auto|discriminate].
      * destruct (parse_message_fails _ _ L) as (e & ->). now exists (exn_str e).
  - left. split; [reflexivity|]. now apply parse_message_unsupported.
Qed.

(** ** The numeric elements of the stored line items *)

Section LineItemValues.
Context `{PyFloat}.









End LineItemValues.



(** ** The outcome of [ProcessEdiMessage] *)

Section ServiceOutcome.
Context `{PyFloat}.

Lemma process_unsupported (request : ProcessEdiMessageRequest.t) :
  _is_message_type_supported (ProcessEdiMessageRequest.message_type request)
  = false ->
  ProcessEdiMessage request
  = ProcessEdiMessageResponse.plain
      PROCESSING_STATUS_UNSUPPORTED_MESSAGE_TYPE
      (ProcessEdiMessageRequest.message_type request)
      [unsupported_message_type
         (ProcessEdiMessageRequest.message_type request)].
Proof.
  intros U. unfold ProcessEdiMessage, ProcessEdiMessage_try. cbv zeta.
  now rewrite U.
Qed.

Lemma validate_format_coherent (raw ty : string) :
  coherent (validate_format raw ty).
Proof. rewrite validate_format_eq. apply format_result_coherent. Qed.

Lemma process_supported (request : ProcessEdiMessageRequest.t) :
  _is_message_type_supported (ProcessEdiMessageRequest.message_type request)
  = true ->
  ProcessEdiMessage request
  = let raw := ProcessEdiMessageRequest.edi_message request in
    let ty := ProcessEdiMessageRequest.message_type request in
    let options := ProcessEdiMessageRequest.options request in
    if ProcessingOptions.validate_format options
       && has_errors (validate_format raw ty) then
      ProcessEdiMessageResponse.plain PROCESSING_STATUS_VALIDATION_ERROR ty
        (messages (validate_format raw ty))
    else if negb (line_items_ok ty (_split_into_segments raw)) then
      ProcessEdiMessageResponse.plain PROCESSING_STATUS_PARSING_ERROR ty
        [error_msg "PARSING_ERROR"
           (match error_message (parse_message raw ty) with
            | Some m => m
            | None => ""
            end) "" 0]
    else if ProcessingOptions.validate_business_rules options
            && has_errors
                 (validate_business_rules (data (parse_message raw ty)) ty)
    then
      ProcessEdiMessageResponse.plain PROCESSING_STATUS_BUSINESS_RULE_ERROR
        ty (messages
              (validate_business_rules (data (parse_message raw ty)) ty))
    else
      typed_response ty (data (parse_message raw ty))
        (if ProcessingOptions.include_raw_segments options
         then _split_into_segments raw else []).
Proof.
  intros S. unfold ProcessEdiMessage, ProcessEdiMessage_try. cbv zeta.
  set (raw := ProcessEdiMessageRequest.edi_message request).
  set (ty := ProcessEdiMessageRequest.message_type request) in *.
  set (opts := ProcessEdiMessageRequest.options request).
  rewrite S. cbn [negb].
  assert (F : (if ProcessingOptions.validate_format opts
               then stage PROCESSING_STATUS_VALIDATION_ERROR ty []
                      (validate_format raw ty)
               else inr [])
              = if ProcessingOptions.validate_format opts
                   && has_errors (validate_format raw ty)
                then inl (ProcessEdiMessageResponse.plain
                            PROCESSING_STATUS_VALIDATION_ERROR ty
                            (messages (validate_format raw ty)))
                else inr []).
  { destruct (ProcessingOptions.validate_format opts); [|reflexivity].
    cbn [andb]. destruct (has_errors (validate_format raw ty)) eqn:E.
    - now rewrite (stage_with_errors _ _ _ _
                     (validate_format_coherent raw ty) E).
    - now rewrite (stage_without_errors _ _ _ _
                     (validate_format_coherent raw ty) E). }
  rewrite F. clear F.
  destruct (ProcessingOptions.validate_format opts
            && has_errors (validate_format raw ty)); [reflexivity|].
  rewrite parse_message_success_iff, S. cbn [andb].
  destruct (line_items_ok ty (_split_into_segments raw)) eqn:L;
    cbn [negb]; [|reflexivity].
  destruct (parse_message_succeeds raw ty S L) as (d & C & P).
  rewrite P. cbn [data segments].
  assert (B : (if ProcessingOptions.validate_business_rules opts
               then stage PROCESSING_STATUS_BUSINESS_RULE_ERROR ty []
                      (validate_business_rules d ty)
               else inr [])
              = if ProcessingOptions.validate_business_rules opts
                   && has_errors (validate_business_rules d ty)
                then inl (ProcessEdiMessageResponse.plain
                            PROCESSING_STATUS_BUSINESS_RULE_ERROR ty
                            (messages (validate_business_rules d ty)))
                else inr []).
  { destruct (ProcessingOptions.validate_business_rules opts);
      [|reflexivity].
    cbn [andb]. destruct (has_errors (validate_business_rules d ty)) eqn:E.
    - now rewrite (stage_with_errors _ _ _ _
                     (validate_business_rules_coherent d ty) E).
    - now rewrite (stage_without_errors _ _ _ _
                     (validate_business_rules_coherent d ty) E). }
  rewrite B. clear B.
  destruct (ProcessingOptions.validate_business_rules opts
            && has_errors (validate_business_rules d ty)); [reflexivity|].
  rewrite supported_is_mem in S. clear P L.
  unfold typed_response, ProcessEdiMessageResponse.plain.
  destruct (supported_cases _ S) as [E | [E | [E | E]]]; rewrite E in *;
    destruct d; cbn in C; try discriminate;
    cbn [String.eqb Ascii.eqb Bool.eqb rbind];
    destruct (ProcessingOptions.include_raw_segments opts); reflexivity.
Qed.

Lemma process_status (request : ProcessEdiMessageRequest.t) :
  ProcessEdiMessageResponse.status (ProcessEdiMessage request)
  = expected_status request.
Proof.
  unfold expected_status.
  destruct (_is_message_type_supported
              (ProcessEdiMessageRequest.message_type request)) eqn:S;
    cbn [negb].
  - rewrite (process_supported request S). cbv zeta.
    repeat match goal with
      | |- context [if ?c then _ else _] => destruct c
      end; reflexivity.
  - now rewrite (process_unsupported request S).
Qed.

End ServiceOutcome.

(** X16.  The status of [ProcessEdiMessage] is decided by the stages in
    their order: UNSUPPORTED_MESSAGE_TYPE for a type outside the four;
    else VALIDATION_ERROR when format validation is requested and finds an
    Error; else PARSING_ERROR when a PO1 or IT1 quantity or unit price
    cannot be converted; else BUSINESS_RULE_ERROR when the business rules
    are requested and find an Error; else SUCCESS.  The status is never
    INTERNAL_ERROR: nothing in the body of the request raises. *)
Theorem process_edi_message_status (PF : PyFloat)
  (request : ProcessEdiMessageRequest.t) :
  ProcessEdiMessageResponse.status (ProcessEdiMessage request)
  = expected_status request
  /\ ProcessEdiMessageResponse.status (ProcessEdiMessage request)
     <> PROCESSING_STATUS_INTERNAL_ERROR.
Proof.
  split; [apply process_status|]. rewrite process_status.
  unfold expected_status.
  repeat match goal with
    | |- context [if ?c then _ else _] => destruct c
    end; discriminate.
Qed.

(** ** What a response carries *)

(** X17.  A response of [ProcessEdiMessage] whose status is not SUCCESS
    carries no typed record and no segments, and its message list holds at
    least one Error. *)
Theorem failure_responses_carry_errors_only (PF : PyFloat)
  (request : ProcessEdiMessageRequest.t) :
  ProcessEdiMessageResponse.status (ProcessEdiMessage request)
  = PROCESSING_STATUS_SUCCESS
  \/ (ProcessEdiMessageResponse.purchase_order (ProcessEdiMessage request)
      = None
      /\ ProcessEdiMessageResponse.invoice (ProcessEdiMessage request) = None
      /\ ProcessEdiMessageResponse.advance_ship_notice
           (ProcessEdiMessage request) = None
      /\ ProcessEdiMessageResponse.functional_acknowledgment
           (ProcessEdiMessage request) = None
      /\ ProcessEdiMessageResponse.parsed_segments (ProcessEdiMessage request)
         = []
      /\ any_error
           (ProcessEdiMessageResponse.messages (ProcessEdiMessage request))
         = true).
Proof.
  destruct (_is_message_type_supported
              (ProcessEdiMessageRequest.message_type request)) eqn:S.
  - rewrite (process_supported request S). cbv zeta.
    set (raw := ProcessEdiMessageRequest.edi_message request).
    set (ty := ProcessEdiMessageRequest.message_type request).
    set (opts := ProcessEdiMessageRequest.options request).
    destruct (ProcessingOptions.validate_format opts
              && has_errors (validate_format raw ty)) eqn:F.
    { right. apply andb_true_iff in F as [_ F].
      destruct (validate_format_coherent raw ty) as [C _].
      rewrite F in C. cbn. now repeat split. }
    destruct (negb (line_items_ok ty (_split_into_segments raw)));
      [right; cbn; now repeat split|].
    destruct (ProcessingOptions.validate_business_rules opts
              && has_errors
                   (validate_business_rules (data (parse_message raw ty)) ty))
      eqn:B.
    { right. apply andb_true_iff in B as [_ B].
      destruct (validate_business_rules_coherent
                  (data (parse_message raw ty)) ty) as [C _].
      rewrite B in C. cbn. now repeat split. }
    left. reflexivity.
  - right. rewrite (process_unsupported request S). cbn. now repeat split.
Qed.

(** X18.  A SUCCESS response of [ProcessEdiMessage] carries the record
    that [parse_message] extracted, in the slot of the request's type and
    in no other; its segments are all the tokenized segments when raw
    segments are requested and none otherwise; its message list is
    empty. *)
Theorem success_response_content (PF : PyFloat)
  (request : ProcessEdiMessageRequest.t) :
  ProcessEdiMessageResponse.status (ProcessEdiMessage request)
  = PROCESSING_STATUS_SUCCESS ->
  exists d,
    class_of_type (ProcessEdiMessageRequest.message_type request) d = true
    /\ data (parse_message (ProcessEdiMessageRequest.edi_message request)
               (ProcessEdiMessageRequest.message_type request)) = d
    /\ ProcessEdiMessage request
       = typed_response (ProcessEdiMessageRequest.message_type request) d
           (if ProcessingOptions.include_raw_segments
                 (ProcessEdiMessageRequest.options request)
            then _split_into_segments
                   (ProcessEdiMessageRequest.edi_message request)
            else []).
Proof.
  destruct (_is_message_type_supported
              (ProcessEdiMessageRequest.message_type request)) eqn:S.
  - rewrite (process_supported request S). cbv zeta.
    set (raw := ProcessEdiMessageRequest.edi_message request).
    set (ty := ProcessEdiMessageRequest.message_type request) in *.
    set (opts := ProcessEdiMessageRequest.options request).
    destruct (ProcessingOptions.validate_format opts
              && has_errors (validate_format raw ty)); [discriminate|].
    destruct (line_items_ok ty (_split_into_segments raw)) eqn:L;
      cbn [negb]; [|discriminate].
    destruct (ProcessingOptions.validate_business_rules opts
              && has_errors
                   (validate_business_rules (data (parse_message raw ty)) ty));
      [discriminate|].
    intros _. destruct (parse_message_succeeds raw ty S L) as (d & C & P).
    exists d. rewrite P. cbn [data]. now repeat split.
  - rewrite (process_unsupported request S). discriminate.
Qed.

Lemma success_response_content_witness :
  ProcessEdiMessageResponse.status
    (@ProcessEdiMessage DecimalFloat example_validated_request)
  = PROCESSING_STATUS_SUCCESS
  /\ exists d,
       class_of_type
         (ProcessEdiMessageRequest.message_type example_validated_request) d
       = true
       /\ data (@parse_message DecimalFloat
                  (ProcessEdiMessageRequest.edi_message
                     example_validated_request)
                  (ProcessEdiMessageRequest.message_type
                     example_validated_request)) = d
       /\ @ProcessEdiMessage DecimalFloat example_validated_request
          = typed_response
              (ProcessEdiMessageRequest.message_type
                 example_validated_request) d
              (if ProcessingOptions.include_raw_segments
                    (ProcessEdiMessageRequest.options
                       example_validated_request)
               then _split_into_segments
                      (ProcessEdiMessageRequest.edi_message
                         example_validated_request)
               else []).
Proof.
  split; [vm_compute; reflexivity|].
  apply (success_response_content DecimalFloat example_validated_request).
  vm_compute. reflexivity.
Defined.

(** ** [ValidateEdiMessage] *)

Lemma validate_unsupported (raw ty customer : string) :
  _is_message_type_supported ty = false ->
  ValidateEdiMessage (ValidateEdiMessageRequest.mk raw ty customer)
  = ValidateEdiMessageResponse.mk PROCESSING_STATUS_UNSUPPORTED_MESSAGE_TYPE
      [unsupported_message_type ty] "" "".
Proof.
  intros U. unfold ValidateEdiMessage, ValidateEdiMessage_try.
  cbn [ValidateEdiMessageRequest.message_type]. now rewrite U.
Qed.

Lemma validate_supported (raw ty customer : string) :
  _is_message_type_supported ty = true ->
  ValidateEdiMessage (ValidateEdiMessageRequest.mk raw ty customer)
  = ValidateEdiMessageResponse.mk
      (if has_errors (validate_format raw ty)
       then PROCESSING_STATUS_VALIDATION_ERROR
       else PROCESSING_STATUS_SUCCESS)
      (messages (validate_format raw ty))
      (detect_edi_version raw) (detect_message_type raw).
Proof.
  intros S. unfold ValidateEdiMessage, ValidateEdiMessage_try.
  cbn [ValidateEdiMessageRequest.message_type
       ValidateEdiMessageRequest.edi_message].
  rewrite S. cbn [negb].
  destruct (validate_format_coherent raw ty) as [_ V]. rewrite V.
  now destruct (has_errors (validate_format raw ty)).
Qed.

(** X19.  With format validation requested, [ProcessEdiMessage] and
    [ValidateEdiMessage] agree on the same text and type: either the
    validation request returns SUCCESS and processing goes past the
    structural stage, or it does not and processing returns the same
    status (VALIDATION_ERROR or UNSUPPORTED_MESSAGE_TYPE) with the same
    messages. *)
Theorem validate_and_process_agree (PF : PyFloat)
  (raw ty customer : string) (options : ProcessingOptions.t) :
  ProcessingOptions.validate_format options = true ->
  (ValidateEdiMessageResponse.status
     (ValidateEdiMessage (ValidateEdiMessageRequest.mk raw ty customer))
   = PROCESSING_STATUS_SUCCESS
   /\ ProcessEdiMessageResponse.status
        (ProcessEdiMessage
           (ProcessEdiMessageRequest.mk raw ty customer options))
      <> PROCESSING_STATUS_VALIDATION_ERROR
   /\ ProcessEdiMessageResponse.status
        (ProcessEdiMessage
           (ProcessEdiMessageRequest.mk raw ty customer options))
      <> PROCESSING_STATUS_UNSUPPORTED_MESSAGE_TYPE)
  \/ (ValidateEdiMessageResponse.status
        (ValidateEdiMessage (ValidateEdiMessageRequest.mk raw ty customer))
      <> PROCESSING_STATUS_SUCCESS
      /\ ProcessEdiMessageResponse.status
           (ProcessEdiMessage
              (ProcessEdiMessageRequest.mk raw ty customer options))
         = ValidateEdiMessageResponse.status
             (ValidateEdiMessage
                (ValidateEdiMessageRequest.mk raw ty customer))
      /\ ProcessEdiMessageResponse.messages
           (ProcessEdiMessage
              (ProcessEdiMessageRequest.mk raw ty customer options))
         = ValidateEdiMessageResponse.messages
             (ValidateEdiMessage
                (ValidateEdiMessageRequest.mk raw ty customer))).
Proof.
  intros V. destruct (_is_message_type_supported ty) eqn:S.
  - rewrite (validate_supported raw ty customer S).
    rewrite (process_supported
               (ProcessEdiMessageRequest.mk raw ty customer options) S).
    cbv zeta.
    cbn [ProcessEdiMessageRequest.edi_message
         ProcessEdiMessageRequest.message_type
         ProcessEdiMessageRequest.options
         ValidateEdiMessageResponse.status
         ValidateEdiMessageResponse.messages].
    rewrite V. cbn [andb].
    destruct (has_errors (validate_format raw ty)).
    + right. cbn. repeat split. discriminate.
    + left. split; [reflexivity|].
      repeat match goal with
        | |- context [if ?c then _ else _] => destruct c
        end; split; discriminate.
  - right. rewrite (validate_unsupported raw ty customer S).
    rewrite (process_unsupported
               (ProcessEdiMessageRequest.mk raw ty customer options) S).
    cbn. repeat split. discriminate.
Qed.

Lemma validate_and_process_agree_witness :
  ProcessingOptions.validate_format all_options = true
  /\ ((ValidateEdiMessageResponse.status
         (ValidateEdiMessage
            (ValidateEdiMessageRequest.mk example_no_header "850" "C1"))
       = PROCESSING_STATUS_SUCCESS
       /\ ProcessEdiMessageResponse.status
            (@ProcessEdiMessage DecimalFloat
               (ProcessEdiMessageRequest.mk example_no_header "850" "C1"
                  all_options))
          <> PROCESSING_STATUS_VALIDATION_ERROR
       /\ ProcessEdiMessageResponse.status
            (@ProcessEdiMessage DecimalFloat
               (ProcessEdiMessageRequest.mk example_no_header "850" "C1"
                  all_options))
          <> PROCESSING_STATUS_UNSUPPORTED_MESSAGE_TYPE)
      \/ (ValidateEdiMessageResponse.status
            (ValidateEdiMessage
               (ValidateEdiMessageRequest.mk example_no_header "850" "C1"))
          <> PROCESSING_STATUS_SUCCESS
          /\ ProcessEdiMessageResponse.status
               (@ProcessEdiMessage DecimalFloat
                  (ProcessEdiMessageRequest.mk example_no_header "850" "C1"
                     all_options))
             = ValidateEdiMessageResponse.status
                 (ValidateEdiMessage
                    (ValidateEdiMessageRequest.mk example_no_header "850"
                       "C1"))
          /\ ProcessEdiMessageResponse.messages
               (@ProcessEdiMessage DecimalFloat
                  (ProcessEdiMessageRequest.mk example_no_header "850" "C1"
                     all_options))
             = ValidateEdiMessageResponse.messages
                 (ValidateEdiMessage
                    (ValidateEdiMessageRequest.mk example_no_header "850"
                       "C1")))).
Proof.
  split; [reflexivity|].
  apply (validate_and_process_agree DecimalFloat example_no_header "850" "C1"
           all_options).
  reflexivity.
Defined.

(** X20.  [ValidateEdiMessage] returns every message of the structural
    validation, Warnings included, in the validator's order (for a type
    outside the four, the single UNSUPPORTED_MESSAGE_TYPE message).  Its
    status is SUCCESS exactly when the returned messages hold no Error:
    VALIDATION_ERROR when the validation found an Error, SUCCESS
    otherwise, so Warnings stay in the list and do not change the
    status. *)
Theorem validate_edi_message_status (request : ValidateEdiMessageRequest.t) :
  (ValidateEdiMessageResponse.status (ValidateEdiMessage request)
   = PROCESSING_STATUS_SUCCESS
   <-> any_error
         (ValidateEdiMessageResponse.messages (ValidateEdiMessage request))
       = false)
  /\ ValidateEdiMessageResponse.messages (ValidateEdiMessage request)
     = (if _is_message_type_supported
             (ValidateEdiMessageRequest.message_type request)
        then messages
               (validate_format
                  (ValidateEdiMessageRequest.edi_message request)
                  (ValidateEdiMessageRequest.message_type request))
        else [unsupported_message_type
                (ValidateEdiMessageRequest.message_type request)])
  /\ ValidateEdiMessageResponse.status (ValidateEdiMessage request)
     = (if _is_message_type_supported
             (ValidateEdiMessageRequest.message_type request)
        then if has_errors
                  (validate_format
                     (ValidateEdiMessageRequest.edi_message request)
                     (ValidateEdiMessageRequest.message_type request))
             then PROCESSING_STATUS_VALIDATION_ERROR
             else PROCESSING_STATUS_SUCCESS
        else PROCESSING_STATUS_UNSUPPORTED_MESSAGE_TYPE).
Proof.
  destruct request as [raw ty customer].
  cbn [ValidateEdiMessageRequest.message_type
       ValidateEdiMessageRequest.edi_message].
  destruct (_is_message_type_supported ty) eqn:S.
  - rewrite (validate_supported raw ty customer S).
    cbn [ValidateEdiMessageResponse.status
         ValidateEdiMessageResponse.messages].
    split; [|split; reflexivity].
    destruct (validate_format_coherent raw ty) as [C _]. rewrite <- C.
    destruct (has_errors (validate_format raw ty)); split;
      try reflexivity; discriminate.
  - rewrite (validate_unsupported raw ty customer S). cbn.
    split; [|split; reflexivity].
    split; discriminate.
Qed.

(** ** Texts without a separator *)

Section EmptyDocuments.
Context `{PyFloat}.

Lemma line_items_ok_nil (ty : string) : line_items_ok ty [] = true.
Proof.
  unfold line_items_ok.
  destruct (String.eqb ty "850"); [reflexivity|].
  now destruct (String.eqb ty "810").
Qed.

Lemma parse_message_no_segments (raw ty : string) :
  _split_into_segments raw = [] ->
  data (parse_message raw ty) = default_data ty.
Proof.
  intros E. unfold parse_message, parse_message_try, default_data.
  rewrite E.
  destruct (String.eqb ty "850"); [reflexivity|].
  destruct (String.eqb ty "810"); [reflexivity|].
  destruct (String.eqb ty "856"); [reflexivity|].
  destruct (String.eqb ty "997"); reflexivity.
Qed.

End EmptyDocuments.

(** X21.  A text that holds no element separator (the empty text, a blank
    text, any text of lines without a star) is reported, when format
    validation is requested for a known type, as VALIDATION_ERROR with the
    single message EMPTY_MESSAGE and nothing else. *)
Theorem text_without_separator_is_empty (PF : PyFloat)
  (request : ProcessEdiMessageRequest.t) :
  has_char PyStr.star (ProcessEdiMessageRequest.edi_message request) = false ->
  _is_message_type_supported (ProcessEdiMessageRequest.message_type request)
  = true ->
  ProcessingOptions.validate_format (ProcessEdiMessageRequest.options request)
  = true ->
  ProcessEdiMessage request
  = ProcessEdiMessageResponse.plain PROCESSING_STATUS_VALIDATION_ERROR
      (ProcessEdiMessageRequest.message_type request) [empty_message].
Proof.
  intros N S V. rewrite (process_supported request S). cbv zeta.
  rewrite V, validate_format_eq, (no_separator_no_segments _ N).
  unfold format_result. rewrite <- supported_is_mem, S. reflexivity.
Qed.

Lemma text_without_separator_is_empty_witness :
  has_char PyStr.star
    (ProcessEdiMessageRequest.edi_message (example_empty_request all_options))
  = false
  /\ _is_message_type_supported
       (ProcessEdiMessageRequest.message_type
          (example_empty_request all_options)) = true
  /\ ProcessingOptions.validate_format
       (ProcessEdiMessageRequest.options (example_empty_request all_options))
     = true
  /\ @ProcessEdiMessage DecimalFloat (example_empty_request all_options)
     = ProcessEdiMessageResponse.plain PROCESSING_STATUS_VALIDATION_ERROR
         (ProcessEdiMessageRequest.message_type
            (example_empty_request all_options)) [empty_message].
Proof.
  repeat (split; [reflexivity|]).
  apply (text_without_separator_is_empty DecimalFloat
           (example_empty_request all_options)); reflexivity.
Defined.

(** X22.  With both validations switched off, a text that holds no
    element separator is processed to SUCCESS for every known type: the
    response carries the record of the type with every field empty, no
    message and no segment. *)
Theorem unchecked_empty_text_succeeds (PF : PyFloat)
  (request : ProcessEdiMessageRequest.t) :
  has_char PyStr.star (ProcessEdiMessageRequest.edi_message request) = false ->
  _is_message_type_supported (ProcessEdiMessageRequest.message_type request)
  = true ->
  ProcessingOptions.validate_format (ProcessEdiMessageRequest.options request)
  = false ->
  ProcessingOptions.validate_business_rules
    (ProcessEdiMessageRequest.options request) = false ->
  ProcessEdiMessage request
  = typed_response (ProcessEdiMessageRequest.message_type request)
      (default_data (ProcessEdiMessageRequest.message_type request)) [].
Proof.
  intros N S V B. rewrite (process_supported request S). cbv zeta.
  rewrite V, B, (no_separator_no_segments _ N), line_items_ok_nil.
  cbn [andb negb].
  rewrite (parse_message_no_segments _ _ (no_separator_no_segments _ N)).
  now destruct (ProcessingOptions.include_raw_segments
                  (ProcessEdiMessageRequest.options request)).
Qed.

Lemma unchecked_empty_text_succeeds_witness :
  has_char PyStr.star
    (ProcessEdiMessageRequest.edi_message (example_empty_request no_options))
  = false
  /\ _is_message_type_supported
       (ProcessEdiMessageRequest.message_type
          (example_empty_request no_options)) = true
  /\ ProcessingOptions.validate_format
       (ProcessEdiMessageRequest.options (example_empty_request no_options))
     = false
  /\ ProcessingOptions.validate_business_rules
       (ProcessEdiMessageRequest.options (example_empty_request no_options))
     = false
  /\ @ProcessEdiMessage DecimalFloat (example_empty_request no_options)
     = typed_response
         (ProcessEdiMessageRequest.message_type
            (example_empty_request no_options))
         (default_data
            (ProcessEdiMessageRequest.message_type
               (example_empty_request no_options))) [].
Proof.
  repeat (split; [reflexivity|]).
  apply (unchecked_empty_text_succeeds DecimalFloat
           (example_empty_request no_options)); reflexivity.
Defined.

(** ** The advertised types *)

(** X23.  What [GetSupportedMessageTypes] advertises is what the
    validator enforces: for every customer id the advertised codes are the
    keys of the validator's table, in the same order, every advertised
    type is marked supported, and its required and optional segments are
    those of the validator's entry for its code. *)
Theorem advertised_types_match_validator (customer_id : string) :
  map EdiMessageType.code (GetSupportedMessageTypes customer_id)
  = map fst segment_patterns
  /\ Forall
       (fun t =>
          EdiMessageType.supported t = true
          /\ _is_message_type_supported (EdiMessageType.code t) = true
          /\ py_dict_get segment_patterns (EdiMessageType.code t)
             = Ok [ ("required", EdiMessageType.required_segments t);
                    ("optional", EdiMessageType.optional_segments t) ])
       (GetSupportedMessageTypes customer_id).
Proof.
  unfold GetSupportedMessageTypes, GetSupportedMessageTypes_try. cbv zeta.
  destruct (negb (String.eqb customer_id ""));
    (split; [reflexivity | repeat constructor]).
Qed.

(** ** Positions and line numbers *)

Lemma collect_position_le_line (l : list string) :
  forall k n,
    n <= k ->
    Forall (fun seg => position seg <= line_number seg)
      (collect (combine (seq k (length l)) l) n).
Proof.
  induction l as [|line l IH]; intros k n L; cbn [length seq combine collect];
    [constructor|].
  destruct (keep (k, line)) as [[[sid es] ln]|] eqn:K.
  - apply keep_line_number in K. cbn [fst] in K. constructor.
    + cbn [position line_number]. lia.
    + apply IH. lia.
  - apply IH. lia.
Qed.

(** X24.  The position of a segment never exceeds its line number: every
    segment comes from a line of its own, and skipped lines are counted by
    the line number only. *)
Theorem position_at_most_line_number (edi_message : string) :
  Forall (fun seg => 1 <= position seg /\ position seg <= line_number seg)
    (_split_into_segments edi_message).
Proof.
  rewrite split_into_segments_collect. unfold PyStr.enumerate.
  pose proof (collect_position_le_line
                (PyStr.split PyStr.LF (PyStr.strip edi_message)) 0 0
                (le_n 0)) as P.
  pose proof (collect_positions
                (combine
                   (seq 0 (length (PyStr.split PyStr.LF
                                     (PyStr.strip edi_message))))
                   (PyStr.split PyStr.LF (PyStr.strip edi_message))) 0) as Q.
  rewrite Forall_forall in *. intros seg I. split; [|now apply P].
  assert (In (position seg)
            (seq (0 + 1)
               (length
                  (collect
                     (combine
                        (seq 0 (length (PyStr.split PyStr.LF
                                          (PyStr.strip edi_message))))
                        (PyStr.split PyStr.LF (PyStr.strip edi_message)))
                     0)))) as J
    by (rewrite <- Q; now apply in_map).
  apply in_seq in J. lia.
Qed.

(** ** The ISA length warnings *)

Lemma isa_length_fields (elems : list string) (ies : list (nat * nat)) :
  map ProcessingMessage.field
    (with_code "ISA_ELEMENT_TOO_LONG"
       (flat_map (isa_length_message elems) ies))
  = map (fun ie => "ISA." ^^ PyStr.str_of_nat (fst ie + 1))
      (filter (too_long elems) ies).
Proof.
  induction ies as [|ie ies IH]; cbn [flat_map filter]; [reflexivity|].
  rewrite with_code_app, map_app, IH.
  unfold isa_length_message, too_long.
  destruct (nth_error elems (fst ie)); [|reflexivity].
  now destruct (snd ie <? String.length s).
Qed.

(** X25.  When the first segment is ISA, the ISA_ELEMENT_TOO_LONG
    warnings name, by their 1-based index in the field [ISA.i], exactly the
    elements among the first 16 that are longer than the limit of their
    place, in order; elements after the 16th are never measured. *)
Theorem isa_length_warnings_locate_elements
  (edi_message message_type : string) (first : Segment)
  (rest : list Segment) :
  py_dict_mem segment_patterns message_type = true ->
  _split_into_segments edi_message = first :: rest ->
  segment_id first = "ISA" ->
  map ProcessingMessage.field
    (with_code "ISA_ELEMENT_TOO_LONG"
       (messages (validate_format edi_message message_type)))
  = map (fun ie => "ISA." ^^ PyStr.str_of_nat (fst ie + 1))
      (filter (too_long (elements first))
         (PyStr.enumerate isa_element_lengths)).
Proof.
  intros S E I. rewrite validate_format_eq, E. unfold format_result.
  rewrite S. cbn [negb messages format_messages]. unfold later_messages.
  rewrite !with_code_app, !map_app.
  rewrite (with_code_other "ISA_ELEMENT_TOO_LONG" _ _
             (missing_messages_codes _ _) eq_refl).
  rewrite (with_code_other "ISA_ELEMENT_TOO_LONG" _ _
             (structure_messages_codes _) eq_refl).
  rewrite (with_code_other "ISA_ELEMENT_TOO_LONG" _ _
             (element_messages_codes _) eq_refl).
  cbn [map app]. rewrite app_nil_r.
  unfold isa_messages. rewrite I. cbn [String.eqb Ascii.eqb Bool.eqb negb].
  rewrite with_code_app, map_app, isa_length_fields.
  now destruct (length (elements first) <? 16).
Qed.

Lemma isa_length_warnings_locate_elements_witness :
  py_dict_mem segment_patterns "997" = true
  /\ _split_into_segments example_long_isa_element
     = example_isa :: tl (_split_into_segments example_long_isa_element)
  /\ segment_id example_isa = "ISA"
  /\ map ProcessingMessage.field
       (with_code "ISA_ELEMENT_TOO_LONG"
          (messages (validate_format example_long_isa_element "997")))
     = map (fun ie => "ISA." ^^ PyStr.str_of_nat (fst ie + 1))
         (filter (too_long (elements example_isa))
            (PyStr.enumerate isa_element_lengths)).
Proof.
  split; [reflexivity|]. split; [vm_compute; reflexivity|].
  split; [reflexivity|].
  apply (isa_length_warnings_locate_elements example_long_isa_element "997"
           example_isa (tl (_split_into_segments example_long_isa_element)));
    [reflexivity | vm_compute; reflexivity | reflexivity].
Defined.
